(** * ipo-bot: the GMP relay pipeline of [src/gmp.js] and of the request
      handler, as Rocq functions

    The repository is one linear pipeline written twice: [src/gmp.js] (a
    script run by a scheduler) and the request handler.  Both build the
    report URL from the clock, fetch the report, keep the rows whose close
    date is today, render them as text and post the text to a chat.

    Conventions of the embedding.
    - A JavaScript string is the list of its UTF-16 code units
      ([jsstring]); regular expressions without the [u] flag, [trim],
      [split] and [slice] all work on code units.
    - A value produced by [JSON.parse] is a [json]; [undefined] (an absent
      property) is [None] in [option json].
    - A function that can throw returns a [result]; the two network calls
      are threaded through a small state-and-error monad over a log of the
      requests issued.
    - What comes from the outside (the clock, the environment variables,
      the replies of the two remote services, the engine's own wording of
      its error messages, the part of [Date.parse] that ECMAScript leaves
      to the implementation) is a field of [env] or of [world]. *)

From Stdlib Require Import String Ascii.
From Stdlib Require Import List NArith ZArith Lia Bool.
Import ListNotations.

Set Implicit Arguments.
Set Warnings "-register-all".

(* ================================================================== *)
(** * JavaScript strings *)
(* ================================================================== *)

Module JsString.

(** A UTF-16 code unit. *)
Definition unit16 := N.
Definition jsstring := list unit16.

(** An ASCII literal of the source. *)
Definition js (x : string) : jsstring :=
  List.map N_of_ascii (list_ascii_of_string x).
Arguments js x%_string.

Fixpoint jsstring_eqb (a b : jsstring) : bool :=
  match a, b with
  | [], [] => true
  | x :: a', y :: b' => N.eqb x y && jsstring_eqb a' b'
  | _, _ => false
  end.

(** [\d] *)
Definition isDigit (c : unit16) : bool := (48 <=? c)%N && (c <=? 57)%N.

(** [[A-Za-z]] *)
Definition isAlpha (c : unit16) : bool :=
  ((65 <=? c)%N && (c <=? 90)%N) || ((97 <=? c)%N && (c <=? 122)%N).

(** [\s], which is also what [trim] removes: WhiteSpace and
    LineTerminator of ECMAScript. *)
Definition isSpace (c : unit16) : bool :=
  ((9 <=? c)%N && (c <=? 13)%N) || (c =? 32)%N || (c =? 160)%N
  || (c =? 5760)%N || ((8192 <=? c)%N && (c <=? 8202)%N)
  || (c =? 8232)%N || (c =? 8233)%N || (c =? 8239)%N || (c =? 8287)%N
  || (c =? 12288)%N || (c =? 65279)%N.

Fixpoint dropWhile (p : unit16 -> bool) (s : jsstring) : jsstring :=
  match s with
  | [] => []
  | c :: rest => if p c then dropWhile p rest else s
  end.

(** [s.trim()] *)
Definition trim (s : jsstring) : jsstring :=
  rev (dropWhile isSpace (rev (dropWhile isSpace s))).

(** [s.padStart(len, "0")] *)
Definition padStart0 (len : nat) (s : jsstring) : jsstring :=
  repeat 48%N (len - length s) ++ s.

(** [s.slice(-k)] *)
Definition sliceLast (k : nat) (s : jsstring) : jsstring :=
  skipn (length s - k) s.

(** [s.slice(0, k)] *)
Definition sliceFirst (k : nat) (s : jsstring) : jsstring := firstn k s.

(** [c.toLowerCase()] on one code unit; the source lowers ASCII letters
    only (the operand has matched [[A-Za-z]{3}]). *)
Definition lowerUnit (c : unit16) : unit16 :=
  if (65 <=? c)%N && (c <=? 90)%N then (c + 32)%N else c.

Definition toLowerCase (s : jsstring) : jsstring := List.map lowerUnit s.

(** [prefix p s]: [s.startsWith(p)]. *)
Fixpoint prefix (p s : jsstring) : bool :=
  match p, s with
  | [], _ => true
  | a :: p', b :: s' => N.eqb a b && prefix p' s'
  | _ :: _, [] => false
  end.

(** [includes q s]: [s.includes(q)]. *)
Fixpoint includes (q s : jsstring) : bool :=
  prefix q s ||
  match s with
  | [] => false
  | _ :: rest => includes q rest
  end.

(** A global replacement, [s.replace(/re/g, r)] for a pattern that never
    matches the empty string: the text is scanned from the left; where the
    pattern matches at the current position, the replacement is emitted and
    the scan resumes after the match; elsewhere one code unit is copied.
    [m] is the pattern: on the text that starts at the current position it
    answers the length of the match and the replacement.  [skip] counts the
    code units of a match still to be passed over. *)
Fixpoint replace_g (m : jsstring -> option (nat * jsstring))
    (skip : nat) (s : jsstring) : jsstring :=
  match s with
  | [] => []
  | c :: rest =>
      match skip with
      | S k => replace_g m k rest
      | O =>
          match m (c :: rest) with
          | Some (len, r) => r ++ replace_g m (len - 1) rest
          | None => c :: replace_g m 0 rest
          end
      end
  end.

(** [s.split(sep).join(r)] for a non-empty separator: every occurrence of
    [sep], found from the left and without overlap, becomes [r]. *)
Definition literal (sep r : jsstring) (s : jsstring)
  : option (nat * jsstring) :=
  if prefix sep s then Some (length sep, r) else None.

Definition splitJoin (sep r s : jsstring) : jsstring :=
  replace_g (literal sep r) 0 s.

(** Decimal numerals. *)
Definition digitUnit (d : N) : unit16 := (48 + d)%N.

Fixpoint decimal_fuel (fuel : nat) (n : N) : jsstring :=
  match fuel with
  | O => []
  | S f =>
      if (n <? 10)%N then [digitUnit n]
      else decimal_fuel f (n / 10)%N ++ [digitUnit (n mod 10)%N]
  end.

(** The fuel exceeds the number of digits of [n]. *)
Definition decimalN (n : N) : jsstring :=
  decimal_fuel (S (N.to_nat (N.log2 n))) n.

(** [String(n)] for an integer [n]. *)
Definition decimalZ (z : Z) : jsstring :=
  if (z <? 0)%Z then 45%N :: decimalN (Z.to_N (- z)) else decimalN (Z.to_N z).

(** [Number(ds)] for a string of decimal digits. *)
Definition digitsValue (ds : jsstring) : N :=
  fold_left (fun acc c => (10 * acc + (c - 48))%N) ds 0%N.

End JsString.
Export JsString.

(* ================================================================== *)
(** * Errors and results *)
(* ================================================================== *)

(** What the code can throw.  [Error m] is [new Error(m)] of the source,
    and a rejected [fetch] or [res.json()] with its message; the other
    three are raised by the engine itself. *)
Inductive error :=
| Error (message : jsstring)
| TypeError_readNull (property : jsstring)   (* null[property] *)
| RangeError_codePoint (code : N)            (* String.fromCodePoint(code) *)
| TypeError_invalidURL (input : jsstring)    (* new URL(input) *)
| RangeError_invalidTime.                    (* toISOString of an invalid date *)

Inductive result (A : Type) :=
| Ok (a : A)
| Throw (e : error).
Arguments Ok {A} a.
Arguments Throw {A} e.

Definition rbind {A B} (r : result A) (k : A -> result B) : result B :=
  match r with
  | Ok a => k a
  | Throw e => Throw e
  end.

Declare Scope result_scope.
Delimit Scope result_scope with result.
Notation "'let?' x ':=' r 'in' k" := (rbind r (fun x => k))
  (at level 10, x pattern, r at level 100, k at level 200) : result_scope.

(* ================================================================== *)
(** * JSON values and the built-ins used on them *)
(* ================================================================== *)

Module Json.

(** A number, by the two things the code can observe of it: whether it is
    [0] or [-0] (the falsy numbers [JSON.parse] can return), and its
    decimal text, which is what [JSON.stringify] prints. *)
Record number := { num_is_zero : bool; num_text : jsstring }.

Definition number_of_Z (z : Z) : number :=
  {| num_is_zero := (z =? 0)%Z; num_text := decimalZ z |}.

Inductive json :=
| JNull
| JBool (b : bool)
| JNum (n : number)
| JStr (s : jsstring)
| JArr (items : list json)
| JObj (props : list (jsstring * json)).

(** A JavaScript value as the code meets it: [None] is [undefined]. *)
Definition value := option json.

(** [!!v] *)
Definition truthy (v : value) : bool :=
  match v with
  | None | Some JNull => false
  | Some (JBool b) => b
  | Some (JNum n) => negb (num_is_zero n)
  | Some (JStr s) => match s with [] => false | _ => true end
  | Some (JArr _) | Some (JObj _) => true
  end.

(** [a || b] *)
Definition or_else (a b : value) : value := if truthy a then a else b.

Fixpoint assoc (k : jsstring) (props : list (jsstring * json)) : value :=
  match props with
  | [] => None
  | (k', v) :: rest => if jsstring_eqb k k' then Some v else assoc k rest
  end.

(** [o[k]] for the property names the code reads (Name, GMP, Price, Sub,
    GMP(L/H), Open, Close, ~Srt_Close, Listing, Updated-On,
    reportTableData, ok).  An object is the list of its own properties, in
    insertion order, with distinct names.  None of the names read is a
    property of the Object, String, Number, Boolean or Array prototypes,
    so on a primitive or an array, and on an object without the property,
    the read yields [undefined]; on [null] it throws. *)
Definition get (o : json) (k : jsstring) : result value :=
  match o with
  | JNull => Throw (TypeError_readNull k)
  | JObj props => Ok (assoc k props)
  | _ => Ok None
  end.

(** [JSON.stringify]: QuoteJSONString.  A lone surrogate is escaped, a
    surrogate pair is copied. *)
Definition hexUnit (d : N) : unit16 :=
  if (d <? 10)%N then (48 + d)%N else (87 + d)%N.

Definition escapeUnicode (c : unit16) : jsstring :=
  js "\u" ++ [hexUnit (c / 4096 mod 16)%N; hexUnit (c / 256 mod 16)%N;
              hexUnit (c / 16 mod 16)%N; hexUnit (c mod 16)%N].

Definition isHighSurrogate (c : unit16) : bool :=
  (55296 <=? c)%N && (c <=? 56319)%N.
Definition isLowSurrogate (c : unit16) : bool :=
  (56320 <=? c)%N && (c <=? 57343)%N.

Definition quoteUnit (c : unit16) : jsstring :=
  if (c =? 8)%N then js "\b"
  else if (c =? 9)%N then js "\t"
  else if (c =? 10)%N then js "\n"
  else if (c =? 12)%N then js "\f"
  else if (c =? 13)%N then js "\r"
  else if (c =? 34)%N then [92; 34]%N
  else if (c =? 92)%N then js "\\"
  else if (c <? 32)%N then escapeUnicode c
  else [c].

Fixpoint quoteBody (s : jsstring) : jsstring :=
  match s with
  | [] => []
  | c :: rest =>
      if isHighSurrogate c then
        match rest with
        | d :: rest' =>
            if isLowSurrogate d then c :: d :: quoteBody rest'
            else escapeUnicode c ++ quoteBody rest
        | [] => escapeUnicode c
        end
      else if isLowSurrogate c then escapeUnicode c ++ quoteBody rest
      else quoteUnit c ++ quoteBody rest
  end.

Definition QuoteJSONString (s : jsstring) : jsstring :=
  [34%N] ++ quoteBody s ++ [34%N].

(** [parts.join(sep)] *)
Fixpoint join (sep : jsstring) (parts : list jsstring) : jsstring :=
  match parts with
  | [] => []
  | [p] => p
  | p :: rest => p ++ sep ++ join sep rest
  end.

(** SerializeJSONObject and SerializeJSONArray wrap their members alike. *)
Definition wrapMembers (opening closing gap stepback : jsstring)
    (parts : list jsstring) : jsstring :=
  match parts with
  | [] => opening ++ closing
  | _ =>
      match gap with
      | [] => opening ++ join (js ",") parts ++ closing
      | _ =>
          let indent := stepback ++ gap in
          opening ++ [10%N] ++ indent
          ++ join (js "," ++ [10%N] ++ indent) parts
          ++ [10%N] ++ stepback ++ closing
      end
  end.

(** SerializeJSONProperty on a value that came from [JSON.parse]. *)
Fixpoint serialize (gap stepback : jsstring) (j : json) : jsstring :=
  match j with
  | JNull => js "null"
  | JBool true => js "true"
  | JBool false => js "false"
  | JNum n => num_text n
  | JStr s => QuoteJSONString s
  | JArr items =>
      wrapMembers (js "[") (js "]") gap stepback
        (List.map (serialize gap (stepback ++ gap)) items)
  | JObj props =>
      wrapMembers (js "{") (js "}") gap stepback
        (List.map
           (fun kv =>
              match kv with
              | (k, v) =>
                  QuoteJSONString k ++ js ":"
                  ++ match gap with [] => [] | _ => js " " end
                  ++ serialize gap (stepback ++ gap) v
              end) props)
  end.

(** [JSON.stringify(j)] *)
Definition JSON_stringify (j : json) : jsstring := serialize [] [] j.

(** [JSON.stringify(j, null, 2)] *)
Definition JSON_stringify_2 (j : json) : jsstring := serialize (js "  ") [] j.

End Json.
Export Json.

(* ================================================================== *)
(** * Dates *)
(* ================================================================== *)

Module JsDate.

Local Open Scope Z_scope.

Definition msPerDay : Z := 86400000.

(** Days since 1970-01-01 of a date of the proleptic Gregorian calendar
    (MakeDay of ECMAScript), and back. *)
Definition days_from_civil (y m d : Z) : Z :=
  let y' := if m <=? 2 then y - 1 else y in
  let era := y' / 400 in
  let yoe := y' - era * 400 in
  let mp := if m <=? 2 then m + 9 else m - 3 in
  let doy := (153 * mp + 2) / 5 + d - 1 in
  let doe := yoe * 365 + yoe / 4 - yoe / 100 + doy in
  era * 146097 + doe - 719468.

Definition civil_of_day_of_era (era doe : Z) : Z * Z * Z :=
  let yoe := (doe - doe / 1460 + doe / 36524 - doe / 146096) / 365 in
  let doy := doe - (365 * yoe + yoe / 4 - yoe / 100) in
  let mp := (5 * doy + 2) / 153 in
  let d := doy - (153 * mp + 2) / 5 + 1 in
  let m := if mp <? 10 then mp + 3 else mp - 9 in
  let y := yoe + era * 400 in
  (if m <=? 2 then y + 1 else y, m, d).

Definition civil_from_days (z : Z) : Z * Z * Z :=
  let z' := z + 719468 in
  civil_of_day_of_era (z' / 146097) (z' mod 146097).

(** [d.getUTCFullYear()] of the date with time value [t]. *)
Definition UTCFullYear (t : Z) : Z :=
  fst (fst (civil_from_days (t / msPerDay))).

Definition isLeap (y : Z) : bool :=
  ((y mod 4 =? 0) && negb (y mod 100 =? 0)) || (y mod 400 =? 0).

Definition daysInMonth (y m : Z) : Z :=
  if m =? 2 then (if isLeap y then 29 else 28)
  else if (m =? 4) || (m =? 6) || (m =? 9) || (m =? 11) then 30
  else 31.

(** TimeClip: a time value is at most 8.64e15 ms away from the epoch. *)
Definition timeClip (t : Z) : option Z :=
  if Z.abs t <=? 8640000000000000 then Some t else None.

Definition pad (len : nat) (n : Z) : jsstring :=
  padStart0 len (decimalN (Z.to_N n)).

(** [d.toISOString()] of a valid date with time value [t]:
    YYYY-MM-DDTHH:mm:ss.sssZ, the year written with a sign and six digits
    when it is outside 0..9999. *)
Definition toISOString (t : Z) : jsstring :=
  let '(y, m, d) := civil_from_days (t / msPerDay) in
  let ms := t mod msPerDay in
  let year :=
    if (0 <=? y) && (y <=? 9999) then pad 4 y
    else if y <? 0 then js "-" ++ pad 6 (- y)
    else js "+" ++ pad 6 y in
  year ++ js "-" ++ pad 2 m ++ js "-" ++ pad 2 d
  ++ js "T" ++ pad 2 (ms / 3600000) ++ js ":" ++ pad 2 (ms / 60000 mod 60)
  ++ js ":" ++ pad 2 (ms / 1000 mod 60) ++ js "." ++ pad 3 (ms mod 1000)
  ++ js "Z".

(** The part of [Date.parse] that ECMAScript fixes (Date Time String
    Format), for the two shapes [Y-MM-DD] and [Y-MM-DDTHH:mm:ssZ], where
    [Y] is four digits, or a sign and six digits (an expanded year).  A
    date alone is midnight UTC.  Any other text is left to the
    implementation ([legacyParse] of the environment). *)
Definition number_of (ds : jsstring) : option Z :=
  if forallb isDigit ds then Some (Z.of_N (digitsValue ds)) else None.

Definition splitYear (s : jsstring) : option (Z * jsstring) :=
  match s with
  | sign :: a :: b :: c :: d :: e :: f :: rest =>
      if (sign =? 43)%N || (sign =? 45)%N then
        match number_of [a; b; c; d; e; f] with
        | Some y =>
            if (sign =? 43)%N then Some (y, rest)
            else if y =? 0 then None else Some (- y, rest)
        | None => None
        end
      else
        match number_of [sign; a; b; c] with
        | Some y => Some (y, d :: e :: f :: rest)
        | None => None
        end
  | [a; b; c; d] =>
      match number_of [a; b; c; d] with
      | Some y => Some (y, [])
      | None => None
      end
  | _ => None
  end.

Definition parseTime (s : jsstring) : option Z :=
  match s with
  | [] => Some 0
  | [t; h1; h2; c1; m1; m2; c2; s1; s2; z] =>
      if (t =? 84)%N && (c1 =? 58)%N && (c2 =? 58)%N && (z =? 90)%N then
        match number_of [h1; h2], number_of [m1; m2], number_of [s1; s2] with
        | Some h, Some mi, Some se =>
            if (h <=? 23) && (mi <=? 59) && (se <=? 59)
            then Some (h * 3600000 + mi * 60000 + se * 1000)
            else None
        | _, _, _ => None
        end
      else None
  | _ => None
  end.

Definition parseIso (s : jsstring) : option Z :=
  match splitYear s with
  | Some (y, d1 :: m1 :: m2 :: d2 :: a :: b :: rest) =>
      if (d1 =? 45)%N && (d2 =? 45)%N then
        match number_of [m1; m2], number_of [a; b], parseTime rest with
        | Some m, Some d, Some ms =>
            if (1 <=? m) && (m <=? 12) && (1 <=? d) && (d <=? daysInMonth y m)
            then timeClip (days_from_civil y m d * msPerDay + ms)
            else None
        | _, _, _ => None
        end
      else None
  | _ => None
  end.

(** [new Date(s).getTime()], [None] for NaN. *)
Definition Date_parse (legacyParse : jsstring -> option Z) (s : jsstring)
  : option Z :=
  match parseIso s with
  | Some t => Some t
  | None =>
      match legacyParse s with
      | Some t => timeClip t
      | None => None
      end
  end.

End JsDate.
Export JsDate.

(* ================================================================== *)
(** * The environment of one run *)
(* ================================================================== *)

(** The local clock, as the getters of [new Date()] read it. *)
Record clock := {
  getFullYear : Z;
  getMonth : Z;      (* 0..11 *)
  getDate : Z;       (* 1..31 *)
  getHours : Z;      (* 0..23 *)
  getMinutes : Z     (* 0..59 *)
}.

Record env := {
  (* process.env *)
  env_API_URL : option jsstring;
  env_BOT_TOKEN : option jsstring;
  env_CHAT_ID : option jsstring;
  env_API_REPORT_ID : option jsstring;
  (* new Date(), read once for the run *)
  now : clock;
  (* Intl.DateTimeFormat("en-CA", {timeZone: "Asia/Kolkata", ...})
       .format(new Date()) *)
  todayInKolkata : jsstring;
  (* new Date().toISOString() *)
  nowIso : jsstring;
  (* Date.parse outside the Date Time String Format *)
  legacyParse : jsstring -> option Z;
  (* new URL(s), with the two search parameters set, serialised; None when
     the URL parser rejects s *)
  URL_href : jsstring -> list (jsstring * jsstring) -> option jsstring;
  (* new URLSearchParams(pairs).toString() *)
  URLSearchParams_toString : list (jsstring * jsstring) -> jsstring;
  (* err.message of an error raised by the engine *)
  engineMessage : error -> jsstring
}.

(** [err.message] *)
Definition message (E : env) (e : error) : jsstring :=
  match e with
  | Error m => m
  | _ => engineMessage E e
  end.

(* ================================================================== *)
(** * The row filter, the row formatter and the message composer *)
(* ================================================================== *)

(** [String.fromCodePoint(n)] *)
Definition fromCodePoint (n : N) : result jsstring :=
  if (n <=? 65535)%N then Ok [n]
  else if (n <=? 1114111)%N then
    Ok [(55296 + (n - 65536) / 1024)%N; (56320 + (n - 65536) mod 1024)%N]
  else Throw (RangeError_codePoint n).

(** [s.replace(/re/g, callback)] where the callback may throw: as
    [replace_g], the first callback that throws ends the replacement. *)
Fixpoint replace_fn (m : jsstring -> option (nat * result jsstring))
    (skip : nat) (s : jsstring) : result jsstring :=
  match s with
  | [] => Ok []
  | c :: rest =>
      match skip with
      | S k => replace_fn m k rest
      | O =>
          match m (c :: rest) with
          | Some (len, r) =>
              (let? r' := r in
               let? tail := replace_fn m (len - 1) rest in
               Ok (r' ++ tail))%result
          | None =>
              (let? tail := replace_fn m 0 rest in Ok (c :: tail))%result
          end
      end
  end.

Fixpoint takeWhile (p : unit16 -> bool) (s : jsstring) : jsstring :=
  match s with
  | [] => []
  | c :: rest => if p c then c :: takeWhile p rest else []
  end.

(** [/&#(\d+);/] at the current position; the callback receives
    [Number(code)]. *)
Definition numericReference (callback : N -> result jsstring)
    (s : jsstring) : option (nat * result jsstring) :=
  match s with
  | amp :: hash :: rest =>
      if (amp =? 38)%N && (hash =? 35)%N then
        let code := takeWhile isDigit rest in
        match code, skipn (length code) rest with
        | _ :: _, semi :: _ =>
            if (semi =? 59)%N
            then Some (length code + 3, callback (digitsValue code))
            else None
        | _, _ => None
        end
      else None
  | _ => None
  end.

(** [/<[^>]*>/] at the current position, replaced by one space. *)
Fixpoint indexOfGt (s : jsstring) : option nat :=
  match s with
  | [] => None
  | c :: rest =>
      if (c =? 62)%N then Some 0
      else match indexOfGt rest with Some k => Some (S k) | None => None end
  end.

Definition tag (s : jsstring) : option (nat * jsstring) :=
  match s with
  | lt :: rest =>
      if (lt =? 60)%N then
        match indexOfGt rest with
        | Some k => Some (k + 2, js " ")
        | None => None
        end
      else None
  | [] => None
  end.

(** [/\s+/] at the current position, replaced by one space. *)
Definition spaces (s : jsstring) : option (nat * jsstring) :=
  match takeWhile isSpace s with
  | [] => None
  | run => Some (length run, js " ")
  end.

(** [Object.entries(namedMap)], in insertion order. *)
Definition namedMap : list (jsstring * jsstring) :=
  [ (js "&nbsp;", js " ");
    (js "&amp;", js "&");
    (js "&lt;", js "<");
    (js "&gt;", js ">");
    (js "&quot;", [34%N]);
    (js "&#39;", js "'") ].

Definition MONTH_SHORT : list (jsstring * jsstring) :=
  [ (js "jan", js "01"); (js "feb", js "02"); (js "mar", js "03");
    (js "apr", js "04"); (js "may", js "05"); (js "jun", js "06");
    (js "jul", js "07"); (js "aug", js "08"); (js "sep", js "09");
    (js "oct", js "10"); (js "nov", js "11"); (js "dec", js "12") ].

Fixpoint lookup (k : jsstring) (table : list (jsstring * jsstring))
  : option jsstring :=
  match table with
  | [] => None
  | (k', v) :: rest => if jsstring_eqb k k' then Some v else lookup k rest
  end.

(** [/^\d{4}-\d{2}-\d{2}$/.test(s)] *)
Definition isIsoDate (s : jsstring) : bool :=
  match s with
  | [y1; y2; y3; y4; d1; m1; m2; d2; a; b] =>
      forallb isDigit [y1; y2; y3; y4; m1; m2; a; b]
      && (d1 =? 45)%N && (d2 =? 45)%N
  | _ => false
  end.

(** [s.match(/^(\d{1,2})-([A-Za-z]{3})$/)]: the two groups. *)
Definition shortMatch (s : jsstring) : option (jsstring * jsstring) :=
  match s with
  | [a; d; x; y; z] =>
      if isDigit a && (d =? 45)%N && forallb isAlpha [x; y; z]
      then Some ([a], [x; y; z]) else None
  | [a; b; d; x; y; z] =>
      if isDigit a && isDigit b && (d =? 45)%N && forallb isAlpha [x; y; z]
      then Some ([a; b], [x; y; z]) else None
  | _ => None
  end.

(** A [Date] object is its time value, [None] for NaN (an invalid date).
    [d.toISOString()] throws on an invalid date. *)
Definition Date_toISOString (d : option Z) : result jsstring :=
  match d with
  | Some t => Ok (toISOString t)
  | None => Throw RangeError_invalidTime
  end.

(** [Number.isNaN(d.getTime())] *)
Definition isInvalidDate (d : option Z) : bool :=
  match d with
  | Some _ => false
  | None => true
  end.

Section Pipeline.

Variable E : env.

(** The callback of the numeric replacement: [src/gmp.js] writes
    [String.fromCodePoint(Number(code)) || ""], the handler writes
    [String.fromCodePoint(Number(code))]. *)
Variable codePointText : N -> result jsstring.

Definition getFiscalYearLabel (date : clock) : jsstring :=
  let month := (getMonth date + 1)%Z in
  let year := getFullYear date in
  let fyStart := if (4 <=? month)%Z then year else (year - 1)%Z in
  let fyEnd := (fyStart + 1)%Z in
  decimalZ fyStart ++ js "-" ++ sliceLast 2 (decimalZ fyEnd).

Definition buildCacheBuster (date : clock) : jsstring :=
  let day := padStart0 2 (decimalZ (getDate date)) in
  let hours := padStart0 2 (decimalZ (getHours date)) in
  let minutes := padStart0 2 (decimalZ (getMinutes date)) in
  day ++ js "-" ++ hours ++ minutes.

Definition decodeHtmlEntities (text : value) : result jsstring :=
  match text with
  | Some (JStr text) =>
      (let? decoded := replace_fn (numericReference codePointText) 0 text in
       Ok (fold_left
             (fun decoded entry => splitJoin (fst entry) (snd entry) decoded)
             namedMap decoded))%result
  | _ => Ok []
  end.

Definition getTodayIso : jsstring := todayInKolkata E.

Definition stripHtml (text : value) : result jsstring :=
  match text with
  | Some (JStr text) =>
      let withoutTags := replace_g tag 0 text in
      (let? decoded := decodeHtmlEntities (Some (JStr withoutTags)) in
       Ok (trim (replace_g spaces 0 decoded)))%result
  | _ => Ok []
  end.

(** The sentinel [null] is [None]. *)
Definition normalizeDate (value : value) : result (option jsstring) :=
  match value with
  | Some (JStr value) =>
      if negb (truthy (Some (JStr value))) then Ok None
      else
        let trimmed := trim value in
        if negb (truthy (Some (JStr trimmed))) then Ok None
        else if isIsoDate trimmed then Ok (Some trimmed)
        else
          let short :=
            match shortMatch trimmed with
            | Some (g1, g2) =>
                let day := padStart0 2 g1 in
                let month :=
                  match lookup (toLowerCase g2) MONTH_SHORT with
                  | Some m => Some m
                  | None => lookup (toLowerCase (sliceFirst 3 g2)) MONTH_SHORT
                  end in
                match month with
                | Some month =>
                    let year := getFullYear (now E) in
                    Some (decimalZ year ++ js "-" ++ month ++ js "-" ++ day)
                | None => None
                end
            | None => None
            end in
          match short with
          | Some iso => Ok (Some iso)
          | None =>
              let parsed := Date_parse (legacyParse E) trimmed in
              if isInvalidDate parsed then Ok None
              else
                (let? iso := Date_toISOString parsed in
                 Ok (Some (sliceFirst 10 iso)))%result
          end
  | _ => Ok None
  end.

Definition getCloseDateIso (row : json) : result (option jsstring) :=
  (let? srt := get row (js "~Srt_Close") in
   let? normalised :=
     if truthy srt then Ok srt else get row (js "Close") in
   let? stripped := stripHtml normalised in
   normalizeDate (Some (JStr stripped)))%result.

(** [closeIso === todayIso] *)
Definition isClosingToday (row : json) (todayIso : jsstring) : result bool :=
  (let? closeIso := getCloseDateIso row in
   Ok match closeIso with
      | Some iso => jsstring_eqb iso todayIso
      | None => false
      end)%result.

(** [stripHtml(row[k]) || fallback] *)
Definition field (row : json) (k : string) (fallback : jsstring)
  : result jsstring :=
  (let? v := get row (js k) in
   let? text := stripHtml v in
   Ok match text with [] => fallback | _ => text end)%result.

Definition bullet : jsstring := [8226%N].       (* U+2022 *)
Definition enDash : jsstring := [8211%N].       (* U+2013 *)
Definition checkMark : jsstring := [9989%N].    (* U+2705 *)
Definition chart : jsstring := [55357%N; 56520%N].   (* U+1F4C8 *)
Definition warning : jsstring := [9888%N; 65039%N].  (* U+26A0 U+FE0F *)
Definition newline : jsstring := [10%N].

Definition formatIpoRow (row : json) : result jsstring :=
  (let? name := field row "Name" (js "Unknown IPO") in
   let? gmp := field row "GMP" (js "-") in
   let? price := field row "Price" (js "-") in
   let? subs := field row "Sub" (js "-") in
   let? gmpRange := field row "GMP(L/H)" (js "-") in
   let? open := field row "Open" [] in
   let? close := field row "Close" [] in
   let windowText :=
     match open, close with
     | [], [] => js "-"
     | _, _ =>
         match open with [] => js "-" | _ => open end
         ++ js " " ++ enDash ++ js " "
         ++ match close with [] => js "-" | _ => close end
     end in
   let? listing := field row "Listing" (js "-") in
   let? updated := field row "Updated-On" (js "-") in
   Ok (join newline
         [ bullet ++ js " " ++ name;
           js "  GMP: " ++ gmp;
           js "  Price: " ++ price;
           js "  Subscriptions: " ++ subs;
           js "  GMP Range: " ++ gmpRange;
           js "  Window: " ++ windowText;
           js "  Listing: " ++ listing;
           js "  Updated: " ++ updated;
           js "  Action: Apply today before the window closes " ++ checkMark
         ]))%result.

(** [rows.filter(p)] and [rows.map(f)] with a callback that may throw. *)
Fixpoint filterR (p : json -> result bool) (rows : list json)
  : result (list json) :=
  match rows with
  | [] => Ok []
  | row :: rest =>
      (let? keep := p row in
       let? rest' := filterR p rest in
       Ok (if keep then row :: rest' else rest'))%result
  end.

Fixpoint mapR (f : json -> result jsstring) (rows : list json)
  : result (list jsstring) :=
  match rows with
  | [] => Ok []
  | row :: rest =>
      (let? x := f row in
       let? rest' := mapR f rest in
       Ok (x :: rest'))%result
  end.

Definition fallbackMessage (data : json) : jsstring :=
  chart ++ js " IPO GMP Update" ++ newline ++ newline ++ JSON_stringify_2 data.

Definition header (todayIso : jsstring) : jsstring :=
  chart ++ js " IPOs Closing Today (" ++ todayIso ++ js ")".

Definition formatMessage (data : json) : result jsstring :=
  if negb (truthy (Some data)) then Ok (fallbackMessage data)
  else
    (let? table := get data (js "reportTableData") in
     match table with
     | Some (JArr reportTableData) =>
         let todayIso := getTodayIso in
         let? closingToday :=
           filterR (fun row => isClosingToday row todayIso) reportTableData in
         let? blocks := mapR formatIpoRow closingToday in
         let rows := trim (join (newline ++ newline) blocks) in
         match rows with
         | [] =>
             Ok (header todayIso ++ newline ++ newline
                 ++ js "No IPOs closing today.")
         | _ => Ok (header todayIso ++ newline ++ newline ++ rows)
         end
     | _ => Ok (fallbackMessage data)
     end)%result.

End Pipeline.

(* ================================================================== *)
(** * The two network calls *)
(* ================================================================== *)

(** What [fetch] settles to.  [Rejected]: the promise rejects (transport
    error, timeout).  [Response]: a response with its status and with what
    [res.json()] settles to. *)
Inductive http_reply :=
| Rejected (reason : jsstring)
| Response (status : Z) (body : result json).

Inductive request :=
| GET (url : jsstring)
| POST (url : jsstring) (body : jsstring).

(** The remote services of one run: the report service answers a URL; the
    chat service answers the [n]-th POST of the run. *)
Record world := {
  report_service : jsstring -> http_reply;
  chat_service : nat -> jsstring -> jsstring -> http_reply
}.

(** A computation that issues requests and may throw: it extends the log
    of the requests issued so far. *)
Definition io (A : Type) := list request -> result A * list request.

Definition io_ret {A} (a : A) : io A := fun log => (Ok a, log).

Definition io_throw {A} (e : error) : io A := fun log => (Throw e, log).

Definition io_bind {A B} (m : io A) (k : A -> io B) : io B :=
  fun log =>
    match m log with
    | (Ok a, log') => k a log'
    | (Throw e, log') => (Throw e, log')
    end.

Definition io_lift {A} (r : result A) : io A := fun log => (r, log).

(** [try { body } catch (err) { handler }] *)
Definition try_catch {A} (body : io A) (handler : error -> io A) : io A :=
  fun log =>
    match body log with
    | (Ok a, log') => (Ok a, log')
    | (Throw e, log') => handler e log'
    end.

Declare Scope io_scope.
Delimit Scope io_scope with io.
Notation "x <- m ;; k" := (io_bind m (fun x => k))
  (at level 61, m at next level, right associativity) : io_scope.

Definition isPost (r : request) : bool :=
  match r with
  | POST _ _ => true
  | GET _ => false
  end.

Definition posts (log : list request) : list request := filter isPost log.

(** The response object [res]: its status and what [res.json()] settles
    to. *)
Record response := { res_status : Z; res_json : result json }.

(** [await fetch(url)] and [await fetch(url, {method: "POST", body})]: the
    request is logged; a rejection is thrown. *)
Definition fetch_get (W : world) (url : jsstring) : io response :=
  fun log =>
    let log' := log ++ [GET url] in
    match report_service W url with
    | Rejected reason => (Throw (Error reason), log')
    | Response status body =>
        (Ok {| res_status := status; res_json := body |}, log')
    end.

Definition fetch_post (W : world) (url body : jsstring) : io response :=
  fun log =>
    let log' := log ++ [POST url body] in
    match chat_service W (length (posts log)) url body with
    | Rejected reason => (Throw (Error reason), log')
    | Response status parsed =>
        (Ok {| res_status := status; res_json := parsed |}, log')
    end.

(** [res.ok] *)
Definition res_ok (res : response) : bool :=
  (200 <=? res_status res)%Z && (res_status res <=? 299)%Z.

(** [s.replace(/\/$/, "")] *)
Definition dropTrailingSlash (s : jsstring) : jsstring :=
  match rev s with
  | 47%N :: rest => rev rest
  | _ => s
  end.

(** [process.env.X] that passes [!X]: set and not empty. *)
Definition present (x : option jsstring) : option jsstring :=
  match x with
  | Some ((_ :: _) as s) => Some s
  | _ => None
  end.

(** [process.env.API_REPORT_ID || "331"] *)
Definition REPORT_ID (E : env) : jsstring :=
  match present (env_API_REPORT_ID E) with
  | Some s => s
  | None => js "331"
  end.

Definition searchParams (cacheBuster : jsstring)
  : list (jsstring * jsstring) :=
  [(js "search", []); (js "v", cacheBuster)].

Definition telegramUrl (BOT_TOKEN : jsstring) : jsstring :=
  js "https://api.telegram.org/bot" ++ BOT_TOKEN ++ js "/sendMessage".

Definition telegramBody (CHAT_ID text : jsstring) : jsstring :=
  JSON_stringify
    (JObj [ (js "chat_id", JStr CHAT_ID);
            (js "text", JStr text);
            (js "disable_web_page_preview", JBool true) ]).

(* ================================================================== *)
(** * [src/gmp.js]: the script *)
(* ================================================================== *)

Module Gmp.
Section Script.

Variable E : env.
Variable W : world.
(** The module constants, read once the check of line 10 has passed. *)
Variables API_URL BOT_TOKEN CHAT_ID : jsstring.

Local Open Scope io_scope.

(** [String.fromCodePoint(Number(code)) || ""] *)
Definition codePointText (code : N) : result jsstring :=
  (let? s := fromCodePoint code in
   Ok match s with [] => [] | _ => s end)%result.

Definition formatMessage : json -> result jsstring :=
  formatMessage E codePointText.

Definition buildApiUrl (now : clock) : result jsstring :=
  let base := dropTrailingSlash API_URL in
  let month := (getMonth now + 1)%Z in
  let year := getFullYear now in
  let fiscal := getFiscalYearLabel now in
  let input :=
    base ++ js "/" ++ REPORT_ID E ++ js "/1/" ++ decimalZ month ++ js "/"
    ++ decimalZ year ++ js "/" ++ fiscal ++ js "/0/ipo" in
  match URL_href E input (searchParams (buildCacheBuster now)) with
  | Some href => Ok href
  | None => Throw (TypeError_invalidURL input)
  end.

Definition fetchGmp : io json :=
  url <- io_lift (buildApiUrl (now E)) ;;
  res <- fetch_get W url ;;
  if negb (res_ok res)
  then io_throw (Error (js "API error " ++ decimalZ (res_status res)))
  else io_lift (res_json res).

Definition sendTelegram (text : jsstring) : io json :=
  let url := telegramUrl BOT_TOKEN in
  let body := telegramBody CHAT_ID text in
  res <- fetch_post W url body ;;
  json <- io_lift (res_json res) ;;
  ok <- io_lift (get json (js "ok")) ;;
  if negb (truthy ok)
  then io_throw (Error (js "Telegram send failed: " ++ JSON_stringify json))
  else io_ret json.

(** The three awaited steps of the [try] block. *)
Definition attempt : io json :=
  data <- fetchGmp ;;
  message <- io_lift (formatMessage data) ;;
  sendTelegram message.

(** The exit status of the process: [process.exit(1)] in the handler of
    the error, 0 when [main] runs to its end. *)
Definition main : io Z :=
  try_catch
    (_ <- attempt ;;
     io_ret 0%Z)
    (fun err =>
       _ <- try_catch
              (_ <- sendTelegram
                      (warning ++ js " GMP Bot error: " ++ message E err) ;;
               io_ret tt)
              (fun e => io_ret tt) ;;
       io_ret 1%Z).

End Script.

(** The module, top to bottom: the check of the environment variables,
    then [main()]. *)
Definition script (E : env) (W : world) : io Z :=
  match present (env_API_URL E), present (env_BOT_TOKEN E),
        present (env_CHAT_ID E) with
  | Some API_URL, Some BOT_TOKEN, Some CHAT_ID =>
      main E W API_URL BOT_TOKEN CHAT_ID
  | _, _, _ => io_ret 1%Z
  end.

End Gmp.

(* ================================================================== *)
(** * The request handler *)
(* ================================================================== *)

Module Handler.

(** [res.status(code).json(body)] *)
Record reply := { status : Z; body : json }.

Section Handle.

Variable E : env.
Variable W : world.
Variables API_URL BOT_TOKEN CHAT_ID : jsstring.

Local Open Scope io_scope.

(** [String.fromCodePoint(Number(code))] *)
Definition codePointText (code : N) : result jsstring := fromCodePoint code.

Definition formatMessage : json -> result jsstring :=
  formatMessage E codePointText.

Definition buildApiUrl (now : clock) : jsstring :=
  let base := dropTrailingSlash (trim API_URL) in
  let reportId := trim (REPORT_ID E) in
  let month := (getMonth now + 1)%Z in
  let year := getFullYear now in
  let fiscal := getFiscalYearLabel now in
  let path :=
    base ++ js "/" ++ reportId ++ js "/1/" ++ decimalZ month ++ js "/"
    ++ decimalZ year ++ js "/" ++ fiscal ++ js "/0/ipo" in
  path ++ js "?"
  ++ URLSearchParams_toString E (searchParams (buildCacheBuster now)).

Definition fetchGmp : io json :=
  res <- fetch_get W (buildApiUrl (now E)) ;;
  if negb (res_ok res)
  then io_throw (Error (js "API error " ++ decimalZ (res_status res)))
  else io_lift (res_json res).

Definition sendTelegram (text : jsstring) : io json :=
  let url := telegramUrl BOT_TOKEN in
  res <- fetch_post W url (telegramBody CHAT_ID text) ;;
  json <- io_lift (res_json res) ;;
  ok <- io_lift (get json (js "ok")) ;;
  if negb (truthy ok)
  then io_throw (Error (js "Telegram send failed: " ++ JSON_stringify json
                        ++ js " "))
  else io_ret json.

(** The three awaited steps under the comment MAIN LOGIC. *)
Definition attempt : io json :=
  data <- fetchGmp ;;
  message <- io_lift (formatMessage data) ;;
  sendTelegram message.

(** The body of the [try] block after the check of the variables. *)
Definition mainLogic : io reply :=
  _ <- attempt ;;
  io_ret {| status := 200;
            body := JObj [(js "ok", JBool true); (js "sent", JStr (nowIso E))] |}.

End Handle.

Definition handler (E : env) (W : world) : io reply :=
  try_catch
    (match present (env_API_URL E), present (env_BOT_TOKEN E),
           present (env_CHAT_ID E) with
     | Some API_URL, Some BOT_TOKEN, Some CHAT_ID =>
         mainLogic E W API_URL BOT_TOKEN CHAT_ID
     | _, _, _ =>
         io_ret {| status := 500;
                   body := JObj [(js "error",
                                  JStr (js "Missing environment variables"))] |}
     end)
    (fun err =>
       io_ret {| status := 500;
                 body := JObj [(js "error", JStr (message E err))] |}).

End Handler.

(* ================================================================== *)
(** * The properties the specification states, as decidable predicates *)
(* ================================================================== *)

(** The pattern [m] matches somewhere in [s]. *)
Fixpoint occurs {A} (m : jsstring -> option A) (s : jsstring) : bool :=
  match m s with
  | Some _ => true
  | None =>
      match s with
      | [] => false
      | _ :: rest => occurs m rest
      end
  end.

(** A raw tag: a match of [/<[^>]*>/]. *)
Definition containsTag (s : jsstring) : bool := occurs tag s.

(** A numeric character reference: a match of [/&#(\d+);/]. *)
Definition containsNumericReference (s : jsstring) : bool :=
  occurs (numericReference (fun _ => Ok [])) s.

(** One of the six named entities of [namedMap]. *)
Definition containsNamedEntity (s : jsstring) : bool :=
  existsb (fun entry => includes (fst entry) s) namedMap.

(** The code units of [r] do not occur in [q]. *)
Definition foreign (q r : jsstring) : Prop :=
  Forall (fun c => existsb (N.eqb c) q = false) r.

(** The replacement of every match of [m] is not empty and is made of code
    units that do not occur in [q]. *)
Definition replaces_outside (q : jsstring)
    (m : jsstring -> option (nat * jsstring)) : Prop :=
  forall s len r, m s = Some (len, r) ->
    exists c r', r = c :: r' /\ foreign q (c :: r').

(** The code units that raw tags, numeric character references and the
    six named entities are written with. *)
Definition markupUnits : jsstring := js "<>&#;0123456789abglmnopqstu".

Definition isMarkupUnit (c : unit16) : bool := existsb (N.eqb c) markupUnits.

(** At the head of [s], a numeric character reference that stands for a
    code unit of markup, or for no code point at all (it is above
    U+10FFFF). *)
Definition spellsMarkup (s : jsstring) : option unit :=
  match numericReference fromCodePoint s with
  | Some (_, Ok r) => if existsb isMarkupUnit r then Some tt else None
  | Some (_, Throw _) => Some tt
  | None => None
  end.

(** An entity written after an escaped ampersand: decoded once, it is
    still an entity. *)
Definition twiceEscaped : list jsstring :=
  [ js "&amp;nbsp;"; js "&amp;amp;"; js "&amp;lt;"; js "&amp;gt;";
    js "&amp;#" ].

(** An escaped angle bracket, in a text that holds both an opening and a
    closing angle bracket, escaped or not. *)
Definition escapedAngles (s : jsstring) : bool :=
  (includes (js "&lt;") s || includes (js "&gt;") s)
  && (includes (js "<") s || includes (js "&lt;") s)
  && (includes (js ">") s || includes (js "&gt;") s).

(** The text escapes markup: decoded once, it may hold markup. *)
Definition escapesMarkup (s : jsstring) : bool :=
  occurs spellsMarkup s
  || existsb (fun q => includes q s) twiceEscaped
  || escapedAngles s.

(** The last two digits of [n >= 10], as code units. *)
Definition lastTwoDigits (n : Z) : jsstring :=
  [digitUnit (Z.to_N (n / 10 mod 10)); digitUnit (Z.to_N (n mod 10))].

(** The label the specification describes, for the fiscal year that
    starts in [start]: the start, a dash, the last two digits of the
    start plus one. *)
Definition fiscalLabel (start : Z) : jsstring :=
  decimalZ start ++ js "-" ++ lastTwoDigits (start + 1).

(** The ending that the code writes for the year [n]: its last two digits
    when it has two digits or more, else its whole numeral, one digit with
    its sign. *)
Definition yearEnding (n : Z) : jsstring :=
  if (10 <=? Z.abs n)%Z then lastTwoDigits (Z.abs n) else decimalZ n.

(** The label of the fiscal year that starts in [start], with that
    ending. *)
Definition fiscalLabelOf (start : Z) : jsstring :=
  decimalZ start ++ js "-" ++ yearEnding (start + 1).

(** The resolved close date in the words of the specification: the field
    [~Srt_Close] is preferred, [Close] is the fallback; the text is
    stripped of markup, then normalised as a date. *)
Definition resolvedCloseDate (E : env) (callback : N -> result jsstring)
    (row : json) : result (option jsstring) :=
  (let? srt := get row (js "~Srt_Close") in
   let? close := get row (js "Close") in
   let? stripped := stripHtml callback (or_else srt close) in
   normalizeDate E (Some (JStr stripped)))%result.

(** The row sequence of a payload, when it has a valid one. *)
Definition rowSequence (data : json) : option (list json) :=
  match data with
  | JObj props =>
      match assoc (js "reportTableData") props with
      | Some (JArr rows) => Some rows
      | _ => None
      end
  | _ => None
  end.

(** The message when no row closes today. *)
Definition noIposMessage (todayIso : jsstring) : jsstring :=
  header todayIso ++ newline ++ newline ++ js "No IPOs closing today.".

(** The parsed response of the chat service has a truthy success flag. *)
Definition successFlag (json : json) : bool :=
  match get json (js "ok") with
  | Ok flag => truthy flag
  | Throw _ => false
  end.

(** The error is one the code raised with the rendering of the response
    in its message. *)
Definition carriesBody (e : error) (json : json) : bool :=
  match e with
  | Error m => includes (JSON_stringify json) m
  | _ => false
  end.

(** The request that notifies the chat of an error. *)
Definition errorNotification (E : env) (BOT_TOKEN CHAT_ID : jsstring)
    (err : error) : request :=
  POST (telegramUrl BOT_TOKEN)
       (telegramBody CHAT_ID (warning ++ js " GMP Bot error: " ++ message E err)).

(** The response of the handler to a failure. *)
Definition errorResponse (E : env) (err : error) : Handler.reply :=
  {| Handler.status := 500;
     Handler.body := JObj [(js "error", JStr (message E err))] |}.





(* ================================================================== *)
(** * Further notions, for the properties of the functions *)
(* ================================================================== *)

(** The shape [DD-HHMM] of the cache-busting token. *)
Definition isCacheToken (s : jsstring) : bool :=
  match s with
  | [d1; d2; dash; h1; h2; m1; m2] =>
      forallb isDigit [d1; d2; h1; h2; m1; m2] && (dash =? 45)%N
  | _ => false
  end.

(** Every white-space code unit of [s] is the space U+0020, and what
    follows it, if anything, is not white space. *)
Fixpoint singleSpaced (s : jsstring) : bool :=
  match s with
  | [] => true
  | c :: rest =>
      (if isSpace c
       then (c =? 32)%N
            && match rest with
               | [] => true
               | d :: _ => negb (isSpace d)
               end
       else true)
      && singleSpaced rest
  end.

(** [s] does not start with white space. *)
Definition startsTidy (s : jsstring) : bool :=
  match s with
  | [] => true
  | c :: _ => negb (isSpace c)
  end.

(** A text that starts and ends with something else than white space. *)
Definition tidyEnds (s : jsstring) : Prop :=
  s <> [] /\ startsTidy s = true /\ startsTidy (rev s) = true.

(** The getters of a [Date] stay in their ranges. *)
Definition clockInRange (date : clock) : Prop :=
  (1 <= getDate date <= 31)%Z /\ (0 <= getHours date <= 23)%Z
  /\ (0 <= getMinutes date <= 59)%Z.

(** The calendar year in which the fiscal year of a date starts. *)
Definition fiscalStart (date : clock) : Z :=
  if (4 <=? getMonth date + 1)%Z then getFullYear date
  else (getFullYear date - 1)%Z.

(** The computation returned, it did not throw. *)
Definition returned {A} (r : result A) : bool :=
  match r with
  | Ok _ => true
  | Throw _ => false
  end.

(** The response to a run without its configuration. *)
Definition missingVariables : Handler.reply :=
  {| Handler.status := 500;
     Handler.body :=
       JObj [(js "error", JStr (js "Missing environment variables"))] |}.

(** The number of occurrences of the code unit [c] in [s]. *)
Definition countOf (c : unit16) (s : jsstring) : nat :=
  length (filter (N.eqb c) s).

(** The text of a field as a block shows it: not empty, on one line. *)
Definition shown (s : jsstring) : Prop := s <> [] /\ countOf 10%N s = 0.

(** The nine lines of a block, from the texts of its fields. *)
Definition rowBlock
    (name gmp price subs gmpRange windowText listing updated : jsstring)
  : jsstring :=
  join newline
    [ bullet ++ js " " ++ name;
      js "  GMP: " ++ gmp;
      js "  Price: " ++ price;
      js "  Subscriptions: " ++ subs;
      js "  GMP Range: " ++ gmpRange;
      js "  Window: " ++ windowText;
      js "  Listing: " ++ listing;
      js "  Updated: " ++ updated;
      js "  Action: Apply today before the window closes " ++ checkMark ].

(** Some numeric character reference of [s] names a code point above
    U+10FFFF. *)
Definition invalidAt (s : jsstring) : option error :=
  match numericReference fromCodePoint s with
  | Some (_, Throw e) => Some e
  | _ => None
  end.

Definition invalidReference (s : jsstring) : bool := occurs invalidAt s.

(** [/\d*;/] at the head of [x]: the end of a numeric reference. *)
Definition endsReference (x : jsstring) : bool :=
  match dropWhile isDigit x with
  | semi :: _ => (semi =? 59)%N
  | [] => false
  end.

(** [/&#(\d+);/] matches at the head of [s]. *)
Definition isReference (s : jsstring) : bool :=
  match s with
  | amp :: hash :: d :: x =>
      (amp =? 38)%N && (hash =? 35)%N && isDigit d && endsReference x
  | _ => false
  end.

(** The numeric references that are decoded into code units foreign to
    markup. *)
Definition safeReference (s : jsstring) : option (nat * jsstring) :=
  match numericReference fromCodePoint s with
  | Some (len, Ok r) => if existsb isMarkupUnit r then None else Some (len, r)
  | _ => None
  end.

(** [q] occurs in [s] at a place where [sep] does not. *)
Definition apartFrom (sep q : jsstring) (s : jsstring) : option unit :=
  if prefix q s && negb (prefix sep s) then Some tt else None.

(** The requests of a log that are GETs. *)
Definition gets (log : list request) : list request :=
  filter (fun r => negb (isPost r)) log.

(* ================================================================== *)
(** * A sample run *)
(* ================================================================== *)

Module Sample.

(** [new URLSearchParams(pairs).toString()] on the names and values of the
    sample, which need no escaping. *)
Definition query (pairs : list (jsstring * jsstring)) : jsstring :=
  join (js "&") (List.map (fun kv => fst kv ++ js "=" ++ snd kv) pairs).

(** The URL parser of the sample.  It covers the absolute URLs of the
    examples, [http://host/path] and [https://host/path] with a lower-case
    host and a path of letters, digits, dashes, slashes and spaces: the
    spaces and controls at both ends are dropped, a space of the path is
    percent-encoded, an empty path becomes [/], and a text without one of
    the two schemes and a host is rejected.  (The parser of the platform
    accepts other schemes and rewrites more; the examples stay within
    these texts.) *)
Definition isC0OrSpace (c : unit16) : bool := (c <=? 32)%N.

Definition encodeSpace (c : unit16) : jsstring :=
  if (c =? 32)%N then js "%20" else [c].

Definition href (input : jsstring) (pairs : list (jsstring * jsstring))
  : option jsstring :=
  let text := rev (dropWhile isC0OrSpace (rev (dropWhile isC0OrSpace input))) in
  let scheme :=
    if prefix (js "https://") text then js "https://"
    else if prefix (js "http://") text then js "http://"
    else [] in
  let rest := skipn (length scheme) text in
  let host := takeWhile (fun c => negb (c =? 47)%N) rest in
  let path := dropWhile (fun c => negb (c =? 47)%N) rest in
  match scheme, host with
  | _ :: _, _ :: _ =>
      if existsb (N.eqb 32%N) host then None
      else Some (scheme ++ host
                 ++ match path with
                    | [] => js "/"
                    | _ => flat_map encodeSpace path
                    end
                 ++ js "?" ++ query pairs)
  | _, _ => None
  end.

Definition E0 : env := {|
  env_API_URL := Some (js "https://reports.example/api/");
  env_BOT_TOKEN := Some (js "123:abc");
  env_CHAT_ID := Some (js "-1001");
  env_API_REPORT_ID := None;
  now := {| getFullYear := 2024; getMonth := 3; getDate := 5;
            getHours := 9; getMinutes := 7 |};
  todayInKolkata := js "2024-04-05";
  nowIso := js "2024-04-05T03:37:00.000Z";
  legacyParse := fun _ => None;
  URL_href := href;
  URLSearchParams_toString := query;
  engineMessage := fun _ => js "engine error"
|}.

Definition API_URL : jsstring := js "https://reports.example/api/".
Definition BOT_TOKEN : jsstring := js "123:abc".
Definition CHAT_ID : jsstring := js "-1001".

Definition row : json :=
  JObj [ (js "Name", JStr (js "<b>Foo</b>"));
         (js "Close", JStr (js "05-Apr"));
         (js "~Srt_Close", JStr (js "2024-04-05"));
         (js "GMP", JStr (js "50")) ].

(** A row whose sort key is markup only, and whose [Close] is a date. *)
Definition markupOnlyRow : json :=
  JObj [ (js "~Srt_Close", JStr (js "<br>"));
         (js "Close", JStr (js "2024-04-05")) ].

Definition acknowledgement : json := JObj [(js "ok", JBool true)].
Definition refusal : json :=
  JObj [(js "ok", JBool false); (js "error_code", JNum (number_of_Z 401))].

(** The report service is down. *)
Definition W_down : world := {|
  report_service := fun _ => Response 503 (Throw (Error (js "invalid json")));
  chat_service := fun _ _ _ => Response 200 (Ok acknowledgement)
|}.

(** Both services answer. *)
Definition W_up : world := {|
  report_service :=
    fun _ => Response 200 (Ok (JObj [(js "reportTableData", JArr [row])]));
  chat_service := fun _ _ _ => Response 200 (Ok acknowledgement)
|}.

(** The chat service refuses every message. *)
Definition W_refused : world := {|
  report_service :=
    fun _ => Response 200 (Ok (JObj [(js "reportTableData", JArr [])]));
  chat_service := fun _ _ _ => Response 401 (Ok refusal)
|}.

(** The chat service answers with the JSON text [null]. *)
Definition W_null : world := {|
  report_service :=
    fun _ => Response 200 (Ok (JObj [(js "reportTableData", JArr [])]));
  chat_service := fun _ _ _ => Response 200 (Ok JNull)
|}.

End Sample.

(* ================================================================== *)
(** * More sample inputs *)
(* ================================================================== *)

Module Inputs.

(** The environment of [Sample.E0] with an empty [BOT_TOKEN]. *)
Definition E_noToken : env := {|
  env_API_URL := env_API_URL Sample.E0;
  env_BOT_TOKEN := Some [];
  env_CHAT_ID := env_CHAT_ID Sample.E0;
  env_API_REPORT_ID := env_API_REPORT_ID Sample.E0;
  now := now Sample.E0;
  todayInKolkata := todayInKolkata Sample.E0;
  nowIso := nowIso Sample.E0;
  legacyParse := legacyParse Sample.E0;
  URL_href := URL_href Sample.E0;
  URLSearchParams_toString := URLSearchParams_toString Sample.E0;
  engineMessage := engineMessage Sample.E0
|}.

(** A text with markup, a line break, a tab and spaces at both ends. *)
Definition untidy : jsstring :=
  js "  <i>Foo</i>" ++ [10%N; 9%N] ++ js "Bar  ".

Definition twoRows : json :=
  JObj [(js "reportTableData", JArr [Sample.row; Sample.markupOnlyRow])].

Definition closesToday (row : json) : bool :=
  match isClosingToday Sample.E0 Gmp.codePointText row (js "2024-04-05") with
  | Ok keep => keep
  | Throw _ => false
  end.

Definition blockOf (row : json) : jsstring :=
  match formatIpoRow Gmp.codePointText row with
  | Ok block => block
  | Throw _ => []
  end.

(** A day of June in the year 5. *)
Definition june5 : clock :=
  {| getFullYear := 5; getMonth := 5; getDate := 15;
     getHours := 12; getMinutes := 0 |}.

(** A text with tags, a bare ampersand and entities written once. *)
Definition escapedOnce : jsstring :=
  js "<b>ABC</b> &amp; Co&nbsp;&#8377;5 &lt; AT&T &#39;x&#39;".

Definition april2024 : clock :=
  {| getFullYear := 2024; getMonth := 3; getDate := 1;
     getHours := 0; getMinutes := 0 |}.

Definition march2025 : clock :=
  {| getFullYear := 2025; getMonth := 2; getDate := 31;
     getHours := 23; getMinutes := 59 |}.

End Inputs.

(* ================================================================== *)
(** * Facts about strings *)
(* ================================================================== *)

Unset Implicit Arguments.

(** Induction on a bound of the length of a string, for the scans that
    resume after a match of several code units. *)
Tactic Notation "induction" "on" "length" "of" ident(s)
    "as" ident(n) ident(IH) ident(Hle) :=
  let Hn := fresh "Hn" in
  remember (length s) as n eqn:Hn;
  assert (Hle : length s <= n) by lia; clear Hn;
  revert s Hle; induction n as [|n IH]; intros s Hle.

Lemma jsstring_eqb_eq (a b : jsstring) : jsstring_eqb a b = true <-> a = b.
Proof.
  revert b; induction a as [|x a IH]; intros [|y b]; simpl; split;
    try congruence; try reflexivity.
  - intros H. apply andb_true_iff in H as [Hx Hr].
    apply N.eqb_eq in Hx. apply IH in Hr. congruence.
  - intros H. injection H as -> ->.
    rewrite N.eqb_refl. simpl. now apply IH.
Qed.

Lemma jsstring_eqb_refl (a : jsstring) : jsstring_eqb a a = true.
Proof. now apply jsstring_eqb_eq. Qed.

Lemma prefix_app (q s t : jsstring) :
  prefix q s = true -> prefix q (s ++ t) = true.
Proof.
  revert s; induction q as [|a q IH]; intros [|b s]; simpl; try congruence.
  intros H. apply andb_true_iff in H as [-> H]. simpl. now apply IH.
Qed.

Lemma includes_cons (q : jsstring) (c : unit16) (s : jsstring) :
  includes q s = true -> includes q (c :: s) = true.
Proof. intros H. simpl. rewrite H. apply orb_true_r. Qed.

Lemma includes_app_l (q a s : jsstring) :
  includes q s = true -> includes q (a ++ s) = true.
Proof.
  intros H. induction a as [|c a IH]; [exact H|].
  rewrite <- app_comm_cons. now apply includes_cons.
Qed.

Lemma includes_app_r (q s b : jsstring) :
  includes q s = true -> includes q (s ++ b) = true.
Proof.
  induction s as [|c s IH]; simpl.
  - rewrite orb_false_r. intros H. destruct q; [|discriminate].
    destruct b; reflexivity.
  - intros H. apply orb_true_iff in H as [H|H].
    + change (c :: s ++ b) with ((c :: s) ++ b).
      rewrite (prefix_app _ _ b H). reflexivity.
    + rewrite (IH H). apply orb_true_r.
Qed.

Lemma includes_skipn (q : jsstring) (k : nat) (s : jsstring) :
  includes q (skipn k s) = true -> includes q s = true.
Proof.
  intros H. rewrite <- (firstn_skipn k s). now apply includes_app_l.
Qed.

Lemma dropWhile_suffix (p : unit16 -> bool) (s : jsstring) :
  exists a, s = a ++ dropWhile p s.
Proof.
  induction s as [|c s [a IH]]; simpl.
  - now exists [].
  - destruct (p c).
    + exists (c :: a). simpl. now f_equal.
    + now exists [].
Qed.

(** What [trim] returns is a piece of its argument. *)
Lemma trim_middle (s : jsstring) : exists a b, s = a ++ trim s ++ b.
Proof.
  unfold trim.
  destruct (dropWhile_suffix isSpace s) as [a Ha].
  destruct (dropWhile_suffix isSpace (rev (dropWhile isSpace s))) as [b Hb].
  exists a, (rev b).
  rewrite <- rev_app_distr, <- Hb, rev_involutive. exact Ha.
Qed.

Lemma includes_trim (q s : jsstring) :
  includes q s = false -> includes q (trim s) = false.
Proof.
  intros H. destruct (includes q (trim s)) eqn:Ht; [|reflexivity].
  destruct (trim_middle s) as (a & b & Hs).
  rewrite Hs in H. rewrite <- H. symmetry.
  apply includes_app_l, includes_app_r, Ht.
Qed.

(** ** Global replacements *)

Lemma replace_g_skip m (k : nat) (s : jsstring) :
  replace_g m k s = replace_g m 0 (skipn k s).
Proof.
  revert k; induction s as [|c s IH]; intros [|k]; try reflexivity.
  simpl replace_g at 1. rewrite IH. reflexivity.
Qed.

Lemma replace_g_cons m (c : unit16) (rest : jsstring) :
  replace_g m 0 (c :: rest) =
  match m (c :: rest) with
  | Some (len, r) => r ++ replace_g m 0 (skipn (len - 1) rest)
  | None => c :: replace_g m 0 rest
  end.
Proof.
  cbn [replace_g]. destruct (m (c :: rest)) as [[len r]|]; [|reflexivity].
  now rewrite replace_g_skip.
Qed.

Lemma replace_fn_skip m (k : nat) (s : jsstring) :
  replace_fn m k s = replace_fn m 0 (skipn k s).
Proof.
  revert k; induction s as [|c s IH]; intros [|k]; try reflexivity.
  cbn [replace_fn skipn]. apply IH.
Qed.

Lemma replace_fn_cons m (c : unit16) (rest : jsstring) :
  replace_fn m 0 (c :: rest) =
  match m (c :: rest) with
  | Some (len, r) =>
      (let? r' := r in
       let? tail := replace_fn m 0 (skipn (len - 1) rest) in
       Ok (r' ++ tail))%result
  | None => (let? tail := replace_fn m 0 rest in Ok (c :: tail))%result
  end.
Proof.
  cbn [replace_fn]. destruct (m (c :: rest)) as [[len r]|]; [|reflexivity].
  now rewrite replace_fn_skip.
Qed.

Lemma takeWhile_dropWhile (p : unit16 -> bool) (s : jsstring) :
  s = takeWhile p s ++ dropWhile p s.
Proof.
  induction s as [|c s IH]; [reflexivity|].
  cbn [takeWhile dropWhile]. destruct (p c); [|reflexivity].
  cbn [app]. now f_equal.
Qed.

Lemma skipn_takeWhile (p : unit16 -> bool) (s : jsstring) :
  skipn (length (takeWhile p s)) s = dropWhile p s.
Proof.
  induction s as [|c s IH]; [reflexivity|].
  cbn [takeWhile dropWhile]. destruct (p c); [exact IH|reflexivity].
Qed.

Lemma foreign_tail (a : unit16) (q r : jsstring) :
  foreign (a :: q) r -> foreign q r.
Proof.
  unfold foreign. intros H. eapply Forall_impl; [|exact H].
  intros c Hc. cbn [existsb] in Hc. now apply orb_false_iff in Hc.
Qed.

Lemma replaces_outside_tail a q m :
  replaces_outside (a :: q) m -> replaces_outside q m.
Proof.
  intros H s len r Hm. destruct (H s len r Hm) as (c & r' & -> & Hc).
  exists c, r'. split; [reflexivity|]. now apply (foreign_tail a).
Qed.

(** No occurrence of [q] starts in a run of code units foreign to [q]. *)
Lemma includes_foreign_app (q r x : jsstring) :
  foreign q r -> includes q x = false -> includes q (r ++ x) = false.
Proof.
  intros Hr Hx. induction Hr as [|c r Hc _ IH]; [exact Hx|].
  cbn [app includes]. rewrite IH, orb_false_r.
  destruct q as [|a q]; [destruct x; discriminate|].
  cbn [existsb] in Hc. apply orb_false_iff in Hc as [Hc _].
  cbn [prefix]. now rewrite N.eqb_sym, Hc.
Qed.

Lemma prefix_replace_g q m :
  replaces_outside q m ->
  forall s, prefix q (replace_g m 0 s) = true -> prefix q s = true.
Proof.
  induction q as [|a q IH]; intros Hm s; [reflexivity|].
  destruct s as [|c0 rest]; [simpl; congruence|].
  simpl replace_g. destruct (m (c0 :: rest)) as [[len r]|] eqn:Hc.
  - destruct (Hm _ _ _ Hc) as (c & r' & -> & Hout).
    apply Forall_inv in Hout.
    simpl in Hout. apply orb_false_iff in Hout as [Hca _].
    simpl. rewrite N.eqb_sym, Hca. discriminate.
  - simpl. intros H. apply andb_true_iff in H as [-> H]. simpl.
    apply (IH (replaces_outside_tail _ _ _ Hm)), H.
Qed.

(** A replacement by code units foreign to [q] cannot create an occurrence
    of [q]. *)
Lemma includes_replace_g q m :
  replaces_outside q m ->
  forall s, includes q s = false -> includes q (replace_g m 0 s) = false.
Proof.
  intros Hm s. induction on length of s as n IH Hle; intros Hs.
  - destruct s; [|simpl in Hle; lia]. exact Hs.
  - destruct s as [|c0 rest]; [exact Hs|].
    simpl in Hle.
    assert (Hrest : includes q rest = false).
    { simpl in Hs. now apply orb_false_iff in Hs. }
    rewrite replace_g_cons.
    destruct (m (c0 :: rest)) as [[len r]|] eqn:Hc.
    + destruct (Hm _ _ _ Hc) as (c & r' & -> & Hout).
      apply includes_foreign_app; [exact Hout|].
      apply IH; [rewrite length_skipn; lia|].
      destruct (includes q (skipn (len - 1) rest)) eqn:Hsk; [|reflexivity].
      apply includes_skipn in Hsk. congruence.
    + cbn [includes]. rewrite (IH rest) by (lia || exact Hrest).
      rewrite orb_false_r.
      destruct (prefix q (c0 :: replace_g m 0 rest)) eqn:Hp; [|reflexivity].
      assert (Hp' : prefix q (replace_g m 0 (c0 :: rest)) = true).
      { rewrite replace_g_cons, Hc. exact Hp. }
      apply (prefix_replace_g _ _ Hm) in Hp'.
      simpl in Hs. apply orb_false_iff in Hs as [Hs _]. congruence.
Qed.

Lemma literal_replaces_outside q sep c :
  existsb (N.eqb c) q = false -> replaces_outside q (literal sep [c]).
Proof.
  intros Hc s len r. unfold literal.
  destruct (prefix sep s); [|discriminate].
  intros H. injection H as _ <-. exists c, []. split; [reflexivity|].
  now constructor.
Qed.

Lemma spaces_replaces_outside q :
  existsb (N.eqb 32%N) q = false -> replaces_outside q spaces.
Proof.
  intros Hc s len r. unfold spaces.
  destruct (takeWhile isSpace s); [discriminate|].
  intros H. injection H as _ <-. exists 32%N, []. split; [reflexivity|].
  now constructor.
Qed.

(** After [split(sep).join(c)] no occurrence of [sep] is left, when [c]
    is not a code unit of [sep]. *)
Lemma includes_splitJoin_self sep c :
  sep <> [] -> existsb (N.eqb c) sep = false ->
  forall s, includes sep (splitJoin sep [c] s) = false.
Proof.
  intros Hne Hc s. unfold splitJoin.
  pose proof (literal_replaces_outside sep sep c Hc) as Hm.
  induction on length of s as n IH Hle.
  - destruct s; [|simpl in Hle; lia].
    destruct sep; [congruence|reflexivity].
  - destruct s as [|c0 rest].
    { destruct sep; [congruence|reflexivity]. }
    simpl in Hle.
    destruct (includes sep (replace_g (literal sep [c]) 0 (c0 :: rest)))
      eqn:Hout; [|reflexivity].
    simpl replace_g in Hout. unfold literal at 1 in Hout.
    destruct (prefix sep (c0 :: rest)) eqn:Hp.
    + destruct sep as [|e sep']; [congruence|].
      simpl in Hc. apply orb_false_iff in Hc as [Hce _].
      simpl in Hout. rewrite N.eqb_sym, Hce in Hout. simpl in Hout.
      rewrite replace_g_skip in Hout.
      rewrite IH in Hout; [discriminate|].
      rewrite length_skipn. lia.
    + simpl in Hout. apply orb_true_iff in Hout as [Hout|Hout].
      * assert (Hp' : prefix sep (replace_g (literal sep [c]) 0 (c0 :: rest)) = true).
        { simpl replace_g. unfold literal at 1. rewrite Hp. exact Hout. }
        apply (prefix_replace_g _ _ Hm) in Hp'. congruence.
      * rewrite IH in Hout; [discriminate|lia].
Qed.

(** ** Tags *)

Lemma indexOfGt_includes (s : jsstring) :
  indexOfGt s = None <-> includes [62%N] s = false.
Proof.
  induction s as [|c s IH]; cbn [indexOfGt includes prefix]; [tauto|].
  rewrite (N.eqb_sym 62 c). destruct (c =? 62)%N; cbn [andb orb].
  - split; intros H; discriminate H.
  - destruct (indexOfGt s) eqn:Hi; split; intros H; try discriminate H.
    + apply IH in H. discriminate H.
    + now apply IH.
    + reflexivity.
Qed.

Lemma tag_replaces_outside q :
  existsb (N.eqb 32%N) q = false -> replaces_outside q tag.
Proof.
  intros Hc s len r. unfold tag.
  destruct s as [|c rest]; [discriminate|].
  destruct (c =? 60)%N; [|discriminate].
  destruct (indexOfGt rest); [|discriminate].
  intros H. injection H as _ <-. exists 32%N, []. split; [reflexivity|].
  now constructor.
Qed.

Lemma tag_cons (c : unit16) (x : jsstring) :
  tag (c :: x) = None <-> (c =? 60)%N = false \/ includes [62%N] x = false.
Proof.
  unfold tag. destruct (c =? 60)%N.
  - rewrite <- indexOfGt_includes. destruct (indexOfGt x); split;
      intros H; try discriminate; auto.
    destruct H; discriminate.
  - split; auto.
Qed.

Lemma occurs_cons {A} (m : jsstring -> option A) c s :
  occurs m s = true -> occurs m (c :: s) = true.
Proof. intros H. simpl. destruct (m (c :: s)); [reflexivity|exact H]. Qed.

Lemma occurs_app_l {A} (m : jsstring -> option A) a s :
  occurs m s = true -> occurs m (a ++ s) = true.
Proof.
  intros H. induction a as [|c a IH]; [exact H|].
  rewrite <- app_comm_cons. now apply occurs_cons.
Qed.

Lemma containsTag_app_r (s b : jsstring) :
  containsTag s = true -> containsTag (s ++ b) = true.
Proof.
  unfold containsTag. induction s as [|c s IH]; simpl; [discriminate|].
  destruct (c =? 60)%N eqn:Hc.
  - destruct (indexOfGt s) eqn:Hi.
    + intros _.
      assert (Hin : includes [62%N] (s ++ b) = true).
      { apply includes_app_r.
        destruct (includes [62%N] s) eqn:Hs; [reflexivity|].
        apply indexOfGt_includes in Hs. congruence. }
      destruct (indexOfGt (s ++ b)) eqn:Hi'; [reflexivity|].
      apply indexOfGt_includes in Hi'. congruence.
    + intros H. destruct (indexOfGt (s ++ b)); [reflexivity|]. now apply IH.
  - exact IH.
Qed.

Lemma occurs_cons_eq {A} (m : jsstring -> option A) c s :
  occurs m (c :: s) =
  match m (c :: s) with
  | Some _ => true
  | None => occurs m s
  end.
Proof. reflexivity. Qed.

Lemma tag_replacement (s : jsstring) len r :
  tag s = Some (len, r) -> r = [32%N].
Proof.
  unfold tag. destruct s as [|c rest]; [discriminate|].
  destruct (c =? 60)%N; [|discriminate].
  destruct (indexOfGt rest); [|discriminate].
  intros H. now injection H as _ <-.
Qed.

(** Removing the tags leaves no tag. *)
Lemma containsTag_removed (s : jsstring) :
  containsTag (replace_g tag 0 s) = false.
Proof.
  unfold containsTag.
  induction on length of s as n IH Hle.
  - destruct s; [reflexivity|simpl in Hle; lia].
  - destruct s as [|c rest]; [reflexivity|]. simpl in Hle.
    rewrite replace_g_cons.
    destruct (tag (c :: rest)) as [[len r]|] eqn:Ht.
    + rewrite (tag_replacement _ _ _ Ht).
      change ([32%N] ++ replace_g tag 0 (skipn (len - 1) rest))
        with (32%N :: replace_g tag 0 (skipn (len - 1) rest)).
      rewrite occurs_cons_eq.
      replace (tag (32%N :: replace_g tag 0 (skipn (len - 1) rest)))
        with (@None (nat * jsstring)) by reflexivity.
      apply IH. rewrite length_skipn. lia.
    + rewrite occurs_cons_eq.
      replace (tag (c :: replace_g tag 0 rest)) with (@None (nat * jsstring)).
      * apply IH. lia.
      * symmetry. apply tag_cons. apply tag_cons in Ht as [Ht|Ht];
          [now left|right].
        now apply includes_replace_g; [apply tag_replaces_outside|].
Qed.

(** No tag starts in a run of code units other than [<]. *)
Lemma containsTag_foreign_app (r x : jsstring) :
  foreign [60%N] r -> containsTag (r ++ x) = containsTag x.
Proof.
  unfold containsTag, foreign.
  induction r as [|c r IH]; intros Hr; [reflexivity|].
  apply Forall_cons_iff in Hr as [Hc Hr].
  change ((c :: r) ++ x) with (c :: (r ++ x)).
  rewrite occurs_cons_eq, (IH Hr).
  assert (Ht : tag (c :: r ++ x) = None).
  { apply tag_cons. left.
    cbn [existsb] in Hc. now apply orb_false_iff in Hc as [Hc _]. }
  now rewrite Ht.
Qed.

(** A replacement by code units other than [<] and [>] creates no tag. *)
Lemma containsTag_replace_g m :
  replaces_outside [60%N; 62%N] m ->
  forall s, containsTag s = false -> containsTag (replace_g m 0 s) = false.
Proof.
  intros Hm s.
  assert (Hgt : replaces_outside [62%N] m)
    by (exact (replaces_outside_tail _ _ _ Hm)).
  induction on length of s as n IH Hle; intros Hs.
  - destruct s; [exact Hs|simpl in Hle; lia].
  - destruct s as [|c rest]; [exact Hs|]. simpl in Hle.
    unfold containsTag in Hs. rewrite occurs_cons_eq in Hs.
    destruct (tag (c :: rest)) eqn:Ht; [discriminate|].
    rewrite replace_g_cons.
    destruct (m (c :: rest)) as [[len r]|] eqn:Hc.
    + destruct (Hm _ _ _ Hc) as (c' & r' & -> & Hout).
      rewrite containsTag_foreign_app.
      2:{ unfold foreign in *. eapply Forall_impl; [|exact Hout].
          intros x Hx. cbn [existsb] in *.
          apply orb_false_iff in Hx as [Hx _]. now rewrite Hx. }
      apply IH.
      * rewrite length_skipn. lia.
      * unfold containsTag.
        destruct (occurs tag (skipn (len - 1) rest)) eqn:Hsk; [|reflexivity].
        rewrite <- (firstn_skipn (len - 1) rest) in Hs.
        now rewrite (occurs_app_l tag _ _ Hsk) in Hs.
    + unfold containsTag. rewrite occurs_cons_eq.
      replace (tag (c :: replace_g m 0 rest)) with (@None (nat * jsstring)).
      2:{ symmetry. apply tag_cons. apply tag_cons in Ht as [Ht|Ht];
          [now left|right]. now apply includes_replace_g. }
      apply IH; [lia|exact Hs].
Qed.

Lemma containsTag_trim (s : jsstring) :
  containsTag s = false -> containsTag (trim s) = false.
Proof.
  intros H. destruct (containsTag (trim s)) eqn:Ht; [|reflexivity].
  destruct (trim_middle s) as (a & b & Hs).
  rewrite Hs in H. rewrite <- H. symmetry.
  apply occurs_app_l. now apply containsTag_app_r.
Qed.

(** ** Text without an ampersand *)

Lemma includes_unit_cons (a c : unit16) (s : jsstring) :
  includes [a] (c :: s) = false <-> (a =? c)%N = false /\ includes [a] s = false.
Proof.
  cbn [includes prefix]. rewrite andb_true_r. apply orb_false_iff.
Qed.

Lemma includes_first (a : unit16) (q s : jsstring) :
  includes [a] s = false -> includes (a :: q) s = false.
Proof.
  induction s as [|c s IH]; [reflexivity|].
  intros H. apply includes_unit_cons in H as [Hc Hs].
  cbn [includes prefix]. rewrite Hc. cbn [andb orb]. now apply IH.
Qed.

Lemma replace_fn_no_amp callback (s : jsstring) :
  includes [38%N] s = false ->
  replace_fn (numericReference callback) 0 s = Ok s.
Proof.
  induction s as [|c s IH]; [reflexivity|].
  intros H. apply includes_unit_cons in H as [Hc Hs].
  cbn [replace_fn]. unfold numericReference at 1.
  rewrite (N.eqb_sym c 38), Hc. cbn [andb].
  rewrite (IH Hs). now destruct s.
Qed.

Lemma splitJoin_no_amp (sep r s : jsstring) :
  includes [38%N] s = false -> splitJoin (38%N :: sep) r s = s.
Proof.
  unfold splitJoin. induction s as [|c s IH]; [reflexivity|].
  intros H. apply includes_unit_cons in H as [Hc Hs].
  cbn [replace_g]. unfold literal at 1. cbn [prefix]. rewrite Hc.
  cbn [andb]. now rewrite (IH Hs).
Qed.

Lemma containsNumericReference_no_amp (s : jsstring) :
  includes [38%N] s = false -> containsNumericReference s = false.
Proof.
  unfold containsNumericReference.
  induction s as [|c s IH]; [reflexivity|].
  intros H. apply includes_unit_cons in H as [Hc Hs].
  rewrite occurs_cons_eq. unfold numericReference at 1.
  rewrite (N.eqb_sym c 38), Hc. cbn [andb].
  rewrite (IH Hs). now destruct s.
Qed.

Lemma containsNamedEntity_no_amp (s : jsstring) :
  includes [38%N] s = false -> containsNamedEntity s = false.
Proof.
  intros H. unfold containsNamedEntity, namedMap. cbn [existsb fst].
  repeat (match goal with
          | |- context [includes (js ?e) s] =>
              rewrite (includes_first 38%N (tl (js e)) s H : includes (js e) s = false)
          | |- context [includes ?e s] =>
              rewrite (includes_first 38%N (tl e) s H : includes e s = false)
          end).
  reflexivity.
Qed.

(* ================================================================== *)
(** * Markup stripping *)
(* ================================================================== *)

Lemma stripHtml_string callback (text : jsstring) :
  stripHtml callback (Some (JStr text)) =
  (let? decoded :=
     replace_fn (numericReference callback) 0 (replace_g tag 0 text) in
   Ok (trim
         (replace_g spaces 0
            (splitJoin (js "&#39;") (js "'")
               (splitJoin (js "&quot;") [34%N]
                  (splitJoin (js "&gt;") (js ">")
                     (splitJoin (js "&lt;") (js "<")
                        (splitJoin (js "&amp;") (js "&")
                           (splitJoin (js "&nbsp;") (js " ")
                              decoded)))))))))%result.
Proof.
  unfold stripHtml, decodeHtmlEntities.
  destruct (replace_fn (numericReference callback) 0 (replace_g tag 0 text));
    reflexivity.
Qed.

(** The entities decoded after [&amp;] are absent from the decoded text,
    whatever the text was. *)
Lemma decoded_last_four (d : jsstring) :
  let decoded :=
    splitJoin (js "&#39;") (js "'")
      (splitJoin (js "&quot;") [34%N]
         (splitJoin (js "&gt;") (js ">")
            (splitJoin (js "&lt;") (js "<") d))) in
  includes (js "&lt;") decoded = false
  /\ includes (js "&gt;") decoded = false
  /\ includes (js "&quot;") decoded = false
  /\ includes (js "&#39;") decoded = false.
Proof.
  cbv zeta. unfold splitJoin at 1 2 3.
  repeat split.
  - apply includes_replace_g;
      [now apply (literal_replaces_outside _ _ 39%N)|].
    apply includes_replace_g;
      [now apply (literal_replaces_outside _ _ 34%N)|].
    apply includes_replace_g;
      [now apply (literal_replaces_outside _ _ 62%N)|].
    now apply (includes_splitJoin_self (js "&lt;") 60%N).
  - apply includes_replace_g;
      [now apply (literal_replaces_outside _ _ 39%N)|].
    apply includes_replace_g;
      [now apply (literal_replaces_outside _ _ 34%N)|].
    now apply (includes_splitJoin_self (js "&gt;") 62%N).
  - apply includes_replace_g;
      [now apply (literal_replaces_outside _ _ 39%N)|].
    now apply (includes_splitJoin_self (js "&quot;") 34%N).
  - now apply (includes_splitJoin_self (js "&#39;") 39%N).
Qed.

Lemma collapse_trim_includes (q d : jsstring) :
  existsb (N.eqb 32%N) q = false ->
  includes q d = false -> includes q (trim (replace_g spaces 0 d)) = false.
Proof.
  intros Hq Hd. apply includes_trim.
  now apply includes_replace_g; [apply spaces_replaces_outside|].
Qed.

(** ** Text that escapes no markup *)

Lemma occurs_skipn {A} (m : jsstring -> option A) (k : nat) (s : jsstring) :
  occurs m s = false -> occurs m (skipn k s) = false.
Proof.
  intros H. destruct (occurs m (skipn k s)) eqn:Hk; [|reflexivity].
  rewrite <- (firstn_skipn k s) in H.
  now rewrite (occurs_app_l m _ _ Hk) in H.
Qed.

Lemma prefix_split (p x : jsstring) :
  prefix p x = true -> x = p ++ skipn (length p) x.
Proof.
  revert x; induction p as [|a p IH]; intros [|b x]; cbn [prefix];
    try discriminate; try reflexivity.
  intros H. apply andb_true_iff in H as [Hab H]. apply N.eqb_eq in Hab.
  subst b. cbn [length skipn app]. f_equal. now apply IH.
Qed.

Lemma prefix_app_both (p q t : jsstring) :
  prefix q t = true -> prefix (p ++ q) (p ++ t) = true.
Proof.
  intros H. induction p as [|a p IH]; [exact H|].
  cbn [app prefix]. now rewrite N.eqb_refl.
Qed.

Lemma includes_prefix (q s : jsstring) :
  prefix q s = true -> includes q s = true.
Proof. intros H. destruct s; cbn [includes]; now rewrite H. Qed.

(** A text without [sep] is left as it is by [split(sep).join(r)]. *)
Lemma splitJoin_absent (sep r s : jsstring) :
  includes sep s = false -> splitJoin sep r s = s.
Proof.
  unfold splitJoin. induction s as [|c s IH]; [reflexivity|].
  cbn [includes]. intros H. apply orb_false_iff in H as [Hp Hs].
  rewrite replace_g_cons. unfold literal at 1. rewrite Hp. now rewrite (IH Hs).
Qed.

Lemma apartFrom_self (sep s : jsstring) : occurs (apartFrom sep sep) s = false.
Proof.
  assert (H : forall x, apartFrom sep sep x = None).
  { intros x. unfold apartFrom. now destruct (prefix sep x). }
  induction s as [|c s IH]; cbn [occurs]; now rewrite H.
Qed.

Lemma apartFrom_absent (sep q s : jsstring) :
  includes q s = false -> occurs (apartFrom sep q) s = false.
Proof.
  induction s as [|c s IH]; cbn [includes occurs]; unfold apartFrom at 1.
  - rewrite orb_false_r. now intros ->.
  - intros H. apply orb_false_iff in H as [-> H]. now apply IH.
Qed.

(** What [split(sep).join(c)] can create, for a [sep] that starts with
    [c]: an occurrence of [q], which starts with [c] too, remains where
    [sep] did not match, or comes from [sep] followed by the rest of
    [q]. *)
Lemma includes_splitJoin_created (c : unit16) (sep' q' s : jsstring) :
  existsb (N.eqb c) q' = false ->
  occurs (apartFrom (c :: sep') (c :: q')) s = false ->
  includes ((c :: sep') ++ q') s = false ->
  includes (c :: q') (splitJoin (c :: sep') [c] s) = false.
Proof.
  intros Hc. unfold splitJoin.
  pose proof (literal_replaces_outside q' (c :: sep') c Hc) as Hm.
  induction on length of s as n IH Hle; intros Hapart Hdouble.
  - destruct s; [reflexivity|cbn [length] in Hle; lia].
  - destruct s as [|c0 rest]; [reflexivity|]. cbn [length] in Hle.
    rewrite occurs_cons_eq in Hapart.
    destruct (apartFrom (c :: sep') (c :: q') (c0 :: rest)) eqn:Hhere;
      [discriminate|].
    unfold apartFrom in Hhere.
    rewrite replace_g_cons. unfold literal at 1.
    destruct (prefix (c :: sep') (c0 :: rest)) eqn:Hsep.
    + change ([c] ++ ?x) with (c :: x). cbn [includes].
      rewrite IH, orb_false_r.
      * cbn [prefix]. rewrite N.eqb_refl. cbn [andb].
        destruct (prefix q' (replace_g (literal (c :: sep') [c]) 0
                               (skipn (length (c :: sep') - 1) rest)))
          eqn:Hq; [|reflexivity].
        apply (prefix_replace_g _ _ Hm) in Hq.
        apply prefix_split in Hsep.
        change (length (c :: sep')) with (S (length sep')) in Hsep, Hq.
        replace (S (length sep') - 1) with (length sep') in Hq by lia.
        change (skipn (S (length sep')) (c0 :: rest))
          with (skipn (length sep') rest) in Hsep.
        apply (prefix_app_both (c :: sep')) in Hq.
        rewrite <- Hsep in Hq.
        apply includes_prefix in Hq. congruence.
      * rewrite length_skipn. lia.
      * now apply occurs_skipn.
      * destruct (includes ((c :: sep') ++ q')
                    (skipn (length (c :: sep') - 1) rest)) eqn:Hsk;
          [|reflexivity].
        apply includes_skipn, (includes_cons _ c0) in Hsk. congruence.
    + cbn [includes]. rewrite IH, orb_false_r.
      * destruct (prefix (c :: q')
                    (c0 :: replace_g (literal (c :: sep') [c]) 0 rest))
          eqn:Hq; [|reflexivity].
        cbn [prefix] in Hq. apply andb_true_iff in Hq as [Hhead Hq].
        apply (prefix_replace_g _ _ Hm) in Hq.
        cbn [prefix] in Hhere. rewrite Hhead, Hq in Hhere.
        discriminate Hhere.
      * lia.
      * exact Hapart.
      * cbn [includes] in Hdouble. now apply orb_false_iff in Hdouble.
Qed.

(** *** Numeric references *)

Lemma numericReference_isReference callback (s : jsstring) :
  numericReference callback s = None <-> isReference s = false.
Proof.
  destruct s as [|amp [|hash [|d x]]]; cbn [numericReference isReference];
    try tauto.
  - destruct ((amp =? 38)%N && (hash =? 35)%N); tauto.
  - destruct ((amp =? 38)%N && (hash =? 35)%N); cbn [andb]; [|tauto].
    cbv zeta. cbn [takeWhile]. destruct (isDigit d); cbn [andb]; [|tauto].
    cbn [length skipn]. rewrite skipn_takeWhile. unfold endsReference.
    destruct (dropWhile isDigit x) as [|semi tail]; [tauto|].
    destruct (semi =? 59)%N; split; intros H; try discriminate H; reflexivity.
Qed.

Lemma containsNumericReference_cons (c : unit16) (s : jsstring) :
  containsNumericReference (c :: s)
  = isReference (c :: s) || containsNumericReference s.
Proof.
  unfold containsNumericReference. rewrite occurs_cons_eq.
  pose proof (numericReference_isReference (fun _ => Ok []) (c :: s)) as H.
  destruct (numericReference (fun _ => Ok []) (c :: s)).
  - destruct (isReference (c :: s)); [reflexivity|].
    discriminate (proj2 H eq_refl).
  - now rewrite (proj1 H eq_refl).
Qed.

Lemma isReference_needs_amp (c : unit16) (s : jsstring) :
  (c =? 38)%N = false -> isReference (c :: s) = false.
Proof. intros Hc. destruct s as [|hash [|d x]]; cbn [isReference]; now rewrite ?Hc. Qed.

(** No reference starts in a run of code units other than [&]. *)
Lemma containsNumericReference_foreign_app (r x : jsstring) :
  foreign [38%N] r ->
  containsNumericReference (r ++ x) = containsNumericReference x.
Proof.
  unfold foreign. induction r as [|c r IH]; intros Hr; [reflexivity|].
  apply Forall_cons_iff in Hr as [Hc Hr].
  change ((c :: r) ++ x) with (c :: (r ++ x)).
  rewrite containsNumericReference_cons, (IH Hr), isReference_needs_amp;
    [reflexivity|].
  cbn [existsb] in Hc. now apply orb_false_iff in Hc as [Hc _].
Qed.

Lemma head_replace_g m (a : unit16) (t R : jsstring) :
  replaces_outside [a] m ->
  replace_g m 0 t = a :: R -> exists t', t = a :: t' /\ replace_g m 0 t' = R.
Proof.
  intros Hm. destruct t as [|c rest]; [discriminate|].
  rewrite replace_g_cons. destruct (m (c :: rest)) as [[len r]|] eqn:Hc.
  - destruct (Hm _ _ _ Hc) as (c' & r' & -> & Hout).
    apply Forall_inv in Hout. cbn [existsb] in Hout.
    apply orb_false_iff in Hout as [Hout _].
    intros H. injection H as H _. subst c'. now rewrite N.eqb_refl in Hout.
  - intros H. injection H as -> <-. now exists rest.
Qed.

Lemma foreign_reference_units (c : unit16) (r : jsstring) :
  foreign (js "#;0123456789") (c :: r) ->
  isDigit c = false /\ (c =? 59)%N = false /\ (c =? 35)%N = false.
Proof.
  intros H. apply Forall_inv in H. cbn [js List.map list_ascii_of_string existsb] in H.
  repeat (apply orb_false_iff in H as [?H H]).
  repeat match goal with
         | H : (_ =? _)%N = false |- _ => apply N.eqb_neq in H
         end.
  cbn in *. repeat split.
  - unfold isDigit. apply andb_false_iff.
    destruct (N.leb_spec 48 c); [right|now left].
    apply N.leb_gt. lia.
  - apply N.eqb_neq. lia.
  - apply N.eqb_neq. lia.
Qed.

Lemma foreign_unit (q : jsstring) (a c : unit16) (r : jsstring) :
  existsb (N.eqb a) q = true -> foreign q (c :: r) -> foreign [a] (c :: r).
Proof.
  unfold foreign. intros Ha H. eapply Forall_impl; [|exact H].
  intros x Hx. cbn [existsb]. rewrite orb_false_r.
  destruct (x =? a)%N eqn:Hxa; [|reflexivity].
  apply N.eqb_eq in Hxa. subst x. congruence.
Qed.

Lemma replaces_outside_unit (q : jsstring) (a : unit16) m :
  existsb (N.eqb a) q = true -> replaces_outside q m -> replaces_outside [a] m.
Proof.
  intros Ha Hm s len r Hs. destruct (Hm s len r Hs) as (c & r' & -> & Hout).
  exists c, r'. split; [reflexivity|]. now apply (foreign_unit q).
Qed.

Lemma isDigit_unit (d : unit16) :
  isDigit d = true -> existsb (N.eqb d) (js "#;0123456789") = true.
Proof.
  unfold isDigit. intros H. apply andb_true_iff in H as [H1 H2].
  apply N.leb_le in H1, H2.
  assert (Hd : (d = 48 \/ d = 49 \/ d = 50 \/ d = 51 \/ d = 52 \/ d = 53
                \/ d = 54 \/ d = 55 \/ d = 56 \/ d = 57)%N) by lia.
  repeat (destruct Hd as [->|Hd]; [reflexivity|]). now subst d.
Qed.

Lemma endsReference_replace_g m (t : jsstring) :
  replaces_outside (js "#;0123456789") m ->
  endsReference (replace_g m 0 t) = true -> endsReference t = true.
Proof.
  intros Hm. induction on length of t as n IH Hle.
  - destruct t; [trivial|cbn [length] in Hle; lia].
  - destruct t as [|c rest]; [trivial|]. cbn [length] in Hle.
    rewrite replace_g_cons.
    destruct (m (c :: rest)) as [[len r]|] eqn:Hc.
    + destruct (Hm _ _ _ Hc) as (c' & r' & -> & Hout).
      apply foreign_reference_units in Hout as (Hd & Hsemi & _).
      unfold endsReference at 1. rewrite <- app_comm_cons.
      cbn [dropWhile]. rewrite Hd, Hsemi. discriminate.
    + unfold endsReference. cbn [dropWhile].
      destruct (isDigit c); [|trivial].
      apply IH. lia.
Qed.

Lemma isReference_replace_g m (c0 : unit16) (t : jsstring) :
  replaces_outside (js "#;0123456789") m ->
  isReference (c0 :: replace_g m 0 t) = true -> isReference (c0 :: t) = true.
Proof.
  intros Hm H.
  destruct (replace_g m 0 t) as [|hash [|d x']] eqn:HR; try discriminate H.
  cbn [isReference] in H.
  apply andb_true_iff in H as [H Hend]. apply andb_true_iff in H as [H Hd].
  apply andb_true_iff in H as [Hamp Hhash]. apply N.eqb_eq in Hhash.
  subst hash.
  apply head_replace_g in HR as (t1 & -> & HR);
    [|now apply (replaces_outside_unit (js "#;0123456789"))].
  apply head_replace_g in HR as (t2 & -> & HR);
    [|apply (replaces_outside_unit (js "#;0123456789"));
      [now apply isDigit_unit|exact Hm]].
  subst x'. apply (endsReference_replace_g _ _ Hm) in Hend.
  cbn [isReference]. now rewrite Hamp, Hd, Hend.
Qed.

(** A replacement by code units foreign to numeric references creates no
    numeric reference. *)
Lemma containsNumericReference_replace_g m :
  replaces_outside (js "&#;0123456789") m ->
  forall s, containsNumericReference s = false ->
            containsNumericReference (replace_g m 0 s) = false.
Proof.
  intros Hm s.
  pose proof (replaces_outside_tail _ _ _ Hm) as Hm'.
  induction on length of s as n IH Hle; intros Hs.
  - destruct s; [exact Hs|cbn [length] in Hle; lia].
  - destruct s as [|c rest]; [exact Hs|]. cbn [length] in Hle.
    rewrite containsNumericReference_cons in Hs.
    apply orb_false_iff in Hs as [Hhere Hs].
    rewrite replace_g_cons.
    destruct (m (c :: rest)) as [[len r]|] eqn:Hc.
    + destruct (Hm _ _ _ Hc) as (c' & r' & -> & Hout).
      rewrite containsNumericReference_foreign_app.
      * apply IH; [rewrite length_skipn; lia|].
        now apply occurs_skipn.
      * now apply (foreign_unit (js "&#;0123456789")).
    + rewrite containsNumericReference_cons, (IH rest) by (lia || exact Hs).
      rewrite orb_false_r.
      destruct (isReference (c :: replace_g m 0 rest)) eqn:Hr; [|reflexivity].
      apply (isReference_replace_g _ _ _ Hm') in Hr. congruence.
Qed.

(** Decoding [&amp;] creates a numeric reference only from [&amp;#]. *)
Lemma containsNumericReference_amp (s : jsstring) :
  containsNumericReference s = false ->
  includes (js "&amp;#") s = false ->
  containsNumericReference (splitJoin (js "&amp;") (js "&") s) = false.
Proof.
  unfold splitJoin.
  assert (Hm : replaces_outside (js "#;0123456789")
                 (literal (js "&amp;") (js "&")))
    by now apply (literal_replaces_outside _ _ 38%N).
  induction on length of s as n IH Hle; intros Hs Hdouble.
  - destruct s; [exact Hs|cbn [length] in Hle; lia].
  - destruct s as [|c rest]; [exact Hs|]. cbn [length] in Hle.
    rewrite containsNumericReference_cons in Hs.
    apply orb_false_iff in Hs as [Hhere Hs].
    assert (Hrest : includes (js "&amp;#") rest = false).
    { cbn [includes] in Hdouble. now apply orb_false_iff in Hdouble. }
    rewrite replace_g_cons. unfold literal at 1.
    destruct (prefix (js "&amp;") (c :: rest)) eqn:Hsep.
    + change (js "&" ++ ?x) with (38%N :: x).
      rewrite containsNumericReference_cons, IH, orb_false_r.
      * match goal with |- ?x = false => destruct x eqn:Hr end; [|reflexivity].
        destruct (replace_g (literal (js "&amp;") (js "&")) 0
                    (skipn (length (js "&amp;") - 1) rest))
          as [|hash R] eqn:HR; [discriminate Hr|].
        assert (Hhash : hash = 35%N).
        { destruct R as [|d x]; [discriminate Hr|]. cbn [isReference] in Hr.
          apply andb_true_iff in Hr as [Hr _].
          apply andb_true_iff in Hr as [Hr _].
          apply andb_true_iff in Hr as [_ Hr]. now apply N.eqb_eq in Hr. }
        subst hash.
        apply head_replace_g in HR as (t' & Ht & _);
          [|now apply (replaces_outside_unit (js "#;0123456789"))].
        apply prefix_split in Hsep.
        assert (Hp : prefix (js "&amp;#") (c :: rest) = true).
        { change (skipn (length (js "&amp;")) (c :: rest))
            with (skipn (length (js "&amp;") - 1) rest) in Hsep.
          rewrite Hsep, Ht.
          change (js "&amp;#") with (js "&amp;" ++ [35%N]).
          apply prefix_app_both. cbn [prefix]. now rewrite N.eqb_refl. }
        apply includes_prefix in Hp. congruence.
      * rewrite length_skipn. lia.
      * now apply occurs_skipn.
      * destruct (includes (js "&amp;#") (skipn (length (js "&amp;") - 1) rest))
          eqn:Hsk; [|reflexivity].
        apply includes_skipn in Hsk. congruence.
    + rewrite containsNumericReference_cons, (IH rest) by (lia || assumption).
      rewrite orb_false_r.
      destruct (isReference (c :: replace_g (literal (js "&amp;") (js "&")) 0 rest))
        eqn:Hr; [|reflexivity].
      apply (isReference_replace_g _ _ _ Hm) in Hr. congruence.
Qed.

Lemma endsReference_app_r (x b : jsstring) :
  endsReference x = true -> endsReference (x ++ b) = true.
Proof.
  unfold endsReference. induction x as [|c x IH]; [discriminate|].
  rewrite <- app_comm_cons. cbn [dropWhile]. now destruct (isDigit c).
Qed.

Lemma containsNumericReference_app_r (s b : jsstring) :
  containsNumericReference s = true -> containsNumericReference (s ++ b) = true.
Proof.
  induction s as [|c s IH]; [discriminate|].
  rewrite <- app_comm_cons, !containsNumericReference_cons.
  intros H. apply orb_true_iff in H as [H|H].
  - destruct s as [|hash [|d x]]; try discriminate H.
    cbn [isReference app] in *.
    apply andb_true_iff in H as [H Hend].
    now rewrite H, (endsReference_app_r _ b Hend).
  - rewrite (IH H). apply orb_true_r.
Qed.

Lemma containsNumericReference_trim (s : jsstring) :
  containsNumericReference s = false ->
  containsNumericReference (trim s) = false.
Proof.
  intros H. destruct (containsNumericReference (trim s)) eqn:Ht; [|reflexivity].
  destruct (trim_middle s) as (a & b & Hs).
  rewrite Hs in H. rewrite <- H. symmetry.
  apply occurs_app_l. now apply containsNumericReference_app_r.
Qed.

(** *** The numeric references of such a text *)

Lemma foreign_markup (q r : jsstring) :
  forallb isMarkupUnit q = true -> existsb isMarkupUnit r = false ->
  foreign q r.
Proof.
  intros Hq Hr. apply Forall_forall. intros c Hc.
  destruct (existsb (N.eqb c) q) eqn:Hin; [|reflexivity].
  apply existsb_exists in Hin as (a & Ha & Hca). apply N.eqb_eq in Hca.
  subst a. rewrite forallb_forall in Hq.
  assert (Hr' : existsb isMarkupUnit r = true)
    by (apply existsb_exists; exists c; auto).
  congruence.
Qed.

Lemma numericReference_callback callback (s : jsstring) len r :
  numericReference callback s = Some (len, r) -> exists code, r = callback code.
Proof.
  unfold numericReference. destruct s as [|amp [|hash rest]]; try discriminate.
  destruct ((amp =? 38)%N && (hash =? 35)%N); [|discriminate]. cbv zeta.
  destruct (takeWhile isDigit rest) as [|d code]; [discriminate|].
  destruct (skipn (length (d :: code)) rest) as [|semi tail]; [discriminate|].
  destruct (semi =? 59)%N; [|discriminate].
  intros H. injection H as _ <-. eauto.
Qed.

Lemma safeReference_replaces_outside (q : jsstring) :
  forallb isMarkupUnit q = true -> replaces_outside q safeReference.
Proof.
  intros Hq s len r. unfold safeReference.
  destruct (numericReference fromCodePoint s) as [[l [r0|e]]|] eqn:Hm;
    try discriminate.
  destruct (existsb isMarkupUnit r0) eqn:Hr; [discriminate|].
  intros H. injection H as _ <-.
  apply numericReference_callback in Hm as [code Hcode].
  assert (Hne : exists c r', r0 = c :: r').
  { unfold fromCodePoint in Hcode.
    destruct (code <=? 65535)%N; [injection Hcode as ->; eauto|].
    destruct (code <=? 1114111)%N; [injection Hcode as ->; eauto|discriminate]. }
  destruct Hne as (c & r' & ->). exists c, r'. split; [reflexivity|].
  now apply foreign_markup.
Qed.

(** On a text whose numeric references are all valid and foreign to
    markup, the replacement of the numeric references never throws and is
    a replacement by foreign code units. *)
Lemma replace_fn_safe (s : jsstring) :
  occurs spellsMarkup s = false ->
  replace_fn (numericReference fromCodePoint) 0 s
  = Ok (replace_g safeReference 0 s).
Proof.
  induction on length of s as n IH Hle; intros Hs.
  - destruct s; [reflexivity|cbn [length] in Hle; lia].
  - destruct s as [|c rest]; [reflexivity|]. cbn [length] in Hle.
    rewrite occurs_cons_eq in Hs.
    destruct (spellsMarkup (c :: rest)) eqn:Hhere; [discriminate|].
    rewrite replace_fn_cons, replace_g_cons.
    unfold spellsMarkup in Hhere. unfold safeReference at 1.
    destruct (numericReference fromCodePoint (c :: rest)) as [[len [r|e]]|].
    + destruct (existsb isMarkupUnit r); [discriminate|]. cbn [rbind].
      rewrite IH; [reflexivity|rewrite length_skipn; lia|].
      now apply occurs_skipn.
    + discriminate.
    + now rewrite (IH rest) by (lia || exact Hs).
Qed.

(** Once they are decoded, no numeric reference is left. *)
Lemma containsNumericReference_removed (s : jsstring) :
  occurs spellsMarkup s = false ->
  containsNumericReference (replace_g safeReference 0 s) = false.
Proof.
  assert (Hm : replaces_outside (js "&#;0123456789") safeReference)
    by now apply safeReference_replaces_outside.
  pose proof (replaces_outside_tail _ _ _ Hm) as Hm'.
  induction on length of s as n IH Hle; intros Hs.
  - destruct s; [reflexivity|cbn [length] in Hle; lia].
  - destruct s as [|c rest]; [reflexivity|]. cbn [length] in Hle.
    rewrite occurs_cons_eq in Hs.
    destruct (spellsMarkup (c :: rest)) eqn:Hhere; [discriminate|].
    rewrite replace_g_cons.
    destruct (safeReference (c :: rest)) as [[len r]|] eqn:Hc.
    + destruct (Hm _ _ _ Hc) as (c' & r' & -> & Hout).
      rewrite containsNumericReference_foreign_app.
      * apply IH; [rewrite length_skipn; lia|]. now apply occurs_skipn.
      * now apply (foreign_unit (js "&#;0123456789")).
    + rewrite containsNumericReference_cons, (IH rest) by (lia || exact Hs).
      rewrite orb_false_r.
      destruct (isReference (c :: replace_g safeReference 0 rest)) eqn:Hr;
        [|reflexivity].
      apply (isReference_replace_g _ _ _ Hm') in Hr.
      assert (Hnone : numericReference fromCodePoint (c :: rest) = None).
      { unfold spellsMarkup in Hhere. unfold safeReference in Hc.
        destruct (numericReference fromCodePoint (c :: rest))
          as [[len [r|e]]|]; [|discriminate|reflexivity].
        destruct (existsb isMarkupUnit r); discriminate. }
      apply numericReference_isReference in Hnone. congruence.
Qed.

(** *** Tags *)

Lemma containsTag_no_lt (s : jsstring) :
  includes [60%N] s = false -> containsTag s = false.
Proof.
  unfold containsTag. induction s as [|c s IH]; [reflexivity|].
  intros H. apply includes_unit_cons in H as [Hc Hs].
  rewrite occurs_cons_eq.
  assert (Ht : tag (c :: s) = None)
    by (apply tag_cons; left; now rewrite N.eqb_sym).
  rewrite Ht. now apply IH.
Qed.

Lemma containsTag_no_gt (s : jsstring) :
  includes [62%N] s = false -> containsTag s = false.
Proof.
  unfold containsTag. induction s as [|c s IH]; [reflexivity|].
  intros H. apply includes_unit_cons in H as [Hc Hs].
  rewrite occurs_cons_eq.
  assert (Ht : tag (c :: s) = None) by (apply tag_cons; now right).
  rewrite Ht. now apply IH.
Qed.

Lemma spellsMarkup_no_amp (s : jsstring) :
  includes [38%N] s = false -> occurs spellsMarkup s = false.
Proof.
  induction s as [|c s IH]; [reflexivity|].
  intros H. apply includes_unit_cons in H as [Hc Hs].
  rewrite occurs_cons_eq. unfold spellsMarkup at 1.
  assert (Hnone : numericReference fromCodePoint (c :: s) = None).
  { apply numericReference_isReference, isReference_needs_amp.
    now rewrite N.eqb_sym. }
  rewrite Hnone. now apply IH.
Qed.

(** A text without ampersand escapes nothing. *)
Lemma escapesMarkup_no_amp (s : jsstring) :
  includes [38%N] s = false -> escapesMarkup s = false.
Proof.
  intros H. unfold escapesMarkup, escapedAngles, twiceEscaped.
  rewrite (spellsMarkup_no_amp _ H). cbn [existsb orb].
  change (js "&amp;nbsp;") with (38%N :: js "amp;nbsp;").
  change (js "&amp;amp;") with (38%N :: js "amp;amp;").
  change (js "&amp;lt;") with (38%N :: js "amp;lt;").
  change (js "&amp;gt;") with (38%N :: js "amp;gt;").
  change (js "&amp;#") with (38%N :: js "amp;#").
  change (js "&lt;") with (38%N :: js "lt;").
  change (js "&gt;") with (38%N :: js "gt;").
  now rewrite !(includes_first 38%N _ s H).
Qed.

(** The text decoded from a text whose numeric references are valid and
    foreign to markup: what markup it holds comes from an entity written
    after [&amp;], or from an escaped angle bracket. *)
Lemma decoded_once (w : jsstring) :
  occurs spellsMarkup w = false -> containsTag w = false ->
  exists decoded,
    replace_fn (numericReference fromCodePoint) 0 w = Ok decoded
    /\ let out :=
         trim
           (replace_g spaces 0
              (splitJoin (js "&#39;") (js "'")
                 (splitJoin (js "&quot;") [34%N]
                    (splitJoin (js "&gt;") (js ">")
                       (splitJoin (js "&lt;") (js "<")
                          (splitJoin (js "&amp;") (js "&")
                             (splitJoin (js "&nbsp;") (js " ")
                                decoded))))))) in
       (includes (js "&amp;#") w = false ->
        containsNumericReference out = false)
       /\ (includes (js "&amp;nbsp;") w = false ->
           includes (js "&nbsp;") out = false)
       /\ (includes (js "&amp;amp;") w = false ->
           includes (js "&amp;") out = false)
       /\ (includes (js "&amp;lt;") w = false ->
           includes (js "&amp;gt;") w = false ->
           escapedAngles w = false ->
           containsTag out = false).
Proof.
  intros Hnum Htag.
  exists (replace_g safeReference 0 w).
  split; [now apply replace_fn_safe|]. cbv zeta. unfold splitJoin.
  set (s1 := replace_g safeReference 0 w).
  set (s2 := replace_g (literal (js "&nbsp;") (js " ")) 0 s1).
  set (s3 := replace_g (literal (js "&amp;") (js "&")) 0 s2).
  set (s4 := replace_g (literal (js "&lt;") (js "<")) 0 s3).
  set (s5 := replace_g (literal (js "&gt;") (js ">")) 0 s4).
  set (s6 := replace_g (literal (js "&quot;") [34%N]) 0 s5).
  set (s7 := replace_g (literal (js "&#39;") (js "'")) 0 s6).
  (* what the first two passes cannot create *)
  assert (T2 : forall q, forallb isMarkupUnit q = true ->
                         existsb (N.eqb 32%N) q = false ->
                         includes q w = false -> includes q s2 = false).
  { intros q Hq Hsp Hw.
    apply includes_replace_g; [now apply literal_replaces_outside|].
    now apply includes_replace_g; [apply safeReference_replaces_outside|]. }
  (* what the decoding of [&amp;] cannot create *)
  assert (T3 : forall q', existsb (N.eqb 38%N) q' = false ->
                          includes (38%N :: q') s2 = false ->
                          includes (js "&amp;" ++ q') s2 = false ->
                          includes (38%N :: q') s3 = false).
  { intros q' Hq Hone Htwo.
    apply (includes_splitJoin_created 38%N (js "amp;") q' s2 Hq);
      [now apply apartFrom_absent|exact Htwo]. }
  assert (U3 : forall a, isMarkupUnit a = true -> (a =? 38)%N = false ->
                         (a =? 32)%N = false ->
                         includes [a] w = false -> includes [a] s3 = false).
  { intros a Ha Hamp Hsp Hw.
    apply includes_replace_g.
    { apply (literal_replaces_outside _ _ 38%N). cbn [existsb].
      now rewrite N.eqb_sym, Hamp. }
    apply T2; [cbn [forallb]; now rewrite Ha| |exact Hw].
    cbn [existsb]. now rewrite N.eqb_sym, Hsp. }
  (* the four passes after it, the collapse and the trim *)
  assert (Last : forall q,
             forallb (fun c => negb (existsb (N.eqb c) q))
               [60%N; 62%N; 34%N; 39%N; 32%N] = true ->
             includes q s3 = false ->
             includes q (trim (replace_g spaces 0 s7)) = false).
  { intros q Hq Hs3. cbn [forallb] in Hq.
    repeat (apply andb_true_iff in Hq as [?Hc Hq]).
    repeat match goal with
           | H : negb _ = true |- _ => apply negb_true_iff in H
           end.
    apply collapse_trim_includes; [assumption|].
    apply includes_replace_g;
      [now apply (literal_replaces_outside _ _ 39%N)|].
    apply includes_replace_g;
      [now apply (literal_replaces_outside _ _ 34%N)|].
    apply includes_replace_g;
      [now apply (literal_replaces_outside _ _ 62%N)|].
    now apply includes_replace_g;
      [apply (literal_replaces_outside _ _ 60%N)|]. }
  split; [|split; [|split]].
  - (* numeric references *)
    intros Hhash2.
    apply containsNumericReference_trim.
    apply containsNumericReference_replace_g;
      [now apply spaces_replaces_outside|].
    apply containsNumericReference_replace_g;
      [now apply (literal_replaces_outside _ _ 39%N)|].
    apply containsNumericReference_replace_g;
      [now apply (literal_replaces_outside _ _ 34%N)|].
    apply containsNumericReference_replace_g;
      [now apply (literal_replaces_outside _ _ 62%N)|].
    apply containsNumericReference_replace_g;
      [now apply (literal_replaces_outside _ _ 60%N)|].
    apply containsNumericReference_amp; [|now apply T2].
    apply containsNumericReference_replace_g;
      [now apply literal_replaces_outside|].
    now apply containsNumericReference_removed.
  - intros Hnbsp2. apply Last; [reflexivity|].
    apply (T3 (js "nbsp;")); [reflexivity| |now apply T2].
    now apply (includes_splitJoin_self (js "&nbsp;") 32%N).
  - intros Hamp2. apply Last; [reflexivity|].
    apply (includes_splitJoin_created 38%N (js "amp;") (js "amp;") s2);
      [reflexivity|apply apartFrom_self|now apply T2].
  - (* tags *)
    intros Hlt2 Hgt2 Hangles.
    assert (Hlt3 : includes (js "&lt;") w = false ->
                   includes (js "&lt;") s3 = false).
    { intros Hw. apply (T3 (js "lt;")); [reflexivity| |]; now apply T2. }
    assert (Hgt3 : includes (js "&gt;") w = false ->
                   includes (js "&gt;") s3 = false).
    { intros Hw. apply (T3 (js "gt;")); [reflexivity| |]; now apply T2. }
    assert (Htag3 : containsTag s3 = false).
    { apply containsTag_replace_g;
        [now apply (literal_replaces_outside _ _ 38%N)|].
      apply containsTag_replace_g;
        [now apply (literal_replaces_outside _ _ 32%N)|].
      now apply containsTag_replace_g;
        [apply safeReference_replaces_outside|]. }
    unfold escapedAngles in Hangles.
    apply andb_false_iff in Hangles as [Hangles|Hcloses];
      [apply andb_false_iff in Hangles as [Hescaped|Hopens]|].
    + (* no escaped angle bracket *)
      apply orb_false_iff in Hescaped as [Hlt Hgt].
      assert (E4 : s4 = s3) by (apply splitJoin_absent; auto).
      assert (E5 : s5 = s3).
      { unfold s5. rewrite E4. apply splitJoin_absent; auto. }
      apply containsTag_trim, containsTag_replace_g;
        [now apply spaces_replaces_outside|].
      apply containsTag_replace_g;
        [now apply (literal_replaces_outside _ _ 39%N)|].
      apply containsTag_replace_g;
        [now apply (literal_replaces_outside _ _ 34%N)|].
      fold s5. now rewrite E5.
    + (* no opening angle bracket *)
      apply orb_false_iff in Hopens as [Hraw Hlt].
      assert (E4 : s4 = s3) by (apply splitJoin_absent; auto).
      apply containsTag_no_lt.
      apply collapse_trim_includes; [reflexivity|].
      apply includes_replace_g;
        [now apply (literal_replaces_outside _ _ 39%N)|].
      apply includes_replace_g;
        [now apply (literal_replaces_outside _ _ 34%N)|].
      apply includes_replace_g;
        [now apply (literal_replaces_outside _ _ 62%N)|].
      fold s4. rewrite E4. now apply U3.
    + (* no closing angle bracket *)
      apply orb_false_iff in Hcloses as [Hraw Hgt].
      assert (G4 : includes (js "&gt;") s4 = false).
      { apply includes_replace_g;
          [now apply (literal_replaces_outside _ _ 60%N)|auto]. }
      assert (E5 : s5 = s4) by (apply splitJoin_absent; auto).
      apply containsTag_no_gt.
      apply collapse_trim_includes; [reflexivity|].
      apply includes_replace_g;
        [now apply (literal_replaces_outside _ _ 39%N)|].
      apply includes_replace_g;
        [now apply (literal_replaces_outside _ _ 34%N)|].
      fold s5. rewrite E5.
      apply includes_replace_g;
        [now apply (literal_replaces_outside _ _ 60%N)|].
      now apply U3.
Qed.

(* ================================================================== *)
(** * Decimal numerals and the fiscal-year label *)
(* ================================================================== *)

Lemma decimal_fuel_enough (f1 f2 : nat) (n : N) :
  (n < 2 ^ N.of_nat (S f1))%N -> (n < 2 ^ N.of_nat (S f2))%N ->
  decimal_fuel (S f1) n = decimal_fuel (S f2) n.
Proof.
  revert f2 n; induction f1 as [|f1 IH]; intros f2 n H1 H2.
  - change (2 ^ N.of_nat 1)%N with 2%N in H1.
    cbn [decimal_fuel]. destruct (n <? 10)%N eqn:Hn; [reflexivity|].
    apply N.ltb_ge in Hn. lia.
  - cbn [decimal_fuel]. destruct (n <? 10)%N eqn:Hn; [reflexivity|].
    apply N.ltb_ge in Hn.
    destruct f2 as [|f2].
    { change (2 ^ N.of_nat 1)%N with 2%N in H2. lia. }
    rewrite Nat2N.inj_succ, N.pow_succ_r' in H1, H2.
    f_equal. apply IH; apply N.Div0.div_lt_upper_bound; lia.
Qed.

Lemma decimalN_bound (n : N) : (n < 2 ^ N.of_nat (S (N.to_nat (N.log2 n))))%N.
Proof.
  rewrite Nat2N.inj_succ, N2Nat.id.
  destruct n as [|p]; [reflexivity|].
  apply N.log2_spec. lia.
Qed.

(** The numeral of [n], digit by digit. *)
Lemma decimalN_unfold (n : N) :
  decimalN n =
  if (n <? 10)%N then [digitUnit n]
  else decimalN (n / 10) ++ [digitUnit (n mod 10)].
Proof.
  unfold decimalN at 1.
  pose proof (decimalN_bound n) as Hb.
  destruct (N.to_nat (N.log2 n)) as [|f] eqn:Hf.
  - change (2 ^ N.of_nat 1)%N with 2%N in Hb.
    cbn [decimal_fuel]. destruct (n <? 10)%N eqn:Hn; [reflexivity|].
    apply N.ltb_ge in Hn. lia.
  - cbn [decimal_fuel]. destruct (n <? 10)%N eqn:Hn; [reflexivity|].
    apply N.ltb_ge in Hn. f_equal. unfold decimalN.
    apply decimal_fuel_enough; [|apply decimalN_bound].
    rewrite Nat2N.inj_succ, N.pow_succ_r' in Hb.
    apply N.Div0.div_lt_upper_bound. lia.
Qed.

Lemma sliceLast_two (l : jsstring) (a b : unit16) :
  sliceLast 2 (l ++ [a; b]) = [a; b].
Proof.
  unfold sliceLast. rewrite length_app. cbn [length].
  replace (length l + 2 - 2) with (length l + 0) by lia.
  rewrite skipn_app, skipn_all2 by lia.
  replace (length l + 0 - length l) with 0 by lia. reflexivity.
Qed.

Lemma sliceLast_decimalZ (n : Z) :
  (10 <= n)%Z -> sliceLast 2 (decimalZ n) = lastTwoDigits n.
Proof.
  intros Hn. unfold decimalZ, lastTwoDigits.
  destruct (n <? 0)%Z eqn:Hneg; [apply Z.ltb_lt in Hneg; lia|].
  rewrite decimalN_unfold.
  destruct (Z.to_N n <? 10)%N eqn:H10; [apply N.ltb_lt in H10; lia|].
  rewrite (decimalN_unfold (Z.to_N n / 10)).
  assert (E1 : (Z.to_N n mod 10 = Z.to_N (n mod 10))%N).
  { change 10%N with (Z.to_N 10). rewrite <- Z2N.inj_mod by lia. reflexivity. }
  assert (E2 : (Z.to_N n / 10 = Z.to_N (n / 10))%N).
  { change 10%N with (Z.to_N 10). rewrite <- Z2N.inj_div by lia. reflexivity. }
  rewrite E1, E2.
  destruct (Z.to_N (n / 10) <? 10)%N eqn:H100.
  - apply N.ltb_lt in H100.
    assert (Hsmall : (n / 10 mod 10 = n / 10)%Z).
    { apply Z.mod_small. split; [apply Z.div_pos; lia|].
      change 10%N with (Z.to_N 10) in H100.
      apply Z2N.inj_lt in H100; [exact H100| |lia]. apply Z.div_pos; lia. }
    rewrite Hsmall. reflexivity.
  - rewrite <- app_assoc.
    assert (E3 : (Z.to_N (n / 10) mod 10 = Z.to_N (n / 10 mod 10))%N).
    { change 10%N with (Z.to_N 10).
      rewrite <- Z2N.inj_mod; [reflexivity| |lia]. apply Z.div_pos; lia. }
    rewrite E3. apply sliceLast_two.
Qed.

Lemma sliceLast_short (k : nat) (s : jsstring) :
  length s <= k -> sliceLast k s = s.
Proof.
  unfold sliceLast. intros H. now replace (length s - k) with 0 by lia.
Qed.

Lemma sliceLast_cons (k : nat) (a : unit16) (s : jsstring) :
  k <= length s -> sliceLast k (a :: s) = sliceLast k s.
Proof.
  unfold sliceLast. intros H. cbn [length].
  now replace (S (length s) - k) with (S (length s - k)) by lia.
Qed.

Lemma decimalN_small (m : N) : (m < 10)%N -> decimalN m = [digitUnit m].
Proof.
  intros H. rewrite decimalN_unfold.
  now destruct (m <? 10)%N eqn:Hm; [|apply N.ltb_ge in Hm; lia].
Qed.

Lemma decimalN_length (m : N) : 1 <= length (decimalN m).
Proof.
  rewrite decimalN_unfold. destruct (m <? 10)%N; [cbn [length]; lia|].
  rewrite length_app. cbn [length]. lia.
Qed.

Lemma decimalN_two (m : N) : (10 <= m)%N -> 2 <= length (decimalN m).
Proof.
  intros H. rewrite decimalN_unfold.
  destruct (m <? 10)%N eqn:Hm; [apply N.ltb_lt in Hm; lia|].
  rewrite length_app. cbn [length]. pose proof (decimalN_length (m / 10)). lia.
Qed.

(** [String(n).slice(-2)], for every integer [n]. *)
Lemma sliceLast_yearEnding (n : Z) : sliceLast 2 (decimalZ n) = yearEnding n.
Proof.
  unfold yearEnding. destruct (10 <=? Z.abs n)%Z eqn:Hn.
  - apply Z.leb_le in Hn. destruct (Z.ltb_spec n 0) as [Hneg|Hpos].
    + rewrite Z.abs_neq by lia.
      rewrite <- (sliceLast_decimalZ (- n)) by lia.
      unfold decimalZ.
      destruct (n <? 0)%Z eqn:H1; [|apply Z.ltb_ge in H1; lia].
      destruct (- n <? 0)%Z eqn:H2; [apply Z.ltb_lt in H2; lia|].
      apply sliceLast_cons, decimalN_two. lia.
    + rewrite Z.abs_eq by lia. apply sliceLast_decimalZ. lia.
  - apply Z.leb_gt in Hn. apply sliceLast_short. unfold decimalZ.
    destruct (n <? 0)%Z; rewrite decimalN_small by lia; cbn [length]; lia.
Qed.

(** C7, as amended.  For every date: from April to December the label
    starts with the calendar year, from January to March with the year
    before; after the dash come the last two digits of the start plus one
    when that year has two digits or more, and its whole numeral when it
    has one.  So from the year 10 on the label is the one the
    specification describes. *)
Theorem getFiscalYearLabel_spec (date : clock) :
  ((4 <= getMonth date + 1 <= 12)%Z ->
   getFiscalYearLabel date = fiscalLabelOf (getFullYear date)
   /\ ((9 <= getFullYear date)%Z ->
       getFiscalYearLabel date = fiscalLabel (getFullYear date)))
  /\ ((1 <= getMonth date + 1 <= 3)%Z ->
      getFiscalYearLabel date = fiscalLabelOf (getFullYear date - 1)
      /\ ((10 <= getFullYear date)%Z ->
          getFiscalYearLabel date = fiscalLabel (getFullYear date - 1))).
Proof.
  unfold getFiscalYearLabel, fiscalLabelOf, fiscalLabel. split; intros Hm.
  - destruct (4 <=? getMonth date + 1)%Z eqn:H4;
      [|apply Z.leb_gt in H4; lia].
    split; [now rewrite sliceLast_yearEnding|].
    intros Hy. rewrite sliceLast_decimalZ by lia. reflexivity.
  - destruct (4 <=? getMonth date + 1)%Z eqn:H4;
      [apply Z.leb_le in H4; lia|].
    split; [now rewrite sliceLast_yearEnding|].
    intros Hy. rewrite sliceLast_decimalZ by lia. reflexivity.
Qed.

(* ================================================================== *)
(** * The close date of a row *)
(* ================================================================== *)

Lemma get_twice (row : json) (k1 k2 : jsstring) v :
  get row k1 = Ok v -> exists v2, get row k2 = Ok v2.
Proof. destruct row; cbn [get]; try discriminate; eauto. Qed.

Lemma getCloseDateIso_resolved E callback (row : json) :
  getCloseDateIso E callback row = resolvedCloseDate E callback row.
Proof.
  unfold getCloseDateIso, resolvedCloseDate, or_else.
  destruct (get row (js "~Srt_Close")) as [srt|e] eqn:Hsrt; [|reflexivity].
  destruct (get_twice row _ (js "Close") _ Hsrt) as [close ->].
  cbn [rbind]. now destruct (truthy srt).
Qed.

(** C3.  [isClosingToday] answers true exactly when the resolved close
    date of the row is the reference date; a row whose resolved close date
    is the sentinel does not match. *)
Theorem isClosingToday_iff E callback (row : json) (referenceDate : jsstring) :
  (isClosingToday E callback row referenceDate = Ok true
   <-> resolvedCloseDate E callback row = Ok (Some referenceDate))
  /\ (resolvedCloseDate E callback row = Ok None ->
      isClosingToday E callback row referenceDate = Ok false).
Proof.
  unfold isClosingToday. rewrite getCloseDateIso_resolved.
  destruct (resolvedCloseDate E callback row) as [[iso|]|e]; cbn [rbind].
  - split; [|discriminate]. split; intros H.
    + injection H as H. apply jsstring_eqb_eq in H. now subst.
    + injection H as ->. now rewrite jsstring_eqb_refl.
  - split; [split; discriminate|reflexivity].
  - split; [split; discriminate|discriminate].
Qed.

Lemma normalizeDate_empty E : normalizeDate E (Some (JStr [])) = Ok None.
Proof. reflexivity. Qed.


(* ================================================================== *)
(** * The message composer *)
(* ================================================================== *)

Lemma filterR_none (p : json -> result bool) (rows : list json) :
  Forall (fun row => p row = Ok false) rows -> filterR p rows = Ok [].
Proof.
  induction 1 as [|row rows Hrow _ IH]; [reflexivity|].
  cbn [filterR]. now rewrite Hrow, IH.
Qed.

Lemma rowSequence_get (data : json) (rows : list json) :
  rowSequence data = Some rows <->
  get data (js "reportTableData") = Ok (Some (JArr rows)).
Proof.
  destruct data as [| | | | |props]; cbn [rowSequence get];
    try (split; discriminate).
  destruct (assoc (js "reportTableData") props) as [[]|];
    split; intros H; try discriminate; now injection H as ->.
Qed.

Lemma filterR_returns (p : json -> result bool) (rows : list json) :
  (forall row, In row rows -> exists keep, p row = Ok keep) ->
  exists kept, filterR p rows = Ok kept /\ incl kept rows.
Proof.
  induction rows as [|row rows IH]; intros H.
  - exists []. split; [reflexivity|apply incl_refl].
  - destruct (H row (or_introl eq_refl)) as [keep Hkeep].
    destruct IH as (kept & Hkept & Hincl).
    { intros r Hr. apply H. now right. }
    cbn [filterR]. rewrite Hkeep, Hkept. cbn [rbind].
    destruct keep; eexists; (split; [reflexivity|]).
    + intros r [<-|Hr]; [now left|right; now apply Hincl].
    + intros r Hr. right. now apply Hincl.
Qed.

Lemma mapR_returns (f : json -> result jsstring) (rows : list json) :
  (forall row, In row rows -> exists text, f row = Ok text) ->
  exists texts, mapR f rows = Ok texts.
Proof.
  induction rows as [|row rows IH]; intros H.
  - now exists [].
  - destruct (H row (or_introl eq_refl)) as [text Htext].
    destruct IH as (texts & Htexts).
    { intros r Hr. apply H. now right. }
    cbn [mapR]. rewrite Htext, Htexts. now eexists.
Qed.

(** C8.  A payload whose rows all fail the filter (an empty row array is
    the first case) is composed into the header for the reference date
    and the line "No IPOs closing today."; a composed message is never the
    empty string; and a message is composed whenever the filter and the
    formatter return on every row. *)
Theorem formatMessage_no_rows E callback :
  (forall data rows,
     rowSequence data = Some rows ->
     Forall (fun row => isClosingToday E callback row (todayInKolkata E)
                        = Ok false) rows ->
     formatMessage E callback data = Ok (noIposMessage (todayInKolkata E)))
  /\ (forall data message,
        formatMessage E callback data = Ok message -> message <> [])
  /\ (forall data,
        (forall rows row, rowSequence data = Some rows -> In row rows ->
           (exists keep,
              isClosingToday E callback row (todayInKolkata E) = Ok keep)
           /\ (exists block, formatIpoRow callback row = Ok block)) ->
        exists message, formatMessage E callback data = Ok message).
Proof.
  split; [|split].
  - intros data rows Hrows Hall. apply rowSequence_get in Hrows.
    unfold formatMessage. rewrite Hrows.
    assert (Ht : truthy (Some data) = true).
    { destruct data; cbn [get] in Hrows; try discriminate; reflexivity. }
    rewrite Ht. cbn [negb rbind]. unfold getTodayIso.
    rewrite (filterR_none _ _ Hall). reflexivity.
  - intros data message. unfold formatMessage, fallbackMessage, header, chart.
    destruct (negb (truthy (Some data))).
    { intros H. injection H as <-. discriminate. }
    destruct (get data (js "reportTableData")) as [[[| | | |items|]|]|];
      cbn [rbind]; try (intros H; injection H as <-; discriminate);
      try discriminate.
    destruct (filterR _ items) as [closing|]; cbn [rbind]; [|discriminate].
    destruct (mapR _ closing) as [blocks|]; cbn [rbind]; [|discriminate].
    destruct (trim _); intros H; injection H as <-; discriminate.
  - intros data Hrows.
    destruct (rowSequence data) as [rows|] eqn:Hseq.
    + pose proof (proj1 (rowSequence_get data rows) Hseq) as Hget.
      unfold formatMessage. rewrite Hget.
      assert (Ht : truthy (Some data) = true).
      { destruct data; cbn [get] in Hget; try discriminate; reflexivity. }
      rewrite Ht. cbn [negb rbind]. unfold getTodayIso.
      destruct (filterR_returns
                  (fun row => isClosingToday E callback row (todayInKolkata E))
                  rows) as (kept & -> & Hincl).
      { intros row Hin. apply (Hrows rows row eq_refl Hin). }
      cbn [rbind].
      destruct (mapR_returns (formatIpoRow callback) kept) as (blocks & ->).
      { intros row Hin. apply (Hrows rows row eq_refl (Hincl row Hin)). }
      cbn [rbind]. destruct (trim _); eexists; reflexivity.
    + exists (fallbackMessage data). unfold formatMessage.
      destruct data as [|b|n|s|items|props];
        cbn [truthy negb get rbind]; try reflexivity.
      * now destruct b.
      * now destruct (num_is_zero n).
      * now destruct s.
      * cbn [rowSequence] in Hseq.
        destruct (assoc (js "reportTableData") props) as [[]|];
          try reflexivity; discriminate.
Qed.

Lemma prefix_refl (q : jsstring) : prefix q q = true.
Proof. induction q as [|a q IH]; cbn [prefix]; [|rewrite N.eqb_refl]; auto. Qed.

Lemma includes_suffix (a q : jsstring) : includes q (a ++ q) = true.
Proof.
  apply includes_app_l. destruct q; cbn [includes]; [reflexivity|].
  now rewrite prefix_refl.
Qed.

(** C9.  A payload without a valid row sequence is composed, without
    failure, into the fallback message, which holds the JSON rendering of
    the payload. *)
Theorem formatMessage_fallback E callback (data : json) :
  rowSequence data = None ->
  formatMessage E callback data = Ok (fallbackMessage data)
  /\ includes (JSON_stringify_2 data) (fallbackMessage data) = true.
Proof.
  intros Hrows. split.
  - unfold formatMessage.
    destruct data as [|b|n|s|items|props];
      cbn [truthy negb get rbind]; try reflexivity.
    + now destruct b.
    + now destruct (num_is_zero n).
    + now destruct s.
    + cbn [rowSequence] in Hrows.
      destruct (assoc (js "reportTableData") props) as [[]|];
        try reflexivity; discriminate.
  - unfold fallbackMessage. rewrite !app_assoc. apply includes_suffix.
Qed.

(* ================================================================== *)
(** * Date normalisation *)
(* ================================================================== *)

(** X19.  [normalizeDate] never throws, whatever the value and whatever
    the generic parser answers: [toISOString] is reached with a valid date
    only. *)
Lemma normalizeDate_never_throws E (v : value) :
  exists r, normalizeDate E v = Ok r.
Proof.
  unfold normalizeDate.
  destruct v as [[| | |s| |]|]; try (eexists; reflexivity).
  destruct (negb (truthy (Some (JStr s)))); [eexists; reflexivity|].
  destruct (negb (truthy (Some (JStr (trim s))))); [eexists; reflexivity|].
  destruct (isIsoDate (trim s)); [eexists; reflexivity|].
  match goal with
  | |- exists r, match ?short with _ => _ end = _ => destruct short
  end; [eexists; reflexivity|].
  destruct (Date_parse (legacyParse E) (trim s)); eexists; reflexivity.
Qed.

(** X20.  The sentinel is returned for [undefined], for [null], for a
    value that is not a string, and for a string that is empty or made of
    white space. *)
Lemma normalizeDate_sentinel E (v : value) :
  match v with
  | Some (JStr s) => trim s = []
  | _ => True
  end ->
  normalizeDate E v = Ok None.
Proof.
  unfold normalizeDate.
  destruct v as [[| | |s| |]|]; try reflexivity.
  intros ->. now destruct s.
Qed.

(** A text of the form YYYY-MM-DD is returned as it is. *)
Lemma normalizeDate_iso E (s : jsstring) :
  isIsoDate s = true -> trim s = s -> normalizeDate E (Some (JStr s)) = Ok (Some s).
Proof.
  intros Hiso Htrim. unfold normalizeDate. rewrite Htrim, Hiso.
  destruct s; [discriminate|reflexivity].
Qed.

(** ** The form of the result *)

Lemma isDigit_digitUnit (d : N) : (d < 10)%N -> isDigit (digitUnit d) = true.
Proof.
  intros Hd. unfold isDigit, digitUnit.
  apply andb_true_iff. split; apply N.leb_le; lia.
Qed.

(** A number below [10 ^ (k + 1)] is written with at most [k + 1] digits. *)
Lemma decimalN_digits (k : nat) (n : N) :
  (n < 10 ^ N.of_nat (S k))%N ->
  forallb isDigit (decimalN n) = true /\ length (decimalN n) <= S k.
Proof.
  revert n; induction k as [|k IH]; intros n Hn; rewrite decimalN_unfold.
  - change (10 ^ N.of_nat 1)%N with 10%N in Hn.
    apply N.ltb_lt in Hn as Hlt. rewrite Hlt. cbn [forallb length].
    rewrite isDigit_digitUnit by lia. split; [reflexivity|lia].
  - destruct (n <? 10)%N eqn:Hlt.
    + apply N.ltb_lt in Hlt. cbn [forallb length].
      rewrite isDigit_digitUnit by lia. split; [reflexivity|lia].
    + rewrite Nat2N.inj_succ, N.pow_succ_r' in Hn.
      destruct (IH (n / 10)%N) as [Hd Hl].
      { apply N.Div0.div_lt_upper_bound. lia. }
      rewrite forallb_app, length_app, Hd. cbn [forallb length].
      rewrite isDigit_digitUnit by (apply N.mod_lt; lia).
      split; [reflexivity|lia].
Qed.

Lemma padStart0_digits (len : nat) (s : jsstring) :
  forallb isDigit s = true -> length s <= len ->
  forallb isDigit (padStart0 len s) = true /\ length (padStart0 len s) = len.
Proof.
  intros Hd Hl. unfold padStart0, jsstring, unit16 in *. split.
  - rewrite forallb_app. apply andb_true_iff. split; [|exact Hd].
    apply forallb_forall. intros x Hx.
    apply repeat_spec in Hx. now subst x.
  - rewrite length_app, repeat_length. lia.
Qed.

Lemma pad_digits (k : nat) (n : Z) :
  (0 <= n < 10 ^ Z.of_nat (S k))%Z ->
  forallb isDigit (pad (S k) n) = true /\ length (pad (S k) n) = S k.
Proof.
  intros Hn. unfold pad.
  destruct (decimalN_digits k (Z.to_N n)) as [Hd Hl].
  { apply N2Z.inj_lt. rewrite Z2N.id by lia.
    rewrite N2Z.inj_pow, nat_N_Z. exact (proj2 Hn). }
  now apply padStart0_digits.
Qed.

(** Month and day of the civil date are in range. *)
Lemma day_of_year_range (doe : Z) :
  (0 <= doe < 146097)%Z ->
  let yoe := ((doe - doe / 1460 + doe / 36524 - doe / 146096) / 365)%Z in
  (0 <= doe - (365 * yoe + yoe / 4 - yoe / 100) <= 365)%Z.
Proof. intros H. cbv zeta. Z.div_mod_to_equations. lia. Qed.

Lemma month_and_day_range (doy : Z) :
  (0 <= doy <= 365)%Z ->
  let mp := ((5 * doy + 2) / 153)%Z in
  (1 <= (if mp <? 10 then mp + 3 else mp - 9) <= 12)%Z
  /\ (1 <= doy - (153 * mp + 2) / 5 + 1 <= 31)%Z.
Proof.
  intros H. cbv zeta.
  destruct (Z.ltb_spec ((5 * doy + 2) / 153) 10);
    Z.div_mod_to_equations; lia.
Qed.

Lemma civil_from_days_range (z : Z) :
  let '(_, m, d) := civil_from_days z in
  (1 <= m <= 12)%Z /\ (1 <= d <= 31)%Z.
Proof.
  unfold civil_from_days, civil_of_day_of_era.
  pose proof (Z.mod_pos_bound (z + 719468) 146097 eq_refl) as Hdoe.
  set (doe := ((z + 719468) mod 146097)%Z) in *.
  pose proof (day_of_year_range doe Hdoe) as Hdoy. cbv zeta in Hdoy.
  apply (month_and_day_range _ Hdoy).
Qed.

(** Four digits, a dash, two digits, a dash, two digits, and more: the
    first ten code units are of the form YYYY-MM-DD. *)
Lemma isIsoDate_parts (y m d rest : jsstring) :
  forallb isDigit y = true -> length y = 4 ->
  forallb isDigit m = true -> length m = 2 ->
  forallb isDigit d = true -> length d = 2 ->
  isIsoDate (sliceFirst 10 (y ++ js "-" ++ m ++ js "-" ++ d ++ rest)) = true.
Proof.
  intros Hy Ly Hm Lm Hd Ld.
  destruct y as [|y1 [|y2 [|y3 [|y4 [|]]]]]; try discriminate.
  destruct m as [|m1 [|m2 [|]]]; try discriminate.
  destruct d as [|d1 [|d2 [|]]]; try discriminate.
  cbn [forallb] in Hy, Hm, Hd.
  repeat match goal with
         | H : _ && _ = true |- _ => apply andb_true_iff in H as [? ?]
         end.
  change (isIsoDate [y1; y2; y3; y4; 45%N; m1; m2; 45%N; d1; d2] = true).
  cbn [isIsoDate forallb].
  repeat match goal with
         | H : isDigit _ = true |- _ => rewrite H; clear H
         end.
  reflexivity.
Qed.

(** The date part of [toISOString] for a year from 0 to 9999. *)
Lemma toISOString_date_part (t : Z) :
  (0 <= UTCFullYear t <= 9999)%Z ->
  isIsoDate (sliceFirst 10 (toISOString t)) = true.
Proof.
  unfold UTCFullYear, toISOString. intros Hy.
  pose proof (civil_from_days_range (t / msPerDay)) as Hmd.
  destruct (civil_from_days (t / msPerDay)) as [[y m] d].
  cbn [fst] in Hy. destruct Hmd as [Hm Hd].
  assert (Hin : ((0 <=? y) && (y <=? 9999))%Z = true).
  { apply andb_true_iff. split; apply Z.leb_le; lia. }
  rewrite Hin.
  destruct (pad_digits 3 y) as [Hy1 Hy2]; [change (10 ^ Z.of_nat 4)%Z with 10000%Z; lia|].
  destruct (pad_digits 1 m) as [Hm1 Hm2]; [change (10 ^ Z.of_nat 2)%Z with 100%Z; lia|].
  destruct (pad_digits 1 d) as [Hd1 Hd2]; [change (10 ^ Z.of_nat 2)%Z with 100%Z; lia|].
  now apply isIsoDate_parts.
Qed.

Lemma lookup_month (k m : jsstring) :
  lookup k MONTH_SHORT = Some m -> forallb isDigit m = true /\ length m = 2.
Proof.
  unfold MONTH_SHORT. cbn [lookup].
  repeat match goal with
         | |- (if ?c then _ else _) = _ -> _ =>
             destruct c; [intros H; injection H as <-; split; reflexivity|]
         end.
  discriminate.
Qed.

Lemma shortMatch_day (s g1 g2 : jsstring) :
  shortMatch s = Some (g1, g2) ->
  forallb isDigit (padStart0 2 g1) = true /\ length (padStart0 2 g1) = 2.
Proof.
  unfold shortMatch. intros H.
  destruct s as [|c1 [|c2 [|c3 [|c4 [|c5 [|c6 [|c7 rest]]]]]]];
    try discriminate.
  - destruct (isDigit c1) eqn:H1; cbn [andb] in H; [|discriminate].
    destruct ((c2 =? 45)%N && forallb isAlpha [c3; c4; c5]); [|discriminate].
    injection H as <- _. apply padStart0_digits.
    + cbn [forallb]. now rewrite H1.
    + cbn [length]. lia.
  - destruct (isDigit c1) eqn:H1; cbn [andb] in H; [|discriminate].
    destruct (isDigit c2) eqn:H2; cbn [andb] in H; [|discriminate].
    destruct ((c3 =? 45)%N && forallb isAlpha [c4; c5; c6]); [|discriminate].
    injection H as <- _. apply padStart0_digits.
    + cbn [forallb]. now rewrite H1, H2.
    + cbn [length]. lia.
Qed.

Lemma decimalZ_year (y : Z) :
  (1000 <= y <= 9999)%Z ->
  forallb isDigit (decimalZ y) = true /\ length (decimalZ y) = 4.
Proof.
  intros Hy. unfold decimalZ.
  destruct (y <? 0)%Z eqn:Hneg; [apply Z.ltb_lt in Hneg; lia|].
  destruct (decimalN_digits 3 (Z.to_N y)) as [Hd Hl].
  { change (10 ^ N.of_nat 4)%N with 10000%N. lia. }
  split; [exact Hd|].
  assert (Hge : 4 <= length (decimalN (Z.to_N y))); [|lia].
  rewrite decimalN_unfold.
  destruct (Z.to_N y <? 10)%N eqn:H1; [apply N.ltb_lt in H1; lia|].
  rewrite (decimalN_unfold (Z.to_N y / 10)).
  destruct (Z.to_N y / 10 <? 10)%N eqn:H2.
  { apply N.ltb_lt in H2.
    assert (Z.to_N y < 100)%N; [|lia].
    rewrite (N.div_mod (Z.to_N y) 10) by lia.
    pose proof (N.mod_lt (Z.to_N y) 10 ltac:(lia)). lia. }
  rewrite (decimalN_unfold (Z.to_N y / 10 / 10)).
  destruct (Z.to_N y / 10 / 10 <? 10)%N eqn:H3.
  { apply N.ltb_lt in H3. rewrite N.Div0.div_div in H3.
    assert (Z.to_N y < 1000)%N; [|lia].
    rewrite (N.div_mod (Z.to_N y) (10 * 10)) by lia.
    pose proof (N.mod_lt (Z.to_N y) (10 * 10) ltac:(lia)). lia. }
  rewrite !length_app. cbn [length].
  assert (1 <= length (decimalN (Z.to_N y / 10 / 10 / 10))); [|lia].
  rewrite decimalN_unfold.
  destruct (Z.to_N y / 10 / 10 / 10 <? 10)%N; [cbn; lia|].
  rewrite length_app. cbn [length]. lia.
Qed.

(** X21.  For a current year of four digits, a result of
    [normalizeDate] that is not the sentinel is of the form YYYY-MM-DD,
    unless it comes from a date that the generic parser places outside the
    years 0 to 9999. *)
Lemma normalizeDate_form E (v : value) (r : jsstring) :
  (1000 <= getFullYear (now E) <= 9999)%Z ->
  normalizeDate E v = Ok (Some r) ->
  isIsoDate r = true
  \/ exists s t,
       v = Some (JStr s)
       /\ Date_parse (legacyParse E) (trim s) = Some t
       /\ ~ (0 <= UTCFullYear t <= 9999)%Z
       /\ r = sliceFirst 10 (toISOString t).
Proof.
  intros Hyear. unfold normalizeDate.
  destruct v as [[| | |s| |]|]; try discriminate.
  destruct (negb (truthy (Some (JStr s)))); [discriminate|].
  destruct (negb (truthy (Some (JStr (trim s))))); [discriminate|].
  destruct (isIsoDate (trim s)) eqn:Hiso.
  { intros H. injection H as <-. now left. }
  destruct (shortMatch (trim s)) as [[g1 g2]|] eqn:Hshort.
  - destruct (shortMatch_day _ _ _ Hshort) as [Hd1 Hd2].
    destruct (decimalZ_year _ Hyear) as [Hy1 Hy2].
    assert (Hmonth : forall m,
               match lookup (toLowerCase g2) MONTH_SHORT with
               | Some m => Some m
               | None => lookup (toLowerCase (sliceFirst 3 g2)) MONTH_SHORT
               end = Some m ->
               forallb isDigit m = true /\ length m = 2).
    { intros m. destruct (lookup (toLowerCase g2) MONTH_SHORT) eqn:Hl.
      - intros H. injection H as <-. now apply (lookup_month _ _ Hl).
      - apply lookup_month. }
    destruct (match lookup (toLowerCase g2) MONTH_SHORT with
              | Some m => Some m
              | None => lookup (toLowerCase (sliceFirst 3 g2)) MONTH_SHORT
              end) as [month|].
    + intros H. injection H as <-. left.
      destruct (Hmonth month eq_refl) as [Hm1 Hm2].
      pose proof (isIsoDate_parts _ _ _ [] Hy1 Hy2 Hm1 Hm2 Hd1 Hd2) as Hform.
      rewrite app_nil_r in Hform. unfold sliceFirst in Hform.
      rewrite firstn_all2 in Hform; [exact Hform|].
      rewrite !length_app. unfold jsstring, unit16 in *.
      rewrite Hy2, Hm2, Hd2. cbn. lia.
    + destruct (Date_parse (legacyParse E) (trim s)) as [t|] eqn:Hparse;
        cbn [isInvalidDate Date_toISOString rbind]; [|discriminate].
      intros H. injection H as <-.
      destruct (Z_le_dec 0 (UTCFullYear t)) as [Hlo|Hlo];
        [destruct (Z_le_dec (UTCFullYear t) 9999) as [Hhi|Hhi]|].
      * left. now apply toISOString_date_part.
      * right. exists s, t. repeat split; try reflexivity; try assumption. lia.
      * right. exists s, t. repeat split; try reflexivity; try assumption. lia.
  - destruct (Date_parse (legacyParse E) (trim s)) as [t|] eqn:Hparse;
      cbn [isInvalidDate Date_toISOString rbind]; [|discriminate].
    intros H. injection H as <-.
    destruct (Z_le_dec 0 (UTCFullYear t)) as [Hlo|Hlo];
      [destruct (Z_le_dec (UTCFullYear t) 9999) as [Hhi|Hhi]|].
    + left. now apply toISOString_date_part.
    + right. exists s, t. repeat split; try reflexivity; try assumption. lia.
    + right. exists s, t. repeat split; try reflexivity; try assumption. lia.
Qed.

(** C2, at the input "+010000-01-01T00:00:00Z".  The text is a date of
    the Date Time String Format with an expanded year; [toISOString]
    prints it back with the sign and six digits of the year, and
    [slice(0, 10)] cuts it to "+010000-01", which is neither of the form
    YYYY-MM-DD nor the sentinel. *)
Theorem normalizeDate_expanded_year E :
  normalizeDate E (Some (JStr (js "+010000-01-01T00:00:00Z")))
  = Ok (Some (js "+010000-01"))
  /\ isIsoDate (js "+010000-01") = false.
Proof. split; vm_compute; reflexivity. Qed.

(* ================================================================== *)
(** * The notifier *)
(* ================================================================== *)

Lemma successFlag_get (json : json) :
  json <> JNull -> exists flag, get json (js "ok") = Ok flag
                                /\ successFlag json = truthy flag.
Proof.
  unfold successFlag.
  destruct json; cbn [get]; try congruence; eauto.
Qed.

(** C6, as amended.  Whatever the status of the response: with a truthy
    success flag the parsed response is returned; without one an error is
    raised, which carries the rendering of the response when the parsed
    response is not [null]; on [null] the error is the engine's, raised by
    the read of [ok]. *)
Theorem sendTelegram_outcome W BOT_TOKEN CHAT_ID text log status json :
  chat_service W (length (posts log)) (telegramUrl BOT_TOKEN)
    (telegramBody CHAT_ID text) = Response status (Ok json) ->
  let gmp := fst (Gmp.sendTelegram W BOT_TOKEN CHAT_ID text log) in
  let handler := fst (Handler.sendTelegram W BOT_TOKEN CHAT_ID text log) in
  (successFlag json = true -> gmp = Ok json /\ handler = Ok json)
  /\ (successFlag json = false -> json <> JNull ->
      gmp = Throw (Error (js "Telegram send failed: " ++ JSON_stringify json))
      /\ handler = Throw (Error (js "Telegram send failed: "
                                 ++ JSON_stringify json ++ js " ")))
  /\ (json = JNull ->
      gmp = Throw (TypeError_readNull (js "ok"))
      /\ handler = Throw (TypeError_readNull (js "ok"))).
Proof.
  intros Hreply.
  unfold Gmp.sendTelegram, Handler.sendTelegram, io_bind, fetch_post.
  rewrite Hreply. unfold io_lift, io_throw, io_ret. cbn [res_json].
  split; [|split].
  - intros Hflag. unfold successFlag in Hflag.
    destruct (get json (js "ok")) as [flag|e]; [|discriminate].
    rewrite Hflag. split; reflexivity.
  - intros Hflag Hjson.
    destruct (successFlag_get json Hjson) as (flag & Hget & Hsame).
    rewrite Hget, <- Hsame, Hflag. split; reflexivity.
  - intros ->. split; reflexivity.
Qed.

(* ================================================================== *)
(** * The two entry points *)
(* ================================================================== *)

(** ** What happens on a failure *)

Lemma try_catch_throw {A} (body : io A) handler log e log1 :
  body log = (Throw e, log1) -> try_catch body handler log = handler e log1.
Proof. unfold try_catch. now intros ->. Qed.

Lemma try_catch_ok {A} (body : io A) handler log a log1 :
  body log = (Ok a, log1) -> try_catch body handler log = (Ok a, log1).
Proof. unfold try_catch. now intros ->. Qed.

(** One call of [sendTelegram] issues one request, whatever the answer. *)
Lemma sendTelegram_log W BOT_TOKEN CHAT_ID text log :
  snd (Gmp.sendTelegram W BOT_TOKEN CHAT_ID text log)
  = log ++ [POST (telegramUrl BOT_TOKEN) (telegramBody CHAT_ID text)].
Proof.
  unfold Gmp.sendTelegram, io_bind, fetch_post, io_lift, io_throw, io_ret.
  destruct (chat_service W _ _ _) as [reason|status [json|e]];
    try reflexivity.
  cbn [res_json].
  destruct (get json (js "ok")) as [flag|e]; [|reflexivity].
  now destruct (negb (truthy flag)).
Qed.

Section Outcome.

Variables (E : env) (W : world) (API_URL BOT_TOKEN CHAT_ID : jsstring).
Hypothesis Hurl : present (env_API_URL E) = Some API_URL.
Hypothesis Htoken : present (env_BOT_TOKEN E) = Some BOT_TOKEN.
Hypothesis Hchat : present (env_CHAT_ID E) = Some CHAT_ID.

Lemma script_failure log err log1 :
  Gmp.attempt E W API_URL BOT_TOKEN CHAT_ID log = (Throw err, log1) ->
  Gmp.script E W log
  = (Ok 1%Z, log1 ++ [errorNotification E BOT_TOKEN CHAT_ID err]).
Proof.
  intros Hfail.
  unfold Gmp.script. rewrite Hurl, Htoken, Hchat. unfold Gmp.main.
  rewrite (try_catch_throw _ _ log err log1).
  2:{ unfold io_bind. now rewrite Hfail. }
  unfold io_bind at 1, try_catch, io_bind, io_ret.
  pose proof (sendTelegram_log W BOT_TOKEN CHAT_ID
                (warning ++ js " GMP Bot error: " ++ message E err) log1)
    as Hlog.
  destruct (Gmp.sendTelegram W BOT_TOKEN CHAT_ID _ log1) as [[ack|e] log2];
    cbn [snd] in Hlog; subst log2; reflexivity.
Qed.

Lemma script_success log ack log1 :
  Gmp.attempt E W API_URL BOT_TOKEN CHAT_ID log = (Ok ack, log1) ->
  Gmp.script E W log = (Ok 0%Z, log1).
Proof.
  intros Hok.
  unfold Gmp.script. rewrite Hurl, Htoken, Hchat. unfold Gmp.main.
  apply try_catch_ok. unfold io_bind. now rewrite Hok.
Qed.

Lemma handler_failure log err log1 :
  Handler.attempt E W API_URL BOT_TOKEN CHAT_ID log = (Throw err, log1) ->
  Handler.handler E W log = (Ok (errorResponse E err), log1).
Proof.
  intros Hfail.
  unfold Handler.handler. rewrite Hurl, Htoken, Hchat.
  rewrite (try_catch_throw _ _ log err log1); [reflexivity|].
  unfold Handler.mainLogic, io_bind. now rewrite Hfail.
Qed.

Lemma handler_success log ack log1 :
  Handler.attempt E W API_URL BOT_TOKEN CHAT_ID log = (Ok ack, log1) ->
  exists response,
    Handler.handler E W log = (Ok response, log1)
    /\ Handler.status response = 200%Z.
Proof.
  intros Hok. eexists. split.
  - unfold Handler.handler. rewrite Hurl, Htoken, Hchat.
    apply try_catch_ok. unfold Handler.mainLogic, io_bind.
    rewrite Hok. reflexivity.
  - reflexivity.
Qed.

End Outcome.

(** C5, as amended.  In the script, when a step of the attempt fails,
    exactly one more request is issued, the notification of the error text
    to the same chat, and the process exits with status 1 whatever the
    answer to it.  The handler issues no further request: it answers 500
    with the error text. *)
Theorem failure_notification E W API_URL BOT_TOKEN CHAT_ID log :
  present (env_API_URL E) = Some API_URL ->
  present (env_BOT_TOKEN E) = Some BOT_TOKEN ->
  present (env_CHAT_ID E) = Some CHAT_ID ->
  (forall err log1,
     Gmp.attempt E W API_URL BOT_TOKEN CHAT_ID log = (Throw err, log1) ->
     Gmp.script E W log
     = (Ok 1%Z, log1 ++ [errorNotification E BOT_TOKEN CHAT_ID err]))
  /\ (forall err log1,
        Handler.attempt E W API_URL BOT_TOKEN CHAT_ID log = (Throw err, log1) ->
        Handler.handler E W log = (Ok (errorResponse E err), log1)).
Proof.
  intros Hurl Htoken Hchat. split; intros err log1 Hfail.
  - now apply (script_failure E W API_URL BOT_TOKEN CHAT_ID).
  - now apply (handler_failure E W API_URL BOT_TOKEN CHAT_ID).
Qed.

(** ** The two copies of the pipeline *)

(** [String.fromCodePoint] never returns the empty string, so the
    [|| ""] of the script changes nothing. *)
Lemma codePointText_agree (code : N) :
  Gmp.codePointText code = Handler.codePointText code.
Proof.
  unfold Gmp.codePointText, Handler.codePointText, fromCodePoint.
  destruct (code <=? 65535)%N; [reflexivity|].
  destruct (code <=? 1114111)%N; reflexivity.
Qed.

Section Callbacks.

Variables f g : N -> result jsstring.
Hypothesis Hfg : forall code, f code = g code.
Variable E : env.

Lemma numericReference_ext (s : jsstring) :
  numericReference f s = numericReference g s.
Proof.
  unfold numericReference. destruct s as [|amp [|hash rest]]; try reflexivity.
  now rewrite Hfg.
Qed.

Lemma replace_fn_ext (skip : nat) (s : jsstring) :
  replace_fn (numericReference f) skip s
  = replace_fn (numericReference g) skip s.
Proof.
  revert skip; induction s as [|c s IH]; intros skip; [reflexivity|].
  cbn [replace_fn]. destruct skip as [|k]; [|apply IH].
  rewrite numericReference_ext.
  destruct (numericReference g (c :: s)) as [[len r]|]; now rewrite IH.
Qed.

Lemma stripHtml_ext (text : value) : stripHtml f text = stripHtml g text.
Proof.
  unfold stripHtml, decodeHtmlEntities.
  destruct text as [[| | |s| |]|]; try reflexivity.
  now rewrite replace_fn_ext.
Qed.

Lemma isClosingToday_ext (row : json) (todayIso : jsstring) :
  isClosingToday E f row todayIso = isClosingToday E g row todayIso.
Proof.
  unfold isClosingToday, getCloseDateIso.
  destruct (get row (js "~Srt_Close")) as [srt|]; [|reflexivity].
  cbn [rbind].
  destruct (if truthy srt then Ok srt else get row (js "Close"));
    [|reflexivity].
  cbn [rbind]. now rewrite stripHtml_ext.
Qed.

Lemma field_ext (row : json) k fallback :
  field f row k fallback = field g row k fallback.
Proof.
  unfold field. destruct (get row (js k)); [|reflexivity].
  cbn [rbind]. now rewrite stripHtml_ext.
Qed.

Lemma formatIpoRow_ext (row : json) : formatIpoRow f row = formatIpoRow g row.
Proof. unfold formatIpoRow. now rewrite !field_ext. Qed.

Lemma filterR_ext (p q : json -> result bool) (rows : list json) :
  (forall row, p row = q row) -> filterR p rows = filterR q rows.
Proof.
  intros H. induction rows as [|row rows IH]; [reflexivity|].
  cbn [filterR]. now rewrite H, IH.
Qed.

Lemma mapR_ext (p q : json -> result jsstring) (rows : list json) :
  (forall row, p row = q row) -> mapR p rows = mapR q rows.
Proof.
  intros H. induction rows as [|row rows IH]; [reflexivity|].
  cbn [mapR]. now rewrite H, IH.
Qed.

Lemma formatMessage_ext (data : json) :
  formatMessage E f data = formatMessage E g data.
Proof.
  unfold formatMessage.
  destruct (negb (truthy (Some data))); [reflexivity|].
  generalize (get data (js "reportTableData")). intros table.
  destruct table as [[[| | | |rows|]|]|]; cbn [rbind];
    [reflexivity|reflexivity|reflexivity|reflexivity|
    |reflexivity|reflexivity|reflexivity].
  rewrite (filterR_ext _ (fun row => isClosingToday E g row (getTodayIso E)))
    by (intros; apply isClosingToday_ext).
  generalize (filterR (fun row => isClosingToday E g row (getTodayIso E)) rows).
  intros [closing|]; cbn [rbind]; [|reflexivity].
  now rewrite (mapR_ext _ (formatIpoRow g)) by apply formatIpoRow_ext.
Qed.

End Callbacks.

Lemma formatMessage_agree E (data : json) :
  Gmp.formatMessage E data = Handler.formatMessage E data.
Proof. apply formatMessage_ext, codePointText_agree. Qed.

(** ** Markup stripping, in both copies *)

(** C4, as amended.  For every input string: the stripped text never holds
    one of the four entities that are decoded after [&amp;] ([&lt;],
    [&gt;], [&quot;], [&#39;]).  When, once the tags of the input are
    removed, no numeric reference stands for a code unit of markup or for
    no code point, stripping succeeds, in the script and in the handler,
    and the stripped text holds markup only where the input escapes it: a
    numeric reference only if the input holds [&amp;#], [&nbsp;] only if
    it holds [&amp;nbsp;], [&amp;] only if it holds [&amp;amp;], a raw tag
    only if it holds [&amp;lt;] or [&amp;gt;], or an escaped angle bracket
    beside both an opening and a closing one.  So an input that escapes no
    markup gives a text without raw tag, numeric reference and named
    entity; an input without ampersand is one. *)
Theorem stripHtml_output (text : jsstring) :
  let w := replace_g tag 0 text in
  (forall callback out, stripHtml callback (Some (JStr text)) = Ok out ->
     includes (js "&lt;") out = false
     /\ includes (js "&gt;") out = false
     /\ includes (js "&quot;") out = false
     /\ includes (js "&#39;") out = false)
  /\ (occurs spellsMarkup w = false ->
      exists out,
        stripHtml Gmp.codePointText (Some (JStr text)) = Ok out
        /\ stripHtml Handler.codePointText (Some (JStr text)) = Ok out
        /\ (includes (js "&amp;#") w = false ->
            containsNumericReference out = false)
        /\ (includes (js "&amp;nbsp;") w = false ->
            includes (js "&nbsp;") out = false)
        /\ (includes (js "&amp;amp;") w = false ->
            includes (js "&amp;") out = false)
        /\ (includes (js "&amp;lt;") w = false ->
            includes (js "&amp;gt;") w = false ->
            escapedAngles w = false ->
            containsTag out = false)
        /\ (escapesMarkup w = false ->
            containsTag out = false
            /\ containsNumericReference out = false
            /\ containsNamedEntity out = false))
  /\ (includes (js "&") text = false -> escapesMarkup w = false).
Proof.
  intros w.
  assert (Hfour : forall callback out,
             stripHtml callback (Some (JStr text)) = Ok out ->
             includes (js "&lt;") out = false
             /\ includes (js "&gt;") out = false
             /\ includes (js "&quot;") out = false
             /\ includes (js "&#39;") out = false).
  { intros callback out. rewrite stripHtml_string.
    destruct (replace_fn (numericReference callback) 0 (replace_g tag 0 text))
      as [decoded|e]; [|discriminate].
    cbn [rbind]. intros H. injection H as <-.
    destruct (decoded_last_four
                (splitJoin (js "&amp;") (js "&")
                   (splitJoin (js "&nbsp;") (js " ") decoded)))
      as (Hlt & Hgt & Hquot & Hapos).
    repeat split; now apply collapse_trim_includes. }
  split; [exact Hfour|]. split.
  - intros Hnum.
    destruct (decoded_once w Hnum (containsTag_removed text))
      as (decoded & Hdecoded & Href & Hnbsp & Hamp & Htag).
    cbv zeta in Href, Hnbsp, Hamp, Htag.
    assert (Hout : stripHtml Handler.codePointText (Some (JStr text))
                   = Ok (trim
           (replace_g spaces 0
              (splitJoin (js "&#39;") (js "'")
                 (splitJoin (js "&quot;") [34%N]
                    (splitJoin (js "&gt;") (js ">")
                       (splitJoin (js "&lt;") (js "<")
                          (splitJoin (js "&amp;") (js "&")
                             (splitJoin (js "&nbsp;") (js " ")
                                decoded))))))))).
    { rewrite stripHtml_string.
      change (numericReference Handler.codePointText)
        with (numericReference fromCodePoint).
      fold w. now rewrite Hdecoded. }
    eexists. split; [|split; [exact Hout|]].
    { now rewrite (stripHtml_ext _ _ codePointText_agree). }
    split; [exact Href|]. split; [exact Hnbsp|]. split; [exact Hamp|].
    split; [exact Htag|].
    intros Hw. unfold escapesMarkup in Hw.
    apply orb_false_iff in Hw as [Hw Hangles].
    apply orb_false_iff in Hw as [_ Htwice].
    cbn [existsb twiceEscaped] in Htwice.
    apply orb_false_iff in Htwice as [Hnbsp2 Htwice].
    apply orb_false_iff in Htwice as [Hamp2 Htwice].
    apply orb_false_iff in Htwice as [Hlt2 Htwice].
    apply orb_false_iff in Htwice as [Hgt2 Htwice].
    apply orb_false_iff in Htwice as [Hhash2 _].
    destruct (Hfour _ _ Hout) as (Hlt & Hgt & Hquot & Hapos).
    split; [now apply Htag|]. split; [now apply Href|].
    unfold containsNamedEntity, namedMap. cbn [existsb fst].
    now rewrite (Hnbsp Hnbsp2), (Hamp Hamp2), Hlt, Hgt, Hquot, Hapos.
  - intros Hamp. change (js "&") with [38%N] in Hamp.
    apply escapesMarkup_no_amp.
    now apply includes_replace_g; [apply tag_replaces_outside|].
Qed.

(** ** The URL and the requests, in both copies *)

Lemma dropTrailingSlash_trim (s : jsstring) :
  trim s = s -> dropTrailingSlash (trim s) = dropTrailingSlash s.
Proof. now intros ->. Qed.





(* ================================================================== *)
(** * The statements at concrete inputs *)
(* ================================================================== *)

Module Runs.
Import Sample.



(** C4 fails as stated: entities written with [&amp;] are decoded once,
    and what is left is a raw tag, a numeric reference and a named
    entity. *)
Lemma stripHtml_leaves_markup :
  stripHtml Gmp.codePointText (Some (JStr (js "&lt;b&gt; &amp;#65; &amp;amp;")))
  = Ok (js "<b> &#65; &amp;")
  /\ containsTag (js "<b> &#65; &amp;") = true
  /\ containsNumericReference (js "<b> &#65; &amp;") = true
  /\ containsNamedEntity (js "<b> &#65; &amp;") = true.
Proof. repeat split; vm_compute; reflexivity. Qed.

Lemma stripHtml_output_witness :
  escapesMarkup (replace_g tag 0 Inputs.escapedOnce) = false
  /\ stripHtml Gmp.codePointText (Some (JStr Inputs.escapedOnce))
     = Ok (js "ABC & Co " ++ [8377%N] ++ js "5 < AT&T 'x'")
  /\ containsTag (js "ABC & Co " ++ [8377%N] ++ js "5 < AT&T 'x'") = false
  /\ containsNumericReference (js "ABC & Co " ++ [8377%N] ++ js "5 < AT&T 'x'")
     = false
  /\ containsNamedEntity (js "ABC & Co " ++ [8377%N] ++ js "5 < AT&T 'x'")
     = false.
Proof.
  assert (Hw : escapesMarkup (replace_g tag 0 Inputs.escapedOnce) = false)
    by (vm_compute; reflexivity).
  assert (Hout : stripHtml Gmp.codePointText (Some (JStr Inputs.escapedOnce))
                 = Ok (js "ABC & Co " ++ [8377%N] ++ js "5 < AT&T 'x'"))
    by (vm_compute; reflexivity).
  split; [exact Hw|]. split; [exact Hout|].
  destruct (proj1 (proj2 (stripHtml_output Inputs.escapedOnce)))
    as (out & Hgmp & _ & _ & _ & _ & _ & Hclean);
    [vm_compute; reflexivity|].
  rewrite Hout in Hgmp. injection Hgmp as <-. now apply Hclean.
Defined.

(** The last part of [stripHtml_output], on a text without ampersand. *)
Example stripHtml_no_ampersand :
  includes (js "&") (js "<b>ABC</b>  Co") = false
  /\ escapesMarkup (replace_g tag 0 (js "<b>ABC</b>  Co")) = false.
Proof. split; vm_compute; reflexivity. Qed.

Lemma isClosingToday_iff_witness :
  resolvedCloseDate E0 Gmp.codePointText row = Ok (Some (js "2024-04-05"))
  /\ isClosingToday E0 Gmp.codePointText row (js "2024-04-05") = Ok true.
Proof.
  assert (H : resolvedCloseDate E0 Gmp.codePointText row
              = Ok (Some (js "2024-04-05"))) by (vm_compute; reflexivity).
  split; [exact H|].
  apply (proj1 (isClosingToday_iff E0 Gmp.codePointText row (js "2024-04-05"))).
  exact H.
Defined.

(** C5 fails as stated: the handler, when the report service is down,
    answers 500 and has issued the GET alone. *)
Lemma handler_sends_no_notification :
  Handler.handler E0 W_down []
  = (Ok (errorResponse E0 (Error (js "API error 503"))),
     [GET (Handler.buildApiUrl E0 API_URL (now E0))])
  /\ posts (snd (Handler.handler E0 W_down [])) = [].
Proof. split; vm_compute; reflexivity. Qed.

Lemma failure_notification_witness :
  Gmp.attempt E0 W_down API_URL BOT_TOKEN CHAT_ID []
  = (Throw (Error (js "API error 503")),
     [GET (Handler.buildApiUrl E0 API_URL (now E0))])
  /\ Gmp.script E0 W_down []
     = (Ok 1%Z,
        [GET (Handler.buildApiUrl E0 API_URL (now E0))]
        ++ [errorNotification E0 BOT_TOKEN CHAT_ID
              (Error (js "API error 503"))]).
Proof.
  assert (H : Gmp.attempt E0 W_down API_URL BOT_TOKEN CHAT_ID []
              = (Throw (Error (js "API error 503")),
                 [GET (Handler.buildApiUrl E0 API_URL (now E0))]))
    by (vm_compute; reflexivity).
  split; [exact H|].
  apply (proj1 (failure_notification E0 W_down API_URL BOT_TOKEN CHAT_ID []
                  eq_refl eq_refl eq_refl)).
  exact H.
Defined.

(** C6 fails as stated: on the response [null], which has no success
    flag, the error raised is the engine's and does not carry the
    response. *)
Lemma sendTelegram_null_reply :
  successFlag JNull = false
  /\ fst (Gmp.sendTelegram W_null BOT_TOKEN CHAT_ID (js "hello") [])
     = Throw (TypeError_readNull (js "ok"))
  /\ fst (Handler.sendTelegram W_null BOT_TOKEN CHAT_ID (js "hello") [])
     = Throw (TypeError_readNull (js "ok"))
  /\ carriesBody (TypeError_readNull (js "ok")) JNull = false.
Proof. repeat split; vm_compute; reflexivity. Qed.

Lemma sendTelegram_outcome_witness :
  successFlag refusal = false
  /\ fst (Gmp.sendTelegram W_refused BOT_TOKEN CHAT_ID (js "hello") [])
     = Throw (Error (js "Telegram send failed: " ++ JSON_stringify refusal))
  /\ fst (Handler.sendTelegram W_refused BOT_TOKEN CHAT_ID (js "hello") [])
     = Throw (Error (js "Telegram send failed: " ++ JSON_stringify refusal
                     ++ js " ")).
Proof.
  split; [reflexivity|].
  apply (proj1 (proj2 (sendTelegram_outcome W_refused BOT_TOKEN CHAT_ID
                         (js "hello") [] 401%Z refusal eq_refl))).
  - reflexivity.
  - discriminate.
Defined.

(** C7 fails as stated: in June of the year 5 the label ends with the
    single digit of the year 6, not with two digits. *)
Lemma fiscal_label_of_year_5 :
  getFiscalYearLabel Inputs.june5 = js "5-6"
  /\ fiscalLabel 5 = js "5-06"
  /\ getFiscalYearLabel Inputs.june5 <> fiscalLabel (getFullYear Inputs.june5).
Proof. repeat split; vm_compute; discriminate. Qed.

Lemma getFiscalYearLabel_spec_witness :
  (4 <= getMonth (now E0) + 1 <= 12)%Z
  /\ getFiscalYearLabel (now E0) = fiscalLabel 2024
  /\ fiscalLabel 2024 = js "2024-25"
  /\ getFiscalYearLabel Inputs.march2025 = fiscalLabel 2024
  /\ getFiscalYearLabel Inputs.june5 = fiscalLabelOf 5
  /\ fiscalLabelOf 5 = js "5-6".
Proof.
  assert (Hnow : (4 <= getMonth (now E0) + 1 <= 12)%Z)
    by (split; vm_compute; discriminate).
  assert (Hmarch : (1 <= getMonth Inputs.march2025 + 1 <= 3)%Z)
    by (split; vm_compute; discriminate).
  assert (Hjune : (4 <= getMonth Inputs.june5 + 1 <= 12)%Z)
    by (split; vm_compute; discriminate).
  split; [exact Hnow|].
  split; [|split; [reflexivity|split; [|split; [|reflexivity]]]].
  - apply (proj1 (getFiscalYearLabel_spec (now E0)) Hnow).
    vm_compute. discriminate.
  - apply (proj2 (getFiscalYearLabel_spec Inputs.march2025) Hmarch).
    vm_compute. discriminate.
  - apply (proj1 (getFiscalYearLabel_spec Inputs.june5) Hjune).
Defined.

Lemma formatMessage_no_rows_witness :
  rowSequence (JObj [(js "reportTableData", JArr [markupOnlyRow])])
  = Some [markupOnlyRow]
  /\ formatMessage E0 Gmp.codePointText
       (JObj [(js "reportTableData", JArr [markupOnlyRow])])
     = Ok (noIposMessage (js "2024-04-05")).
Proof.
  split; [reflexivity|].
  apply (proj1 (formatMessage_no_rows E0 Gmp.codePointText)
           (JObj [(js "reportTableData", JArr [markupOnlyRow])])
           [markupOnlyRow] eq_refl).
  constructor; [vm_compute; reflexivity|constructor].
Defined.

Lemma formatMessage_fallback_witness :
  rowSequence (JObj [(js "status", JStr (js "maintenance"))]) = None
  /\ formatMessage E0 Gmp.codePointText
       (JObj [(js "status", JStr (js "maintenance"))])
     = Ok (fallbackMessage (JObj [(js "status", JStr (js "maintenance"))])).
Proof.
  split; [reflexivity|].
  apply (proj1 (formatMessage_fallback E0 Gmp.codePointText
                  (JObj [(js "status", JStr (js "maintenance"))]) eq_refl)).
Defined.


(** ** The testable properties of the specification, evaluated *)

Example stripHtml_ABC :
  stripHtml Gmp.codePointText (Some (JStr (js "<b>ABC</b> &amp; Co")))
  = Ok (js "ABC & Co").
Proof. vm_compute. reflexivity. Qed.

(** Texts with a bare ampersand, with entities written once, and the
    text of the counterexample. *)
Example stripHtml_escapes :
  escapesMarkup (replace_g tag 0 (js "AT&T <b>x</b>")) = false
  /\ escapesMarkup (replace_g tag 0 (js "Tom&nbsp;Jerry")) = false
  /\ escapesMarkup (replace_g tag 0 (js "<b>ABC</b> &amp; Co")) = false
  /\ escapesMarkup (replace_g tag 0 (js "&lt;b&gt; &amp;#65; &amp;amp;")) = true.
Proof. repeat split; vm_compute; reflexivity. Qed.

Example stripHtml_not_a_string :
  stripHtml Gmp.codePointText (Some (JNum (number_of_Z 50))) = Ok []
  /\ stripHtml Gmp.codePointText None = Ok [].
Proof. split; reflexivity. Qed.

(** A numeric reference above U+10FFFF makes [String.fromCodePoint]
    throw. *)
Example stripHtml_throws :
  stripHtml Handler.codePointText (Some (JStr (js "&#1114112;")))
  = Throw (RangeError_codePoint 1114112).
Proof. vm_compute. reflexivity. Qed.

Example normalizeDate_round_trip :
  normalizeDate E0 (Some (JStr (js "2024-04-05"))) = Ok (Some (js "2024-04-05")).
Proof. vm_compute. reflexivity. Qed.

Example normalizeDate_short :
  normalizeDate E0 (Some (JStr (js " 5-Apr "))) = Ok (Some (js "2024-04-05")).
Proof. vm_compute. reflexivity. Qed.

Example normalizeDate_generic :
  normalizeDate E0 (Some (JStr (js "2023-12-31T23:59:59Z")))
  = Ok (Some (js "2023-12-31")).
Proof. vm_compute. reflexivity. Qed.

Example normalizeDate_unparseable :
  normalizeDate E0 (Some (JStr (js "soon"))) = Ok None
  /\ normalizeDate E0 (Some JNull) = Ok None
  /\ normalizeDate E0 None = Ok None.
Proof. repeat split; vm_compute; reflexivity. Qed.

Example fiscal_label_in_january :
  getFiscalYearLabel {| getFullYear := 2024; getMonth := 0; getDate := 15;
                        getHours := 0; getMinutes := 0 |}
  = js "2023-24".
Proof. vm_compute. reflexivity. Qed.

Example report_url :
  Gmp.buildApiUrl E0 API_URL (now E0)
  = Ok (js "https://reports.example/api/331/1/4/2024/2024-25/0/ipo?search=&v=05-0907").
Proof. vm_compute. reflexivity. Qed.

(** Only the handler trims the configured URL; in the script the space
    stays in the path, where the URL parser percent-encodes it. *)
Example report_url_with_trailing_space :
  Gmp.buildApiUrl E0 (js "https://reports.example/api/ ") (now E0)
  = Ok (js "https://reports.example/api/%20/331/1/4/2024/2024-25/0/ipo?search=&v=05-0907")
  /\ Handler.buildApiUrl E0 (js "https://reports.example/api/ ") (now E0)
     = js "https://reports.example/api/331/1/4/2024/2024-25/0/ipo?search=&v=05-0907".
Proof. split; vm_compute; reflexivity. Qed.

(** Only the script parses the URL: a base without a scheme makes it
    throw before any request, while the handler requests the text as it
    is. *)
Example report_url_without_scheme :
  Gmp.buildApiUrl E0 (js "reports.example/api") (now E0)
  = Throw (TypeError_invalidURL
             (js "reports.example/api/331/1/4/2024/2024-25/0/ipo"))
  /\ Handler.buildApiUrl E0 (js "reports.example/api") (now E0)
     = js "reports.example/api/331/1/4/2024/2024-25/0/ipo?search=&v=05-0907".
Proof. split; vm_compute; reflexivity. Qed.

(** The end-to-end scenario of the specification. *)
Example one_row_closing_today :
  exists message,
    formatMessage E0 Gmp.codePointText
      (JObj [(js "reportTableData", JArr [row])]) = Ok message
    /\ includes (newline ++ bullet ++ js " Foo" ++ newline) message = true
    /\ includes (newline ++ js "  GMP: 50" ++ newline) message = true
    /\ includes (js "  Action: Apply today before the window closes "
                 ++ checkMark) message = true.
Proof. eexists. repeat split; vm_compute; reflexivity. Qed.

Example script_run :
  Gmp.script E0 W_up []
  = (Ok 0%Z,
     [GET (js "https://reports.example/api/331/1/4/2024/2024-25/0/ipo?search=&v=05-0907");
      POST (telegramUrl BOT_TOKEN)
           (telegramBody CHAT_ID
              (match Gmp.formatMessage E0
                       (JObj [(js "reportTableData", JArr [row])]) with
               | Ok message => message
               | Throw _ => []
               end))]).
Proof. vm_compute. reflexivity. Qed.

Example handler_run :
  fst (Handler.handler E0 W_up [])
  = Ok {| Handler.status := 200;
          Handler.body := JObj [(js "ok", JBool true);
                                (js "sent", JStr (nowIso E0))] |}
  /\ snd (Handler.handler E0 W_up []) = snd (Gmp.script E0 W_up []).
Proof. split; vm_compute; reflexivity. Qed.

(** A row that is [null] makes the composer throw. *)
Example null_row :
  formatMessage E0 Gmp.codePointText (JObj [(js "reportTableData", JArr [JNull])])
  = Throw (TypeError_readNull (js "~Srt_Close")).
Proof. vm_compute. reflexivity. Qed.

End Runs.

(* ================================================================== *)
(** * Further properties of the functions *)
(* ================================================================== *)

(** ** White space in the stripped text *)

Lemma spaces_space (c : unit16) (rest : jsstring) :
  isSpace c = true ->
  replace_g spaces 0 (c :: rest)
  = 32%N :: replace_g spaces 0 (dropWhile isSpace rest).
Proof.
  intros Hc. rewrite replace_g_cons.
  assert (Hm : spaces (c :: rest)
               = Some (S (length (takeWhile isSpace rest)), js " ")).
  { unfold spaces. cbn [takeWhile]. now rewrite Hc. }
  rewrite Hm, Nat.sub_succ, Nat.sub_0_r, skipn_takeWhile. reflexivity.
Qed.

Lemma spaces_other (c : unit16) (rest : jsstring) :
  isSpace c = false ->
  replace_g spaces 0 (c :: rest) = c :: replace_g spaces 0 rest.
Proof.
  intros Hc. rewrite replace_g_cons.
  assert (Hm : spaces (c :: rest) = None).
  { unfold spaces. cbn [takeWhile]. now rewrite Hc. }
  now rewrite Hm.
Qed.

Lemma startsTidy_dropWhile (s : jsstring) :
  startsTidy (dropWhile isSpace s) = true.
Proof.
  induction s as [|c s IH]; [reflexivity|].
  cbn [dropWhile]. destruct (isSpace c) eqn:Hc; [exact IH|].
  cbn [startsTidy]. now rewrite Hc.
Qed.

Lemma dropWhile_tidy (s : jsstring) :
  startsTidy s = true -> dropWhile isSpace s = s.
Proof.
  destruct s as [|c s]; [reflexivity|]. cbn [startsTidy dropWhile].
  now destruct (isSpace c).
Qed.

Lemma startsTidy_collapsed (s : jsstring) :
  startsTidy s = true -> startsTidy (replace_g spaces 0 s) = true.
Proof.
  destruct s as [|c s]; [reflexivity|]. cbn [startsTidy].
  intros Hc. apply negb_true_iff in Hc.
  rewrite (spaces_other _ _ Hc). cbn [startsTidy]. now rewrite Hc.
Qed.

(** Collapsing the runs of white space leaves single spaces. *)
Lemma singleSpaced_collapsed (s : jsstring) :
  singleSpaced (replace_g spaces 0 s) = true.
Proof.
  induction on length of s as n IH Hle.
  - destruct s; [reflexivity|cbn in Hle; lia].
  - destruct s as [|c rest]; [reflexivity|]. cbn [length] in Hle.
    destruct (isSpace c) eqn:Hc.
    + rewrite (spaces_space _ _ Hc).
      pose proof (startsTidy_collapsed _ (startsTidy_dropWhile rest)) as Hhead.
      assert (Htail : singleSpaced (replace_g spaces 0 (dropWhile isSpace rest))
                      = true).
      { apply IH. destruct (dropWhile_suffix isSpace rest) as [a Ha].
        apply (f_equal (@length unit16)) in Ha. rewrite length_app in Ha.
        unfold jsstring, unit16 in *. lia. }
      cbn [singleSpaced]. rewrite Htail.
      destruct (replace_g spaces 0 (dropWhile isSpace rest)) as [|d out];
        [reflexivity|].
      cbn [startsTidy] in Hhead. rewrite Hhead. reflexivity.
    + rewrite (spaces_other _ _ Hc). cbn [singleSpaced]. rewrite Hc.
      apply IH. lia.
Qed.

Lemma singleSpaced_app_r (a b : jsstring) :
  singleSpaced (a ++ b) = true -> singleSpaced b = true.
Proof.
  induction a as [|c a IH]; [trivial|].
  rewrite <- app_comm_cons. cbn [singleSpaced].
  intros H. apply andb_true_iff in H as [_ H]. now apply IH.
Qed.

Lemma singleSpaced_app_l (a b : jsstring) :
  singleSpaced (a ++ b) = true -> singleSpaced a = true.
Proof.
  induction a as [|c a IH]; [reflexivity|].
  rewrite <- app_comm_cons. cbn [singleSpaced].
  intros H. apply andb_true_iff in H as [Hc H].
  rewrite (IH H), andb_true_r.
  destruct (isSpace c); [|reflexivity].
  apply andb_true_iff in Hc as [-> Hnext]. cbn [andb].
  destruct a as [|d a]; [reflexivity|exact Hnext].
Qed.

Lemma singleSpaced_trim (s : jsstring) :
  singleSpaced s = true -> singleSpaced (trim s) = true.
Proof.
  intros H. destruct (trim_middle s) as (a & b & Hs). rewrite Hs in H.
  apply singleSpaced_app_r in H. now apply singleSpaced_app_l in H.
Qed.

Lemma startsTidy_app (x y : jsstring) :
  x <> [] -> startsTidy (x ++ y) = true -> startsTidy x = true.
Proof. destruct x; [congruence|trivial]. Qed.

(** What [trim] returns neither starts nor ends with white space. *)
Lemma trim_tidy (s : jsstring) :
  startsTidy (trim s) = true /\ startsTidy (rev (trim s)) = true.
Proof.
  unfold trim. rewrite rev_involutive.
  split; [|apply startsTidy_dropWhile].
  set (u := dropWhile isSpace s).
  destruct (dropWhile_suffix isSpace (rev u)) as [a Ha].
  set (v := dropWhile isSpace (rev u)) in *.
  destruct v as [|d v'] eqn:Hv; [reflexivity|].
  apply (startsTidy_app _ (rev a)).
  { cbn [rev]. intros Hnil. apply app_eq_nil in Hnil as [_ Hnil].
    discriminate Hnil. }
  rewrite <- rev_app_distr, <- Ha, rev_involutive.
  apply startsTidy_dropWhile.
Qed.

(** [trim] changes nothing in a text that neither starts nor ends with
    white space. *)
Lemma trim_of_tidy (s : jsstring) :
  startsTidy s = true -> startsTidy (rev s) = true -> trim s = s.
Proof.
  intros Hs Hr. unfold trim.
  rewrite (dropWhile_tidy _ Hs), (dropWhile_tidy _ Hr). apply rev_involutive.
Qed.

Lemma singleSpaced_units (s : jsstring) (c : unit16) :
  singleSpaced s = true -> In c s -> isSpace c = true -> c = 32%N.
Proof.
  induction s as [|d s IH]; [contradiction|].
  cbn [singleSpaced]. intros H [<-|Hin] Hc.
  - apply andb_true_iff in H as [H _]. rewrite Hc in H.
    apply andb_true_iff in H as [H _]. now apply N.eqb_eq in H.
  - apply andb_true_iff in H as [_ H]. now apply IH.
Qed.

Lemma stripHtml_tidy callback (text : value) (out : jsstring) :
  stripHtml callback text = Ok out ->
  trim out = out
  /\ singleSpaced out = true
  /\ (forall c, In c out -> isSpace c = true -> c = 32%N).
Proof.
  intros H.
  assert (Hshape : out = [] \/ exists d, out = trim (replace_g spaces 0 d)).
  { unfold stripHtml in H. destruct text as [[| | |s| |]|];
      try (injection H as <-; now left).
    destruct (decodeHtmlEntities callback _) as [d|]; [|discriminate].
    injection H as <-. right. now exists d. }
  destruct Hshape as [->|[d ->]]; [repeat split; contradiction|].
  assert (Hsingle : singleSpaced (trim (replace_g spaces 0 d)) = true).
  { apply singleSpaced_trim, singleSpaced_collapsed. }
  split; [|split; [exact Hsingle|]].
  - destruct (trim_tidy (replace_g spaces 0 d)). now apply trim_of_tidy.
  - intros c. now apply singleSpaced_units.
Qed.

(** X1.  The text that [stripHtml] returns neither starts nor ends with
    white space, and its white space is made of single U+0020 spaces: no
    tab, no line break, no no-break space, no two spaces in a row. *)
Theorem stripHtml_white_space callback (text : value) (out : jsstring) :
  stripHtml callback text = Ok out ->
  trim out = out
  /\ singleSpaced out = true
  /\ (forall c, In c out -> isSpace c = true -> c = 32%N).
Proof. apply stripHtml_tidy. Qed.

(** ** The block of a row *)

Lemma countOf_app (c : unit16) (a b : jsstring) :
  countOf c (a ++ b) = countOf c a + countOf c b.
Proof. unfold countOf. now rewrite filter_app, length_app. Qed.

Lemma countOf_absent (c : unit16) (s : jsstring) :
  ~ In c s -> countOf c s = 0.
Proof.
  unfold countOf. induction s as [|d s IH]; [reflexivity|].
  intros Hin. cbn [filter]. destruct (N.eqb_spec c d) as [->|Hne].
  - exfalso. apply Hin. now left.
  - apply IH. intros H. apply Hin. now right.
Qed.

Lemma stripHtml_one_line callback (text : value) (out : jsstring) :
  stripHtml callback text = Ok out -> countOf 10%N out = 0.
Proof.
  intros H. apply countOf_absent. intros Hin.
  destruct (stripHtml_tidy _ _ _ H) as (_ & _ & Hunits).
  specialize (Hunits 10%N Hin eq_refl). discriminate Hunits.
Qed.

Lemma field_one_line callback (row : json) k fallback text :
  field callback row k fallback = Ok text ->
  countOf 10%N fallback = 0 -> countOf 10%N text = 0.
Proof.
  unfold field. destruct (get row (js k)) as [v|]; [|discriminate].
  cbn [rbind]. destruct (stripHtml callback v) as [out|] eqn:Hout;
    [|discriminate].
  cbn [rbind]. intros H Hfb. injection H as <-.
  destruct out; [exact Hfb|]. now apply (stripHtml_one_line _ _ _ Hout).
Qed.

Lemma field_shown callback (row : json) k fallback text :
  field callback row k fallback = Ok text -> shown fallback -> shown text.
Proof.
  intros H [Hne Hline]. split; [|now apply (field_one_line _ _ _ _ _ H)].
  unfold field in H. destruct (get row (js k)) as [v|]; [|discriminate].
  cbn [rbind] in H. destruct (stripHtml callback v) as [out|]; [|discriminate].
  cbn [rbind] in H. injection H as <-. now destruct out.
Qed.

Lemma shown_literal (s : jsstring) :
  match s with [] => false | _ => true end = true ->
  Nat.eqb (countOf 10%N s) 0 = true -> shown s.
Proof.
  intros Hne Hc. split; [now destruct s|now apply Nat.eqb_eq].
Qed.

Lemma countOf_rowBlock
    (name gmp price subs gmpRange windowText listing updated : jsstring) :
  countOf 10%N name = 0 -> countOf 10%N gmp = 0 -> countOf 10%N price = 0 ->
  countOf 10%N subs = 0 -> countOf 10%N gmpRange = 0 ->
  countOf 10%N windowText = 0 -> countOf 10%N listing = 0 ->
  countOf 10%N updated = 0 ->
  countOf 10%N
    (rowBlock name gmp price subs gmpRange windowText listing updated) = 8.
Proof.
  intros H1 H2 H3 H4 H5 H6 H7 H8. unfold rowBlock. cbn [join].
  rewrite !countOf_app, H1, H2, H3, H4, H5, H6, H7, H8. reflexivity.
Qed.

Lemma countOf_window (a b : jsstring) :
  countOf 10%N a = 0 -> countOf 10%N b = 0 ->
  countOf 10%N (a ++ 32%N :: 8211%N :: 32%N :: b) = 0.
Proof.
  intros Ha Hb. change (32%N :: 8211%N :: 32%N :: b)
    with ([32%N; 8211%N; 32%N] ++ b).
  now rewrite !countOf_app, Ha, Hb.
Qed.

(** The shape of every block that [formatIpoRow] returns. *)
Lemma formatIpoRow_shape callback (row : json) (block : jsstring) :
  formatIpoRow callback row = Ok block ->
  exists name gmp price subs gmpRange windowText listing updated,
    block = rowBlock name gmp price subs gmpRange windowText listing updated
    /\ shown name /\ shown gmp /\ shown price /\ shown subs
    /\ shown gmpRange /\ shown windowText /\ shown listing
    /\ shown updated.
Proof.
  unfold formatIpoRow.
  destruct (field callback row "Name" (js "Unknown IPO")) as [name|] eqn:Hname;
    [|discriminate].
  destruct (field callback row "GMP" (js "-")) as [gmp|] eqn:Hgmp;
    [|discriminate].
  destruct (field callback row "Price" (js "-")) as [price|] eqn:Hprice;
    [|discriminate].
  destruct (field callback row "Sub" (js "-")) as [subs|] eqn:Hsubs;
    [|discriminate].
  destruct (field callback row "GMP(L/H)" (js "-")) as [gmpRange|] eqn:Hrange;
    [|discriminate].
  destruct (field callback row "Open" []) as [open|] eqn:Hopen;
    [|discriminate].
  destruct (field callback row "Close" []) as [close|] eqn:Hclose;
    [|discriminate].
  destruct (field callback row "Listing" (js "-")) as [listing|] eqn:Hlisting;
    [|discriminate].
  destruct (field callback row "Updated-On" (js "-")) as [updated|]
    eqn:Hupdated; [|discriminate].
  cbn [rbind]. intros H. injection H as <-.
  assert (Hdash : shown (js "-")) by (now apply shown_literal).
  assert (Hunknown : shown (js "Unknown IPO")) by (now apply shown_literal).
  pose proof (field_one_line _ _ _ _ _ Hopen eq_refl) as Hopen1.
  pose proof (field_one_line _ _ _ _ _ Hclose eq_refl) as Hclose1.
  do 8 eexists. split; [reflexivity|].
  repeat split;
    try (eapply field_shown; eassumption);
    try (apply Hdash).
  - destruct open, close; discriminate.
  - destruct open as [|o open'], close as [|c close'];
      try reflexivity;
      apply countOf_window; first [reflexivity|assumption].
Qed.

(** X2.  A block that [formatIpoRow] returns has exactly nine lines, the
    bullet line of the name, seven labelled lines and the action line;
    the text shown on each of the first eight is never empty and never
    holds a line break. *)
Theorem formatIpoRow_nine_lines callback (row : json) (block : jsstring) :
  formatIpoRow callback row = Ok block ->
  countOf 10%N block = 8
  /\ exists name gmp price subs gmpRange windowText listing updated,
       block = rowBlock name gmp price subs gmpRange windowText listing updated
       /\ shown name /\ shown gmp /\ shown price /\ shown subs
       /\ shown gmpRange /\ shown windowText /\ shown listing
       /\ shown updated.
Proof.
  intros H.
  destruct (formatIpoRow_shape _ _ _ H)
    as (name & gmp & price & subs & gmpRange & windowText & listing & updated
        & -> & Hn & Hg & Hp & Hs & Hr & Hw & Hl & Hu).
  split.
  - apply countOf_rowBlock;
      [apply Hn|apply Hg|apply Hp|apply Hs|apply Hr|apply Hw|apply Hl|apply Hu].
  - exists name, gmp, price, subs, gmpRange, windowText, listing, updated.
    repeat split; first [apply Hn|apply Hg|apply Hp|apply Hs|apply Hr
                        |apply Hw|apply Hl|apply Hu].
Qed.

(** ** The message with its rows *)

Lemma filterR_filter (p : json -> result bool) (keep : json -> bool)
    (rows : list json) :
  (forall row, In row rows -> p row = Ok (keep row)) ->
  filterR p rows = Ok (filter keep rows).
Proof.
  induction rows as [|row rows IH]; intros H; [reflexivity|].
  cbn [filterR filter]. rewrite (H row (or_introl eq_refl)), IH.
  - cbn [rbind]. now destruct (keep row).
  - intros r Hr. apply H. now right.
Qed.

Lemma mapR_map (f : json -> result jsstring) (g : json -> jsstring)
    (rows : list json) :
  (forall row, In row rows -> f row = Ok (g row)) ->
  mapR f rows = Ok (List.map g rows).
Proof.
  induction rows as [|row rows IH]; intros H; [reflexivity|].
  cbn [mapR List.map]. rewrite (H row (or_introl eq_refl)), IH.
  - reflexivity.
  - intros r Hr. apply H. now right.
Qed.

Lemma startsTidy_app_l (x y : jsstring) :
  x <> [] -> startsTidy (x ++ y) = startsTidy x.
Proof. now destruct x. Qed.

Lemma tidyEnds_app (x mid y : jsstring) :
  tidyEnds x -> tidyEnds y -> tidyEnds (x ++ mid ++ y).
Proof.
  intros (Hx & Hxs & _) (Hy & _ & Hye). repeat split.
  - destruct x; [congruence|discriminate].
  - now rewrite startsTidy_app_l.
  - rewrite !rev_app_distr, <- app_assoc, startsTidy_app_l; [exact Hye|].
    intros Hnil. apply (f_equal (@rev unit16)) in Hnil.
    rewrite rev_involutive in Hnil. now apply Hy.
Qed.

Lemma tidyEnds_join (sep : jsstring) (blocks : list jsstring) :
  blocks <> [] -> Forall tidyEnds blocks -> tidyEnds (join sep blocks).
Proof.
  induction blocks as [|b blocks IH]; [congruence|].
  intros _ Hall. inversion Hall as [|? ? Hb Hrest]; subst.
  destruct blocks as [|b' blocks']; [exact Hb|].
  change (join sep (b :: b' :: blocks'))
    with (b ++ sep ++ join sep (b' :: blocks')).
  apply tidyEnds_app; [exact Hb|]. apply IH; [discriminate|exact Hrest].
Qed.

Lemma rowBlock_tidyEnds
    (name gmp price subs gmpRange windowText listing updated : jsstring) :
  tidyEnds (rowBlock name gmp price subs gmpRange windowText listing updated).
Proof.
  unfold rowBlock. cbn [join].
  repeat split.
  - discriminate.
  - rewrite !rev_app_distr. reflexivity.
Qed.

Lemma formatIpoRow_tidyEnds callback (row : json) (block : jsstring) :
  formatIpoRow callback row = Ok block -> tidyEnds block.
Proof.
  intros H.
  destruct (formatIpoRow_shape _ _ _ H)
    as (name & gmp & price & subs & gmpRange & windowText & listing & updated
        & -> & _).
  apply rowBlock_tidyEnds.
Qed.

(** X3.  When some row closes today, the message is the header for the
    reference date, a blank line, and the blocks of the rows that close
    today, in the order of the payload, with a blank line between two
    blocks; the final [trim] removes nothing. *)
Theorem formatMessage_rows E callback (data : json) (rows : list json)
    (keep : json -> bool) (block : json -> jsstring) :
  rowSequence data = Some rows ->
  (forall row, In row rows ->
     isClosingToday E callback row (todayInKolkata E) = Ok (keep row)) ->
  (forall row, In row rows -> keep row = true ->
     formatIpoRow callback row = Ok (block row)) ->
  filter keep rows <> [] ->
  formatMessage E callback data
  = Ok (header (todayInKolkata E) ++ newline ++ newline
        ++ join (newline ++ newline) (List.map block (filter keep rows))).
Proof.
  intros Hrows Hkeep Hblock Hsome. apply rowSequence_get in Hrows.
  unfold formatMessage. rewrite Hrows.
  assert (Ht : truthy (Some data) = true).
  { destruct data; cbn [get] in Hrows; try discriminate; reflexivity. }
  rewrite Ht. cbn [negb rbind]. unfold getTodayIso.
  rewrite (filterR_filter _ keep rows Hkeep). cbn [rbind].
  rewrite (mapR_map _ block).
  2:{ intros row Hin. apply filter_In in Hin as [Hin Hk]. now apply Hblock. }
  cbn [rbind].
  assert (Htidy : tidyEnds (join (newline ++ newline)
                              (List.map block (filter keep rows)))).
  { apply tidyEnds_join.
    - destruct (filter keep rows); [congruence|discriminate].
    - apply Forall_forall. intros b Hb. apply in_map_iff in Hb as (row & <- & Hin).
      apply filter_In in Hin as [Hin Hk].
      apply (formatIpoRow_tidyEnds callback row). now apply Hblock. }
  destruct Htidy as (Hne & Hs & He).
  rewrite (trim_of_tidy _ Hs He).
  destruct (join (newline ++ newline) (List.map block (filter keep rows)));
    [congruence|reflexivity].
Qed.

(** ** Dates already normalised, and short dates *)

Ltac decide_units :=
  repeat match goal with
         | H : _ && _ = true |- _ => apply andb_true_iff in H as [? ?]
         | H : (_ <=? _)%N = true |- _ => apply N.leb_le in H
         end;
  repeat match goal with
         | |- context [(?a <=? ?b)%N] =>
             destruct (N.leb_spec a b); try (exfalso; lia)
         | |- context [(?a =? ?b)%N] =>
             destruct (N.eqb_spec a b); try (exfalso; lia)
         end;
  try reflexivity.

Lemma isDigit_not_space (c : unit16) : isDigit c = true -> isSpace c = false.
Proof. unfold isDigit, isSpace. intros H. decide_units. Qed.

Lemma isAlpha_not_space (c : unit16) : isAlpha c = true -> isSpace c = false.
Proof.
  unfold isAlpha, isSpace. intros H.
  apply orb_true_iff in H as [H|H]; decide_units.
Qed.

Lemma trim_trim (s : jsstring) : trim (trim s) = trim s.
Proof. destruct (trim_tidy s). now apply trim_of_tidy. Qed.

Lemma isIsoDate_trim (r : jsstring) : isIsoDate r = true -> trim r = r.
Proof.
  intros H.
  destruct r as [|y1 [|y2 [|y3 [|y4 [|d1 [|m1 [|m2 [|d2 [|a [|b [|]]]]]]]]]]];
    try discriminate.
  cbn [isIsoDate forallb] in H.
  repeat match goal with
         | H : _ && _ = true |- _ => apply andb_true_iff in H as [? ?]
         end.
  apply trim_of_tidy; cbn [rev app startsTidy];
    now rewrite isDigit_not_space.
Qed.

(** X4.  A text that is of the form YYYY-MM-DD once trimmed is returned
    trimmed, whatever the digits are; so [normalizeDate] applied to such a
    result of its own returns it unchanged. *)
Theorem normalizeDate_iso_round_trip E (s : jsstring) :
  isIsoDate (trim s) = true ->
  normalizeDate E (Some (JStr s)) = Ok (Some (trim s))
  /\ normalizeDate E (Some (JStr (trim s))) = Ok (Some (trim s)).
Proof.
  intros Hiso. split.
  - unfold normalizeDate. rewrite Hiso.
    destruct s as [|c s]; [discriminate|].
    cbn [truthy negb]. destruct (trim (c :: s)); [discriminate|reflexivity].
  - apply normalizeDate_iso; [exact Hiso|]. apply trim_trim.
Qed.

Lemma shortMatch_parts (day mon : jsstring) :
  forallb isDigit day = true -> length day = 1 \/ length day = 2 ->
  forallb isAlpha mon = true -> length mon = 3 ->
  let s := day ++ js "-" ++ mon in
  trim s = s /\ isIsoDate s = false
  /\ shortMatch s = Some (day, mon)
  /\ sliceFirst 3 mon = mon
  /\ s <> [].
Proof.
  intros Hd Hlen Hm Hmon.
  destruct mon as [|x [|y [|z [|]]]]; try discriminate.
  cbn [forallb] in Hm.
  apply andb_true_iff in Hm as [Hx Hm].
  apply andb_true_iff in Hm as [Hy Hm].
  apply andb_true_iff in Hm as [Hz _].
  destruct Hlen as [Hlen|Hlen].
  - destruct day as [|a [|]]; try discriminate.
    cbn [forallb] in Hd. apply andb_true_iff in Hd as [Ha _].
    cbv zeta. change ([a] ++ js "-" ++ [x; y; z]) with [a; 45%N; x; y; z].
    repeat split; try discriminate.
    + apply trim_of_tidy; cbn [rev app startsTidy];
        [now rewrite (isDigit_not_space _ Ha)
        |now rewrite (isAlpha_not_space _ Hz)].
    + unfold shortMatch. cbn [forallb]. now rewrite Ha, Hx, Hy, Hz.
  - destruct day as [|a [|b [|]]]; try discriminate.
    cbn [forallb] in Hd. apply andb_true_iff in Hd as [Ha Hd].
    apply andb_true_iff in Hd as [Hb _].
    cbv zeta. change ([a; b] ++ js "-" ++ [x; y; z]) with [a; b; 45%N; x; y; z].
    repeat split; try discriminate.
    + apply trim_of_tidy; cbn [rev app startsTidy];
        [now rewrite (isDigit_not_space _ Ha)
        |now rewrite (isAlpha_not_space _ Hz)].
    + unfold shortMatch. cbn [forallb]. now rewrite Ha, Hb, Hx, Hy, Hz.
Qed.

(** X5.  A day of one or two digits, a dash and three letters: when the
    letters, in lower case, are a month of the table, the result is the
    current year, the number of the month and the day on two digits, the
    day being taken as written; when they are not, the second look-up of
    the source finds nothing either and the text goes to the generic
    parser. *)
Theorem normalizeDate_short_form E (day mon : jsstring) :
  forallb isDigit day = true -> length day = 1 \/ length day = 2 ->
  forallb isAlpha mon = true -> length mon = 3 ->
  (forall month, lookup (toLowerCase mon) MONTH_SHORT = Some month ->
     normalizeDate E (Some (JStr (day ++ js "-" ++ mon)))
     = Ok (Some (decimalZ (getFullYear (now E)) ++ js "-" ++ month
                 ++ js "-" ++ padStart0 2 day)))
  /\ (lookup (toLowerCase mon) MONTH_SHORT = None ->
      normalizeDate E (Some (JStr (day ++ js "-" ++ mon)))
      = match Date_parse (legacyParse E) (day ++ js "-" ++ mon) with
        | Some t => Ok (Some (sliceFirst 10 (toISOString t)))
        | None => Ok None
        end).
Proof.
  intros Hd Hlen Hm Hmon.
  destruct (shortMatch_parts day mon Hd Hlen Hm Hmon)
    as (Htrim & Hiso & Hshort & Hslice & Hne).
  cbv zeta in *. set (s := day ++ js "-" ++ mon) in *.
  assert (Ht : negb (truthy (Some (JStr s))) = false) by now destruct s.
  split.
  - intros month Hlook. unfold normalizeDate.
    rewrite Htrim, Ht, Hiso, Hshort, Hlook. reflexivity.
  - intros Hlook. unfold normalizeDate.
    rewrite Htrim, Ht, Hiso, Hshort, Hslice, Hlook.
    now destruct (Date_parse (legacyParse E) s).
Qed.

(** ** Numerals read back, and the cache-busting token *)

Lemma digitsValue_app (l : jsstring) (d : unit16) :
  digitsValue (l ++ [d]) = (10 * digitsValue l + (d - 48))%N.
Proof. unfold digitsValue. now rewrite fold_left_app. Qed.

(** [Number(String(n))] is [n]. *)
Lemma digitsValue_decimalN (n : N) : digitsValue (decimalN n) = n.
Proof.
  assert (H : forall k n, (n < 10 ^ N.of_nat (S k))%N ->
                          digitsValue (decimalN n) = n).
  { clear n. induction k as [|k IH]; intros n Hn; rewrite decimalN_unfold.
    - change (10 ^ N.of_nat 1)%N with 10%N in Hn.
      apply N.ltb_lt in Hn as Hlt. rewrite Hlt.
      unfold digitsValue, digitUnit. cbn [fold_left]. lia.
    - destruct (n <? 10)%N eqn:Hlt.
      + unfold digitsValue, digitUnit. cbn [fold_left]. lia.
      + rewrite Nat2N.inj_succ, N.pow_succ_r' in Hn.
        rewrite digitsValue_app, IH.
        * unfold digitUnit. rewrite (N.add_comm 48), N.add_sub.
          symmetry. apply N.div_mod. discriminate.
        * apply N.Div0.div_lt_upper_bound. lia. }
  apply (H (N.to_nat (N.log2 n))).
  apply (N.lt_le_trans _ _ _ (decimalN_bound n)).
  apply N.pow_le_mono_l. lia.
Qed.

Lemma digitsValue_padStart0 (len : nat) (s : jsstring) :
  digitsValue (padStart0 len s) = digitsValue s.
Proof.
  unfold padStart0, digitsValue. rewrite fold_left_app.
  f_equal. induction (len - length s) as [|k IH]; [reflexivity|].
  cbn [repeat fold_left]. exact IH.
Qed.

(** A number from 0 to 99, written on two digits. *)
Lemma two_digits (n : Z) :
  (0 <= n <= 99)%Z ->
  exists a b, padStart0 2 (decimalZ n) = [a; b]
              /\ isDigit a = true /\ isDigit b = true
              /\ digitsValue [a; b] = Z.to_N n.
Proof.
  intros Hn. unfold decimalZ.
  destruct (n <? 0)%Z eqn:Hneg; [apply Z.ltb_lt in Hneg; lia|].
  destruct (decimalN_digits 1 (Z.to_N n)) as [Hd Hl].
  { change (10 ^ N.of_nat 2)%N with 100%N. lia. }
  destruct (padStart0_digits 2 _ Hd Hl) as [Hpd Hpl].
  pose proof (digitsValue_padStart0 2 (decimalN (Z.to_N n))) as Hv.
  rewrite digitsValue_decimalN in Hv.
  destruct (padStart0 2 (decimalN (Z.to_N n))) as [|a [|b [|]]];
    try discriminate.
  cbn [forallb] in Hpd. apply andb_true_iff in Hpd as [Ha Hb].
  apply andb_true_iff in Hb as [Hb _]. now exists a, b.
Qed.

Lemma buildCacheBuster_parts (date : clock) :
  clockInRange date ->
  exists d1 d2 h1 h2 m1 m2,
    buildCacheBuster date = [d1; d2; 45%N; h1; h2; m1; m2]
    /\ forallb isDigit [d1; d2; h1; h2; m1; m2] = true
    /\ digitsValue [d1; d2] = Z.to_N (getDate date)
    /\ digitsValue [h1; h2] = Z.to_N (getHours date)
    /\ digitsValue [m1; m2] = Z.to_N (getMinutes date).
Proof.
  intros (Hd & Hh & Hm). unfold buildCacheBuster.
  destruct (two_digits (getDate date)) as (d1 & d2 & -> & Hd1 & Hd2 & Hdv);
    [lia|].
  destruct (two_digits (getHours date)) as (h1 & h2 & -> & Hh1 & Hh2 & Hhv);
    [lia|].
  destruct (two_digits (getMinutes date)) as (m1 & m2 & -> & Hm1 & Hm2 & Hmv);
    [lia|].
  exists d1, d2, h1, h2, m1, m2. repeat split; try assumption.
  cbn [forallb]. now rewrite Hd1, Hd2, Hh1, Hh2, Hm1, Hm2.
Qed.

(** X6.  For a clock within its ranges, the cache-busting token is of
    the form DD-HHMM: seven code units, digits around the dash. *)
Theorem buildCacheBuster_shape (date : clock) :
  clockInRange date -> isCacheToken (buildCacheBuster date) = true.
Proof.
  intros H.
  destruct (buildCacheBuster_parts date H)
    as (d1 & d2 & h1 & h2 & m1 & m2 & -> & Hdigits & _).
  unfold isCacheToken. apply andb_true_iff. split; [exact Hdigits|reflexivity].
Qed.

(** X7.  The token tells the day of the month, the hour and the minute:
    two clocks within their ranges have the same token exactly when they
    agree on the three. *)
Theorem buildCacheBuster_injective (a b : clock) :
  clockInRange a -> clockInRange b ->
  (buildCacheBuster a = buildCacheBuster b
   <-> getDate a = getDate b /\ getHours a = getHours b
       /\ getMinutes a = getMinutes b).
Proof.
  intros Ha Hb. split.
  - intros Heq.
    destruct (buildCacheBuster_parts a Ha)
      as (d1 & d2 & h1 & h2 & m1 & m2 & Ea & _ & Hd & Hh & Hm).
    destruct (buildCacheBuster_parts b Hb)
      as (d1' & d2' & h1' & h2' & m1' & m2' & Eb & _ & Hd' & Hh' & Hm').
    rewrite Ea, Eb in Heq. injection Heq as -> -> -> -> -> ->.
    destruct Ha as (? & ? & ?), Hb as (? & ? & ?).
    rewrite Hd in Hd'. rewrite Hh in Hh'. rewrite Hm in Hm'.
    repeat split; apply Z2N.inj; lia.
  - intros (Hd & Hh & Hm). unfold buildCacheBuster. now rewrite Hd, Hh, Hm.
Qed.

(** ** The fiscal-year label identifies the fiscal year *)

Lemma digits_before_dash (x y p q : jsstring) :
  forallb isDigit x = true -> forallb isDigit y = true ->
  x ++ 45%N :: p = y ++ 45%N :: q -> x = y.
Proof.
  revert y; induction x as [|a x IH]; intros [|b y] Hx Hy H;
    cbn [app forallb] in *.
  - reflexivity.
  - injection H as <- _. apply andb_true_iff in Hy as [Hb _]. discriminate Hb.
  - injection H as -> _. apply andb_true_iff in Hx as [Ha _]. discriminate Ha.
  - injection H as -> H.
    apply andb_true_iff in Hx as [_ Hx]. apply andb_true_iff in Hy as [_ Hy].
    f_equal. now apply IH.
Qed.

Lemma decimalN_all_digits (n : N) : forallb isDigit (decimalN n) = true.
Proof.
  apply (decimalN_digits (N.to_nat (N.log2 n))).
  apply (N.lt_le_trans _ _ _ (decimalN_bound n)).
  apply N.pow_le_mono_l. lia.
Qed.

(** X8.  From the year 1 on, the label identifies the fiscal year: two
    dates have the same label exactly when their fiscal years start in the
    same calendar year; so the label is the same from an April to the next
    March and changes at every 1st of April. *)
Theorem getFiscalYearLabel_same_year (a b : clock) :
  (1 <= getFullYear a)%Z -> (1 <= getFullYear b)%Z ->
  (getFiscalYearLabel a = getFiscalYearLabel b
   <-> fiscalStart a = fiscalStart b).
Proof.
  intros Ha Hb.
  assert (Hlabel : forall d, getFiscalYearLabel d
                             = decimalZ (fiscalStart d) ++ 45%N
                               :: sliceLast 2 (decimalZ (fiscalStart d + 1)))
    by reflexivity.
  assert (Hpos : forall d, (1 <= getFullYear d)%Z -> (0 <= fiscalStart d)%Z).
  { intros d Hd. unfold fiscalStart.
    destruct (4 <=? getMonth d + 1)%Z; lia. }
  split.
  - rewrite !Hlabel. intros H.
    pose proof (Hpos a Ha) as Hsa. pose proof (Hpos b Hb) as Hsb.
    assert (Hz : forall z, (0 <= z)%Z -> decimalZ z = decimalN (Z.to_N z)).
    { intros z Hz. unfold decimalZ.
      destruct (z <? 0)%Z eqn:Hneg; [apply Z.ltb_lt in Hneg; lia|reflexivity]. }
    rewrite (Hz _ Hsa), (Hz _ Hsb) in H.
    apply digits_before_dash in H; try apply decimalN_all_digits.
    apply (f_equal digitsValue) in H. rewrite !digitsValue_decimalN in H.
    apply Z2N.inj; assumption.
  - intros H. rewrite !Hlabel. now rewrite H.
Qed.

(** ** The base URL and its trailing slash *)

Lemma dropTrailingSlash_slash (s : jsstring) :
  dropTrailingSlash (s ++ js "/") = s.
Proof.
  unfold dropTrailingSlash. rewrite rev_app_distr. cbn [js rev app].
  change (List.map N_of_ascii (list_ascii_of_string "/")) with [47%N].
  cbn [rev app]. apply rev_involutive.
Qed.

Lemma trim_with_slash (s : jsstring) :
  trim s = s -> trim (s ++ js "/") = s ++ js "/".
Proof.
  intros Hs. destruct (trim_tidy s) as [Hstart _]. rewrite Hs in Hstart.
  apply trim_of_tidy.
  - destruct s; [reflexivity|exact Hstart].
  - rewrite rev_app_distr. reflexivity.
Qed.

(** X9.  One slash at the end of the configured base URL changes nothing:
    the base with a slash added gives the URL of the base itself, in the
    script and, for a base without surrounding white space, in the
    handler.  (A base that already ends with a slash keeps it when a
    second one is added: one slash is removed, not every slash.) *)
Theorem buildApiUrl_trailing_slash E (API_URL : jsstring) (date : clock) :
  dropTrailingSlash API_URL = API_URL ->
  Gmp.buildApiUrl E (API_URL ++ js "/") date = Gmp.buildApiUrl E API_URL date
  /\ (trim API_URL = API_URL ->
      Handler.buildApiUrl E (API_URL ++ js "/") date
      = Handler.buildApiUrl E API_URL date).
Proof.
  intros Hbase. split.
  - unfold Gmp.buildApiUrl. now rewrite dropTrailingSlash_slash, Hbase.
  - intros Htrim. unfold Handler.buildApiUrl.
    now rewrite (trim_with_slash _ Htrim), Htrim, dropTrailingSlash_slash, Hbase.
Qed.

(** ** Rows without a close date *)

(** X10.  A row that is [null] makes the filter throw, from the read of
    [~Srt_Close].  For any other row, when the value chosen between
    [~Srt_Close] and [Close] is not a string (the fields are missing, or
    hold a number, a boolean, [null], an array or an object), the row
    resolves to the sentinel and does not close today, whatever the
    reference date. *)
Theorem isClosingToday_without_dates E callback (todayIso : jsstring) :
  isClosingToday E callback JNull todayIso
  = Throw (TypeError_readNull (js "~Srt_Close"))
  /\ (forall row srt close,
        get row (js "~Srt_Close") = Ok srt -> get row (js "Close") = Ok close ->
        (forall text, or_else srt close <> Some (JStr text)) ->
        getCloseDateIso E callback row = Ok None
        /\ isClosingToday E callback row todayIso = Ok false).
Proof.
  split; [reflexivity|].
  intros row srt close Hsrt Hclose Hchosen.
  assert (H : getCloseDateIso E callback row = Ok None).
  { unfold getCloseDateIso. rewrite Hsrt. cbn [rbind].
    unfold or_else in Hchosen.
    destruct (truthy srt).
    - cbn [rbind]. destruct srt as [[| | |text| |]|]; try reflexivity.
      now destruct (Hchosen text).
    - rewrite Hclose. cbn [rbind].
      destruct close as [[| | |text| |]|]; try reflexivity.
      now destruct (Hchosen text). }
  split; [exact H|]. unfold isClosingToday. now rewrite H.
Qed.

(** ** The requests of a run *)

Lemma io_bind_ok {A B} (m : io A) (k : A -> io B) log a log1 :
  m log = (Ok a, log1) -> io_bind m k log = k a log1.
Proof. unfold io_bind. now intros ->. Qed.

Lemma io_bind_throw {A B} (m : io A) (k : A -> io B) log e log1 :
  m log = (Throw e, log1) -> io_bind m k log = (Throw e, log1).
Proof. unfold io_bind. now intros ->. Qed.

Lemma handler_sendTelegram_log W BOT_TOKEN CHAT_ID text log :
  snd (Handler.sendTelegram W BOT_TOKEN CHAT_ID text log)
  = log ++ [POST (telegramUrl BOT_TOKEN) (telegramBody CHAT_ID text)].
Proof.
  unfold Handler.sendTelegram, io_bind, fetch_post, io_lift, io_throw, io_ret.
  destruct (chat_service W _ _ _) as [reason|status [json|e]];
    try reflexivity.
  cbn [res_json].
  destruct (get json (js "ok")) as [flag|e]; [|reflexivity].
  now destruct (negb (truthy flag)).
Qed.

(** X11.  Each call of [sendTelegram], in the script and in the handler,
    issues exactly one request, whatever the chat service answers and
    whether the call returns or throws: a POST to the sendMessage URL of
    the bot, whose body is the JSON text of the chat identifier, the text
    and [disable_web_page_preview: true]. *)
Theorem sendTelegram_one_request W BOT_TOKEN CHAT_ID text log :
  snd (Gmp.sendTelegram W BOT_TOKEN CHAT_ID text log)
  = log ++ [POST (telegramUrl BOT_TOKEN) (telegramBody CHAT_ID text)]
  /\ snd (Handler.sendTelegram W BOT_TOKEN CHAT_ID text log)
     = log ++ [POST (telegramUrl BOT_TOKEN) (telegramBody CHAT_ID text)].
Proof.
  split; [apply sendTelegram_log|apply handler_sendTelegram_log].
Qed.

Lemma gets_app (a b : list request) : gets (a ++ b) = gets a ++ gets b.
Proof. apply filter_app. Qed.

Lemma posts_app (a b : list request) : posts (a ++ b) = posts a ++ posts b.
Proof. apply filter_app. Qed.

Section Requests.

Variables (E : env) (W : world) (API_URL BOT_TOKEN CHAT_ID : jsstring).

(** What an attempt adds to the log: at most the GET and the POST, and
    both when it returns. *)
Lemma gmp_attempt_adds log :
  exists extra,
    snd (Gmp.attempt E W API_URL BOT_TOKEN CHAT_ID log) = log ++ extra
    /\ length (gets extra) <= 1 /\ length (posts extra) <= 1
    /\ (returned (fst (Gmp.attempt E W API_URL BOT_TOKEN CHAT_ID log)) = true ->
        length (gets extra) = 1 /\ length (posts extra) = 1).
Proof.
  unfold Gmp.attempt, Gmp.fetchGmp, io_bind, io_lift, fetch_get, io_throw.
  destruct (Gmp.buildApiUrl E API_URL (now E)) as [url|e].
  2:{ exists []. rewrite app_nil_r. cbn. repeat split; try lia; discriminate. }
  destruct (report_service W url) as [reason|status body].
  { exists [GET url]. cbn. repeat split; try lia; discriminate. }
  cbn [res_json res_status]. destruct (negb (res_ok _)).
  { exists [GET url]. cbn. repeat split; try lia; discriminate. }
  destruct body as [data|e].
  2:{ exists [GET url]. cbn. repeat split; try lia; discriminate. }
  destruct (Gmp.formatMessage E data) as [message|e].
  2:{ exists [GET url]. cbn. repeat split; try lia; discriminate. }
  pose proof (sendTelegram_log W BOT_TOKEN CHAT_ID message (log ++ [GET url]))
    as Hlog.
  destruct (Gmp.sendTelegram W BOT_TOKEN CHAT_ID message (log ++ [GET url]))
    as [r l]. cbn [snd fst] in *. subst l.
  exists [GET url; POST (telegramUrl BOT_TOKEN) (telegramBody CHAT_ID message)].
  rewrite <- app_assoc. cbn. repeat split; lia.
Qed.

Lemma handler_attempt_adds log :
  exists extra,
    snd (Handler.attempt E W API_URL BOT_TOKEN CHAT_ID log) = log ++ extra
    /\ length (gets extra) = 1 /\ length (posts extra) <= 1
    /\ (returned (fst (Handler.attempt E W API_URL BOT_TOKEN CHAT_ID log))
        = true -> length (posts extra) = 1).
Proof.
  unfold Handler.attempt, Handler.fetchGmp, io_bind, io_lift, fetch_get,
    io_throw.
  set (url := Handler.buildApiUrl E API_URL (now E)).
  destruct (report_service W url) as [reason|status body].
  { exists [GET url]. cbn. repeat split; try lia; discriminate. }
  cbn [res_json res_status]. destruct (negb (res_ok _)).
  { exists [GET url]. cbn. repeat split; try lia; discriminate. }
  destruct body as [data|e].
  2:{ exists [GET url]. cbn. repeat split; try lia; discriminate. }
  destruct (Handler.formatMessage E data) as [message|e].
  2:{ exists [GET url]. cbn. repeat split; try lia; discriminate. }
  pose proof (handler_sendTelegram_log W BOT_TOKEN CHAT_ID message
                (log ++ [GET url])) as Hlog.
  destruct (Handler.sendTelegram W BOT_TOKEN CHAT_ID message (log ++ [GET url]))
    as [r l]. cbn [snd fst] in *. subst l.
  exists [GET url; POST (telegramUrl BOT_TOKEN) (telegramBody CHAT_ID message)].
  rewrite <- app_assoc. cbn. repeat split; lia.
Qed.

End Requests.

(** X12.  The script never lets an exception escape and always ends
    with the status 0 or 1.  A run issues at most one GET and at most two
    POSTs (the message and the error notification); a run that ends with 0
    has issued exactly one GET and one POST: the message is sent once. *)
Theorem script_requests E W log :
  exists code extra,
    Gmp.script E W log = (Ok code, log ++ extra)
    /\ (code = 0 \/ code = 1)%Z
    /\ length (gets extra) <= 1 /\ length (posts extra) <= 2
    /\ (code = 0%Z -> length (gets extra) = 1 /\ length (posts extra) = 1).
Proof.
  destruct (present (env_API_URL E)) as [API_URL|] eqn:Hurl.
  2:{ exists 1%Z, []. unfold Gmp.script. rewrite Hurl, app_nil_r.
      cbn. repeat split; try lia; now right. }
  destruct (present (env_BOT_TOKEN E)) as [BOT_TOKEN|] eqn:Htoken.
  2:{ exists 1%Z, []. unfold Gmp.script. rewrite Hurl, Htoken, app_nil_r.
      cbn. repeat split; try lia; now right. }
  destruct (present (env_CHAT_ID E)) as [CHAT_ID|] eqn:Hchat.
  2:{ exists 1%Z, []. unfold Gmp.script. rewrite Hurl, Htoken, Hchat, app_nil_r.
      cbn. repeat split; try lia; now right. }
  destruct (gmp_attempt_adds E W API_URL BOT_TOKEN CHAT_ID log)
    as (extra & Hlog & Hgets & Hposts & Hboth).
  destruct (Gmp.attempt E W API_URL BOT_TOKEN CHAT_ID log) as [[ack|err] l]
    eqn:Hattempt; cbn [fst snd returned] in *; subst l.
  - exists 0%Z, extra.
    rewrite (script_success E W API_URL BOT_TOKEN CHAT_ID Hurl Htoken Hchat
               log ack _ Hattempt).
    repeat split; try lia; try (now left); now apply Hboth.
  - exists 1%Z, (extra ++ [errorNotification E BOT_TOKEN CHAT_ID err]).
    rewrite (script_failure E W API_URL BOT_TOKEN CHAT_ID Hurl Htoken Hchat
               log err _ Hattempt).
    rewrite app_assoc, gets_app, posts_app, !length_app. cbn [length gets posts
      filter errorNotification isPost negb].
    repeat split; try lia; now right.
Qed.

(** X13.  The handler never lets an exception escape: it always answers,
    with the status 200 or 500.  A call issues at most one GET and at most
    one POST, and no error notification; a call answered with 200 has
    issued exactly one GET and one POST. *)
Theorem handler_requests E W log :
  exists reply extra,
    Handler.handler E W log = (Ok reply, log ++ extra)
    /\ (Handler.status reply = 200 \/ Handler.status reply = 500)%Z
    /\ length (gets extra) <= 1 /\ length (posts extra) <= 1
    /\ (Handler.status reply = 200%Z ->
        length (gets extra) = 1 /\ length (posts extra) = 1).
Proof.
  destruct (present (env_API_URL E)) as [API_URL|] eqn:Hurl.
  2:{ exists missingVariables, []. unfold Handler.handler.
      rewrite Hurl, app_nil_r. cbn. repeat split; try lia; now right. }
  destruct (present (env_BOT_TOKEN E)) as [BOT_TOKEN|] eqn:Htoken.
  2:{ exists missingVariables, []. unfold Handler.handler.
      rewrite Hurl, Htoken, app_nil_r. cbn. repeat split; try lia; now right. }
  destruct (present (env_CHAT_ID E)) as [CHAT_ID|] eqn:Hchat.
  2:{ exists missingVariables, []. unfold Handler.handler.
      rewrite Hurl, Htoken, Hchat, app_nil_r.
      cbn. repeat split; try lia; now right. }
  destruct (handler_attempt_adds E W API_URL BOT_TOKEN CHAT_ID log)
    as (extra & Hlog & Hgets & Hposts & Hboth).
  destruct (Handler.attempt E W API_URL BOT_TOKEN CHAT_ID log) as [[ack|err] l]
    eqn:Hattempt; cbn [fst snd returned] in *; subst l.
  - destruct (handler_success E W API_URL BOT_TOKEN CHAT_ID Hurl Htoken Hchat
                log ack _ Hattempt) as (reply & Hreply & Hstatus).
    exists reply, extra. rewrite Hreply, Hstatus.
    repeat split; try lia; try (now left); now apply Hboth.
  - exists (errorResponse E err), extra.
    rewrite (handler_failure E W API_URL BOT_TOKEN CHAT_ID Hurl Htoken Hchat
               log err _ Hattempt).
    cbn [errorResponse Handler.status].
    repeat split; try lia; try (now right); discriminate.
Qed.

(** X14.  When one of [API_URL], [BOT_TOKEN], [CHAT_ID] is unset or is
    the empty string, no request is issued: the script exits with 1 and
    the handler answers 500 with "Missing environment variables". *)
Theorem missing_configuration E W log :
  present (env_API_URL E) = None \/ present (env_BOT_TOKEN E) = None
  \/ present (env_CHAT_ID E) = None ->
  Gmp.script E W log = (Ok 1%Z, log)
  /\ Handler.handler E W log = (Ok missingVariables, log).
Proof.
  intros H. unfold Gmp.script, Handler.handler, try_catch.
  destruct (present (env_API_URL E)); [|split; reflexivity].
  destruct (present (env_BOT_TOKEN E)); [|split; reflexivity].
  destruct (present (env_CHAT_ID E)); [|split; reflexivity].
  destruct H as [H|[H|H]]; discriminate H.
Qed.

(** X15.  When the report service answers with a status outside 200 to
    299, the body is not read and no message is composed: the script
    issues the GET and the notification of "API error" followed by the
    status, and exits with 1; the handler issues the GET alone and answers
    500 with that text. *)
Theorem upstream_failure E W API_URL BOT_TOKEN CHAT_ID log status body :
  present (env_API_URL E) = Some API_URL ->
  present (env_BOT_TOKEN E) = Some BOT_TOKEN ->
  present (env_CHAT_ID E) = Some CHAT_ID ->
  (status < 200 \/ 299 < status)%Z ->
  let err := Error (js "API error " ++ decimalZ status) in
  (forall url,
     Gmp.buildApiUrl E API_URL (now E) = Ok url ->
     report_service W url = Response status body ->
     Gmp.script E W log
     = (Ok 1%Z, log ++ [GET url; errorNotification E BOT_TOKEN CHAT_ID err]))
  /\ (report_service W (Handler.buildApiUrl E API_URL (now E))
      = Response status body ->
      Handler.handler E W log
      = (Ok (errorResponse E err),
         log ++ [GET (Handler.buildApiUrl E API_URL (now E))])).
Proof.
  intros Hurl Htoken Hchat Hstatus err.
  assert (Hnot : forall b,
             negb (res_ok {| res_status := status; res_json := b |}) = true).
  { intros b. unfold res_ok. cbn [res_status]. apply negb_true_iff.
    apply andb_false_iff.
    destruct Hstatus; [left; apply Z.leb_gt|right; apply Z.leb_gt]; lia. }
  split.
  - intros url Hbuild Hreply.
    rewrite (script_failure E W API_URL BOT_TOKEN CHAT_ID Hurl Htoken Hchat
               log err (log ++ [GET url])).
    + now rewrite <- app_assoc.
    + unfold Gmp.attempt, Gmp.fetchGmp, io_bind, io_lift, fetch_get, io_throw.
      rewrite Hbuild, Hreply, Hnot. reflexivity.
  - intros Hreply.
    apply (handler_failure E W API_URL BOT_TOKEN CHAT_ID Hurl Htoken Hchat).
    unfold Handler.attempt, Handler.fetchGmp, io_bind, io_lift, fetch_get,
      io_throw.
    rewrite Hreply, Hnot. reflexivity.
Qed.

(** ** When the stripping throws *)

Lemma no_amp_in_digits (s : jsstring) :
  includes [38%N] (takeWhile isDigit s) = false.
Proof.
  induction s as [|c s IH]; [reflexivity|].
  cbn [takeWhile]. destruct (isDigit c) eqn:Hc; [|reflexivity].
  apply includes_unit_cons. split; [|exact IH].
  unfold isDigit in Hc. decide_units.
Qed.

Lemma includes_unit_app (a : unit16) (x y : jsstring) :
  includes [a] x = false -> includes [a] y = false ->
  includes [a] (x ++ y) = false.
Proof.
  intros Hx Hy. induction x as [|c x IH]; [exact Hy|].
  apply includes_unit_cons in Hx as [Hc Hx].
  rewrite <- app_comm_cons. apply includes_unit_cons. split; [exact Hc|].
  now apply IH.
Qed.

(** The code units of a numeric reference after its ampersand hold no
    ampersand: no other reference starts inside it. *)
Lemma numericReference_inside callback (c : unit16) (rest : jsstring) len r :
  numericReference callback (c :: rest) = Some (len, r) ->
  includes [38%N] (firstn (len - 1) rest) = false.
Proof.
  unfold numericReference. destruct rest as [|hash rest0]; [discriminate|].
  destruct ((c =? 38)%N && (hash =? 35)%N) eqn:Hhead; [|discriminate].
  apply andb_true_iff in Hhead as [_ Hhash]. apply N.eqb_eq in Hhash.
  subst hash.
  pose proof (takeWhile_dropWhile isDigit rest0) as Hsplit.
  pose proof (no_amp_in_digits rest0) as Hdigits.
  cbv zeta.
  destruct (takeWhile isDigit rest0) as [|d code] eqn:Hcode; [discriminate|].
  replace (skipn (length (d :: code)) rest0) with (dropWhile isDigit rest0)
    by (rewrite <- Hcode; symmetry; apply skipn_takeWhile).
  destruct (dropWhile isDigit rest0) as [|semi tail]; [discriminate|].
  destruct (semi =? 59)%N eqn:Hsemi; [|discriminate].
  apply N.eqb_eq in Hsemi. subst semi.
  intros H. injection H as Hlen _.
  replace (len - 1) with (S (length (d :: code) + 1))
    by (cbn [length] in *; lia).
  rewrite Hsplit. cbn [firstn].
  apply includes_unit_cons. split; [reflexivity|].
  rewrite firstn_app, firstn_all2 by lia.
  replace (length (d :: code) + 1 - length (d :: code)) with 1 by lia.
  cbn [firstn]. now apply includes_unit_app.
Qed.

Lemma invalidAt_needs_amp (c : unit16) (rest : jsstring) :
  (38 =? c)%N = false -> invalidAt (c :: rest) = None.
Proof.
  intros Hc. unfold invalidAt, numericReference.
  destruct rest as [|hash rest0]; [reflexivity|].
  now rewrite (N.eqb_sym c 38), Hc.
Qed.

Lemma occurs_invalidAt_skip (k : nat) (s : jsstring) :
  includes [38%N] (firstn k s) = false ->
  occurs invalidAt s = occurs invalidAt (skipn k s).
Proof.
  revert s; induction k as [|k IH]; intros s H; [reflexivity|].
  destruct s as [|c s]; [reflexivity|].
  cbn [firstn] in H. apply includes_unit_cons in H as [Hc H].
  rewrite occurs_cons_eq, (invalidAt_needs_amp _ _ Hc). cbn [skipn]. now apply IH.
Qed.

Lemma replace_fn_throws (s : jsstring) :
  (exists e, replace_fn (numericReference fromCodePoint) 0 s = Throw e)
  <-> invalidReference s = true.
Proof.
  unfold invalidReference.
  induction on length of s as n IH Hle.
  - destruct s; [|cbn in Hle; lia]. split; [intros [e H]|]; discriminate.
  - destruct s as [|c rest].
    { split; [intros [e H]|]; discriminate. }
    cbn [length] in Hle.
    rewrite replace_fn_cons, occurs_cons_eq. unfold invalidAt at 1.
    destruct (numericReference fromCodePoint (c :: rest)) as [[len r]|] eqn:Hm.
    + destruct r as [r'|e0].
      * cbn [rbind].
        rewrite (occurs_invalidAt_skip (len - 1) rest
                   (numericReference_inside _ _ _ _ _ Hm)).
        rewrite <- (IH (skipn (len - 1) rest)) by (rewrite length_skipn; lia).
        destruct (replace_fn (numericReference fromCodePoint) 0
                    (skipn (len - 1) rest)) as [tail|e]; cbn [rbind].
        -- split; intros [e H]; discriminate.
        -- split; intros _; now exists e.
      * cbn [rbind]. split; [reflexivity|]. intros _. now exists e0.
    + rewrite <- (IH rest) by lia.
      destruct (replace_fn (numericReference fromCodePoint) 0 rest)
        as [tail|e]; cbn [rbind].
      * split; intros [e H]; discriminate.
      * split; intros _; now exists e.
Qed.

(** X16.  [stripHtml] throws exactly when, once the tags are removed, a
    numeric character reference of the text names a code point above
    U+10FFFF; the script and the handler agree on it. *)
Theorem stripHtml_throws_iff (text : jsstring) :
  ((exists e, stripHtml Handler.codePointText (Some (JStr text)) = Throw e)
   <-> invalidReference (replace_g tag 0 text) = true)
  /\ ((exists e, stripHtml Gmp.codePointText (Some (JStr text)) = Throw e)
      <-> invalidReference (replace_g tag 0 text) = true).
Proof.
  assert (H : (exists e, stripHtml Handler.codePointText (Some (JStr text))
                         = Throw e)
              <-> invalidReference (replace_g tag 0 text) = true).
  { rewrite <- replace_fn_throws, stripHtml_string.
    change (numericReference Handler.codePointText)
      with (numericReference fromCodePoint).
    destruct (replace_fn (numericReference fromCodePoint) 0
                (replace_g tag 0 text)) as [decoded|e]; cbn [rbind].
    - split; intros [e H]; discriminate.
    - split; intros _; now exists e. }
  split; [exact H|].
  now rewrite (stripHtml_ext _ _ codePointText_agree).
Qed.

(** ** Stripping a stripped text *)

Lemma replace_g_tag_clean (s : jsstring) :
  containsTag s = false -> replace_g tag 0 s = s.
Proof.
  unfold containsTag. induction s as [|c s IH]; [reflexivity|].
  rewrite occurs_cons_eq, replace_g_cons.
  destruct (tag (c :: s)); [discriminate|].
  intros H. now rewrite (IH H).
Qed.

Lemma replace_g_spaces_clean (s : jsstring) :
  singleSpaced s = true -> replace_g spaces 0 s = s.
Proof.
  induction s as [|c s IH]; [reflexivity|].
  cbn [singleSpaced]. intros H. apply andb_true_iff in H as [Hc Hs].
  destruct (isSpace c) eqn:Hspace.
  - apply andb_true_iff in Hc as [Hc Hnext]. apply N.eqb_eq in Hc. subst c.
    rewrite (spaces_space _ _ Hspace), dropWhile_tidy, (IH Hs);
      [reflexivity|].
    now destruct s.
  - now rewrite (spaces_other _ _ Hspace), (IH Hs).
Qed.

Lemma stripHtml_no_amp callback (text : jsstring) :
  includes [38%N] text = false ->
  stripHtml callback (Some (JStr text))
  = Ok (trim (replace_g spaces 0 (replace_g tag 0 text)))
  /\ includes [38%N] (trim (replace_g spaces 0 (replace_g tag 0 text))) = false.
Proof.
  intros Hamp.
  assert (Hw : includes [38%N] (replace_g tag 0 text) = false).
  { now apply includes_replace_g; [apply tag_replaces_outside|]. }
  split; [|now apply collapse_trim_includes].
  rewrite stripHtml_string, (replace_fn_no_amp _ _ Hw). cbn [rbind].
  change (js "&nbsp;") with (38%N :: js "nbsp;").
  change (js "&amp;") with (38%N :: js "amp;").
  change (js "&lt;") with (38%N :: js "lt;").
  change (js "&gt;") with (38%N :: js "gt;").
  change (js "&quot;") with (38%N :: js "quot;").
  change (js "&#39;") with (38%N :: js "#39;").
  now rewrite !(splitJoin_no_amp _ _ _ Hw).
Qed.

(** X17.  On a text without ampersand, [stripHtml] is idempotent:
    stripping what it returned returns it unchanged.  (With ampersands it
    is not: "&amp;lt;" gives "&lt;", which gives "<".) *)
Theorem stripHtml_idempotent callback (text out : jsstring) :
  includes (js "&") text = false ->
  stripHtml callback (Some (JStr text)) = Ok out ->
  stripHtml callback (Some (JStr out)) = Ok out.
Proof.
  intros Hamp Hout. change (js "&") with [38%N] in Hamp.
  destruct (stripHtml_tidy _ _ _ Hout) as (Htrim & Hsingle & _).
  destruct (stripHtml_no_amp callback text Hamp) as [Hfirst Hclean].
  rewrite Hfirst in Hout. injection Hout as Hout. rewrite Hout in Hclean.
  assert (Htag : containsTag out = false).
  { rewrite <- Hout. apply containsTag_trim, containsTag_replace_g.
    - now apply spaces_replaces_outside.
    - apply containsTag_removed. }
  destruct (stripHtml_no_amp callback out Hclean) as [-> _].
  now rewrite (replace_g_tag_clean _ Htag), (replace_g_spaces_clean _ Hsingle),
    Htrim.
Qed.

(** ** A run that succeeds *)

(** X18.  When the report service answers the built URL with a status
    from 200 to 299 and a payload, the payload is composed into a message
    and the chat service acknowledges it with a truthy [ok], the run
    issues the GET and then one POST of that message: the script exits
    with 0, the handler answers 200 with [ok: true] and the time of the
    answer. *)
Theorem successful_run E W API_URL BOT_TOKEN CHAT_ID log
    status data message chatStatus ack :
  present (env_API_URL E) = Some API_URL ->
  present (env_BOT_TOKEN E) = Some BOT_TOKEN ->
  present (env_CHAT_ID E) = Some CHAT_ID ->
  (200 <= status <= 299)%Z ->
  Gmp.formatMessage E data = Ok message ->
  chat_service W (length (posts log)) (telegramUrl BOT_TOKEN)
    (telegramBody CHAT_ID message) = Response chatStatus (Ok ack) ->
  successFlag ack = true ->
  let post := POST (telegramUrl BOT_TOKEN) (telegramBody CHAT_ID message) in
  (forall url,
     Gmp.buildApiUrl E API_URL (now E) = Ok url ->
     report_service W url = Response status (Ok data) ->
     Gmp.script E W log = (Ok 0%Z, log ++ [GET url; post]))
  /\ (report_service W (Handler.buildApiUrl E API_URL (now E))
      = Response status (Ok data) ->
      Handler.handler E W log
      = (Ok {| Handler.status := 200;
               Handler.body := JObj [(js "ok", JBool true);
                                     (js "sent", JStr (nowIso E))] |},
         log ++ [GET (Handler.buildApiUrl E API_URL (now E)); post])).
Proof.
  intros Hurl Htoken Hchat Hstatus Hmessage Hreply Hflag post.
  assert (Hok : forall b,
             negb (res_ok {| res_status := status; res_json := b |}) = false).
  { intros b. unfold res_ok. cbn [res_status]. apply negb_false_iff.
    apply andb_true_iff. split; apply Z.leb_le; lia. }
  assert (Hposts : forall url, posts (log ++ [GET url]) = posts log).
  { intros url. rewrite posts_app. cbn. apply app_nil_r. }
  assert (Hget : exists flag, get ack (js "ok") = Ok flag /\ truthy flag = true).
  { unfold successFlag in Hflag.
    destruct (get ack (js "ok")) as [flag|]; [now exists flag|discriminate]. }
  destruct Hget as (flag & Hget & Htruthy).
  split.
  - intros url Hbuild Hreport.
    apply (script_success E W API_URL BOT_TOKEN CHAT_ID Hurl Htoken Hchat
             log ack).
    unfold Gmp.attempt, Gmp.fetchGmp, io_bind, io_lift, fetch_get, io_throw.
    rewrite Hbuild, Hreport, Hok. cbn [res_json]. rewrite Hmessage.
    unfold Gmp.sendTelegram, io_bind, io_lift, fetch_post, io_throw, io_ret.
    rewrite Hposts, Hreply. cbn [res_json]. rewrite Hget, Htruthy.
    cbn [negb]. now rewrite <- app_assoc.
  - intros Hreport.
    unfold Handler.handler. rewrite Hurl, Htoken, Hchat.
    apply try_catch_ok. unfold Handler.mainLogic.
    rewrite (io_bind_ok _ _ log ack
               (log ++ [GET (Handler.buildApiUrl E API_URL (now E)); post]));
      [reflexivity|].
    unfold Handler.attempt, Handler.fetchGmp, io_bind, io_lift, fetch_get,
      io_throw.
    rewrite Hreport, Hok. cbn [res_json].
    rewrite <- formatMessage_agree, Hmessage.
    unfold Handler.sendTelegram, io_bind, io_lift, fetch_post, io_throw, io_ret.
    rewrite Hposts, Hreply. cbn [res_json]. rewrite Hget, Htruthy.
    cbn [negb]. now rewrite <- app_assoc.
Qed.

(* ================================================================== *)
(** * The further properties at concrete inputs *)
(* ================================================================== *)

Module MoreRuns.
Import Sample Inputs.

Lemma stripHtml_white_space_witness :
  stripHtml Gmp.codePointText (Some (JStr untidy)) = Ok (js "Foo Bar")
  /\ trim (js "Foo Bar") = js "Foo Bar"
  /\ singleSpaced (js "Foo Bar") = true.
Proof.
  assert (H : stripHtml Gmp.codePointText (Some (JStr untidy))
              = Ok (js "Foo Bar")) by (vm_compute; reflexivity).
  split; [exact H|].
  destruct (stripHtml_white_space _ _ _ H) as (Htrim & Hsingle & _).
  split; assumption.
Defined.

Lemma formatIpoRow_nine_lines_witness :
  formatIpoRow Gmp.codePointText row = Ok (blockOf row)
  /\ countOf 10%N (blockOf row) = 8.
Proof.
  assert (H : formatIpoRow Gmp.codePointText row = Ok (blockOf row))
    by (vm_compute; reflexivity).
  split; [exact H|].
  exact (proj1 (formatIpoRow_nine_lines _ _ _ H)).
Defined.

Lemma formatMessage_rows_witness :
  filter closesToday [row; markupOnlyRow] = [row]
  /\ formatMessage E0 Gmp.codePointText twoRows
     = Ok (header (js "2024-04-05") ++ newline ++ newline
           ++ join (newline ++ newline)
                (List.map blockOf (filter closesToday [row; markupOnlyRow]))).
Proof.
  split; [vm_compute; reflexivity|].
  apply (formatMessage_rows E0 Gmp.codePointText twoRows [row; markupOnlyRow]
           closesToday blockOf).
  - reflexivity.
  - intros r [<-|[<-|[]]]; vm_compute; reflexivity.
  - intros r [<-|[<-|[]]] _; vm_compute; reflexivity.
  - vm_compute. discriminate.
Defined.

Lemma normalizeDate_iso_round_trip_witness :
  isIsoDate (trim (js " 2024-04-05 ")) = true
  /\ normalizeDate E0 (Some (JStr (js " 2024-04-05 ")))
     = Ok (Some (trim (js " 2024-04-05 "))).
Proof.
  split; [reflexivity|].
  apply (proj1 (normalizeDate_iso_round_trip E0 (js " 2024-04-05 ") eq_refl)).
Defined.

Lemma normalizeDate_short_form_witness :
  lookup (toLowerCase (js "APR")) MONTH_SHORT = Some (js "04")
  /\ normalizeDate E0 (Some (JStr (js "5" ++ js "-" ++ js "APR")))
     = Ok (Some (decimalZ 2024 ++ js "-" ++ js "04" ++ js "-"
                 ++ padStart0 2 (js "5"))).
Proof.
  split; [reflexivity|].
  apply (proj1 (normalizeDate_short_form E0 (js "5") (js "APR")
                  eq_refl (or_introl eq_refl) eq_refl eq_refl)).
  reflexivity.
Defined.

Lemma clock_in_range : clockInRange (now E0) /\ clockInRange march2025.
Proof. repeat split; vm_compute; discriminate. Defined.

Lemma buildCacheBuster_shape_witness :
  clockInRange (now E0) /\ isCacheToken (buildCacheBuster (now E0)) = true.
Proof.
  split; [exact (proj1 clock_in_range)|].
  apply buildCacheBuster_shape. exact (proj1 clock_in_range).
Defined.

Lemma buildCacheBuster_injective_witness :
  buildCacheBuster (now E0) <> buildCacheBuster march2025.
Proof.
  intros H.
  apply (proj1 (buildCacheBuster_injective (now E0) march2025
                  (proj1 clock_in_range) (proj2 clock_in_range))) in H.
  destruct H as [H _]. vm_compute in H. discriminate H.
Defined.

Lemma getFiscalYearLabel_same_year_witness :
  fiscalStart april2024 = fiscalStart march2025
  /\ getFiscalYearLabel april2024 = getFiscalYearLabel march2025.
Proof.
  split; [reflexivity|].
  apply (proj2 (getFiscalYearLabel_same_year april2024 march2025
                  ltac:(vm_compute; discriminate)
                  ltac:(vm_compute; discriminate))).
  reflexivity.
Defined.

Lemma buildApiUrl_trailing_slash_witness :
  dropTrailingSlash (js "https://reports.example/api")
  = js "https://reports.example/api"
  /\ Gmp.buildApiUrl E0 (js "https://reports.example/api" ++ js "/") (now E0)
     = Gmp.buildApiUrl E0 (js "https://reports.example/api") (now E0).
Proof.
  split; [reflexivity|].
  apply (proj1 (buildApiUrl_trailing_slash E0 (js "https://reports.example/api")
                  (now E0) eq_refl)).
Defined.

Lemma isClosingToday_without_dates_witness :
  get (JNum (number_of_Z 1712275200000)) (js "~Srt_Close") = Ok None
  /\ isClosingToday E0 Gmp.codePointText (JNum (number_of_Z 1712275200000))
       (js "2024-04-05") = Ok false.
Proof.
  split; [reflexivity|].
  apply (proj2 (isClosingToday_without_dates E0 Gmp.codePointText
                  (js "2024-04-05"))
           (JNum (number_of_Z 1712275200000)) None None eq_refl eq_refl).
  intros text. discriminate.
Defined.

Lemma missing_configuration_witness :
  present (env_BOT_TOKEN E_noToken) = None
  /\ Gmp.script E_noToken W_up [] = (Ok 1%Z, [])
  /\ Handler.handler E_noToken W_up [] = (Ok missingVariables, []).
Proof.
  split; [reflexivity|].
  apply (missing_configuration E_noToken W_up []).
  right. left. reflexivity.
Defined.

Lemma upstream_failure_witness :
  report_service W_down (Handler.buildApiUrl E0 API_URL (now E0))
  = Response 503 (Throw (Error (js "invalid json")))
  /\ Handler.handler E0 W_down []
     = (Ok (errorResponse E0 (Error (js "API error " ++ decimalZ 503))),
        [] ++ [GET (Handler.buildApiUrl E0 API_URL (now E0))]).
Proof.
  split; [reflexivity|].
  apply (proj2 (upstream_failure E0 W_down API_URL BOT_TOKEN CHAT_ID [] 503
                  (Throw (Error (js "invalid json")))
                  eq_refl eq_refl eq_refl ltac:(right; lia))).
  reflexivity.
Defined.

Lemma stripHtml_idempotent_witness :
  includes (js "&") (js "<b>ABC</b>  Co") = false
  /\ stripHtml Gmp.codePointText (Some (JStr (js "ABC Co"))) = Ok (js "ABC Co").
Proof.
  split; [reflexivity|].
  apply (stripHtml_idempotent Gmp.codePointText (js "<b>ABC</b>  Co")).
  - reflexivity.
  - vm_compute. reflexivity.
Defined.

Lemma successful_run_witness :
  successFlag acknowledgement = true
  /\ exists message,
       Gmp.formatMessage E0 (JObj [(js "reportTableData", JArr [row])])
       = Ok message
       /\ Handler.handler E0 W_up []
          = (Ok {| Handler.status := 200;
                   Handler.body := JObj [(js "ok", JBool true);
                                         (js "sent", JStr (nowIso E0))] |},
             [] ++ [GET (Handler.buildApiUrl E0 API_URL (now E0));
                    POST (telegramUrl BOT_TOKEN) (telegramBody CHAT_ID message)]).
Proof.
  split; [reflexivity|].
  destruct (Gmp.formatMessage E0 (JObj [(js "reportTableData", JArr [row])]))
    as [message|e] eqn:Hmessage; [|vm_compute in Hmessage; discriminate].
  exists message. split; [reflexivity|].
  apply (proj2 (successful_run E0 W_up API_URL BOT_TOKEN CHAT_ID [] 200
                  (JObj [(js "reportTableData", JArr [row])]) message 200
                  acknowledgement eq_refl eq_refl eq_refl
                  ltac:(lia) Hmessage eq_refl eq_refl)).
  reflexivity.
Defined.

Lemma normalizeDate_sentinel_witness :
  trim (js "   ") = [] /\ normalizeDate E0 (Some (JStr (js "   "))) = Ok None.
Proof.
  split; [reflexivity|].
  apply (normalizeDate_sentinel E0 (Some (JStr (js "   ")))). reflexivity.
Defined.

Lemma normalizeDate_form_witness :
  normalizeDate E0 (Some (JStr (js "5-Apr"))) = Ok (Some (js "2024-04-05"))
  /\ isIsoDate (js "2024-04-05") = true.
Proof.
  assert (H : normalizeDate E0 (Some (JStr (js "5-Apr")))
              = Ok (Some (js "2024-04-05"))) by (vm_compute; reflexivity).
  split; [exact H|].
  destruct (normalizeDate_form E0 _ _ ltac:(vm_compute; split; discriminate) H)
    as [Hform|(s & t & Hv & Hparse & _)]; [exact Hform|].
  injection Hv as <-. vm_compute in Hparse. discriminate Hparse.
Defined.

End MoreRuns.
